(** * emer.land.api: the query-building, pagination and enrichment layer

    A shallow embedding of [src/config/db/accounts.js],
    [src/config/db/characters.js] and of the route handlers of
    [src/api/login/account.js] and [src/api/game/characters/*.js] that call
    them, followed by the properties of that layer.

    Conventions of the embedding.
    - A string is held as the bytes of its UTF-8 text.  A raw query-string or
      path parameter is an [option string]: [None] is JavaScript's
      [undefined], [Some s] the string Express hands over.
    - A JavaScript number that the code obtains from [parseInt] or from
      arithmetic on such numbers is a [jsnum]: an integer-valued double,
      [NaN], or an infinity.  Arithmetic rounds as doubles do ([to_double]).
      The sign of a zero and of an infinity is not recorded, since nothing in
      this layer tells them apart: both zeros print as 0, both infinities are
      refused by the database and are [null] in a JSON body.
    - A row count is below 2^53, where [Math.ceil(total / limit)] is the
      ceiling of the exact quotient.
    - [throw] is the [Throw] constructor of [result]; [await] is sequencing.
    - [Date.now()] is a parameter, in seconds, one for each place that reads
      the clock: [now] where a WHERE clause is built, [clock i] in the
      callback that [getAccounts] runs on the row at index [i] of its page.
    - A table is the list of its rows in the order in which the statement at
      hand scans them; rows with equal sort keys keep that order, so two
      statements that may break ties differently are given two scans of the
      same rows.  A statement goes to the engine model as the SQL text and
      the replacements the code sends, together with the list of predicates
      that the text spells out, which is what the model evaluates; the
      builders are proved to write exactly the text and the replacements of
      that list. *)

From Stdlib Require Import ZArith List String Ascii Bool Lia Permutation Sorted.
Import ListNotations.

Local Open Scope Z_scope.
Local Open Scope string_scope.

(* ================================================================== *)
(** * JavaScript primitives used by the layer *)
(* ================================================================== *)

Module JS.

Inductive jsnum : Type :=
| Num (z : Z)
| NaN
| Infinity.   (* an infinity of either sign *)

(** Exceptions that can leave a repository function or a handler. *)
Inductive exn : Type :=
| RangeError   (* Date.prototype.toISOString on an invalid time value *)
| DbError.     (* the query was rejected by the database engine *)

Inductive result (A : Type) : Type :=
| Ok (a : A)
| Throw (e : exn).
Arguments Ok {A} a.
Arguments Throw {A} e.

Definition bind {A B} (r : result A) (k : A -> result B) : result B :=
  match r with
  | Ok a => k a
  | Throw e => Throw e
  end.

Notation "x <- r ;; k" := (bind r (fun x => k))
  (at level 61, r at next level, right associativity).

Fixpoint mapM {A B} (f : A -> result B) (l : list A) : result (list B) :=
  match l with
  | [] => Ok []
  | a :: l' => b <- f a ;; bs <- mapM f l' ;; Ok (b :: bs)
  end.

(** ToBoolean on the values the code tests. *)
Definition truthy_str (v : option string) : bool :=
  match v with
  | Some (String _ _) => true
  | _ => false
  end.

Definition truthy_num (n : jsnum) : bool :=
  match n with
  | Num z => negb (z =? 0)%Z
  | NaN => false
  | Infinity => true
  end.

(** [v === 'lit'] for a raw value [v]. *)
Definition strict_eq_str (v : option string) (lit : string) : bool :=
  match v with
  | Some s => String.eqb s lit
  | None => false
  end.

Definition defined {A} (v : option A) : bool :=
  match v with
  | Some _ => true
  | None => false
  end.

(** ** [parseInt(s, 10)] *)

Definition is_digit (c : ascii) : bool :=
  ((48 <=? nat_of_ascii c) && (nat_of_ascii c <=? 57))%nat.

Definition digit_val (c : ascii) : Z := Z.of_nat (nat_of_ascii c) - 48.

(** The members of StrWhiteSpaceChar that are one byte long: TAB, LF, VT,
    FF, CR, SP. *)
Definition is_space (c : ascii) : bool :=
  let n := nat_of_ascii c in
  ((9 <=? n) && (n <=? 13) || (n =? 32))%nat.

(** U+00A0, the no-break space, in UTF-8. *)
Definition is_space2 (a b : ascii) : bool :=
  ((nat_of_ascii a =? 194) && (nat_of_ascii b =? 160))%nat.

(** The members of three bytes: U+1680; U+2000 to U+200A, U+2028, U+2029,
    U+202F; U+205F; U+3000; U+FEFF. *)
Definition is_space3 (a b c : ascii) : bool :=
  let x := nat_of_ascii a in
  let y := nat_of_ascii b in
  let z := nat_of_ascii c in
  ((x =? 225) && (y =? 154) && (z =? 128) ||
   (x =? 226) && (y =? 128) &&
     ((128 <=? z) && (z <=? 138) || (z =? 168) || (z =? 169) || (z =? 175)) ||
   (x =? 226) && (y =? 129) && (z =? 159) ||
   (x =? 227) && (y =? 128) && (z =? 128) ||
   (x =? 239) && (y =? 187) && (z =? 191))%nat.

(** The text after its leading white space and line terminators. *)
Fixpoint skip_ws (s : string) : string :=
  match s with
  | String a r =>
      if is_space a then skip_ws r
      else
        match r with
        | String b r1 =>
            if is_space2 a b then skip_ws r1
            else
              match r1 with
              | String c r2 => if is_space3 a b c then skip_ws r2 else s
              | EmptyString => s
              end
        | EmptyString => s
        end
  | EmptyString => s
  end.

(** The longest prefix of decimal digits, most significant first. *)
Fixpoint take_digits (s : string) : list Z :=
  match s with
  | String c r => if is_digit c then digit_val c :: take_digits r else []
  | EmptyString => []
  end.

Definition digits_value (ds : list Z) : Z :=
  fold_left (fun acc d => 10 * acc + d) ds 0.

(** ** Integers as doubles *)

(** 2^53: below it every integer is a double. *)
Definition two53 : Z := 9007199254740992.

(** The double nearest to the integer [z], a tie going to the even
    significand.  From 2^53 on the doubles are [q * 2^e] with a significand
    [2^52 <= q < 2^53]; an integer that rounds to 2^1024 or more has no
    double and becomes an infinity. *)
Definition to_double (z : Z) : jsnum :=
  let a := Z.abs z in
  if (a <? two53)%Z then Num z
  else
    let e := Z.log2 a - 52 in
    let q := Z.shiftr a e in
    let r := a - Z.shiftl q e in
    let half := Z.shiftl 1 (e - 1) in
    let q' :=
      if (r <? half)%Z then q
      else if (half <? r)%Z then q + 1
      else if Z.even q then q else q + 1 in
    let v := Z.shiftl q' e in
    if (1024 <=? Z.log2 v)%Z then Infinity else Num (Z.sgn z * v).

(** [parseInt(s, 10)]: white space, a sign, then the digits up to the
    first character that is none, read as Node's engine reads them, to the
    nearest double. *)
Definition parseInt (s : string) : jsnum :=
  let s1 := skip_ws s in
  let '(neg, s2) :=
    match s1 with
    | String "-" r => (true, r)
    | String "+" r => (false, r)
    | _ => (false, s1)
    end in
  match take_digits s2 with
  | [] => NaN
  | ds => to_double (if neg then - digits_value ds else digits_value ds)
  end.

Definition isNaN (n : jsnum) : bool :=
  match n with
  | NaN => true
  | _ => false
  end.

(** ** [String.prototype.toLowerCase]

    Only the ASCII letters are mapped.  The code compares the result with
    ['desc'] alone, and no character outside ASCII lowercases to one of
    [d], [e], [s], [c], so the comparison is decided as in the engine. *)
Definition lower_char (c : ascii) : ascii :=
  let n := nat_of_ascii c in
  if ((65 <=? n) && (n <=? 90))%nat then ascii_of_nat (n + 32) else c.

Fixpoint toLowerCase (s : string) : string :=
  match s with
  | String c r => String (lower_char c) (toLowerCase r)
  | EmptyString => EmptyString
  end.

(** The line break inside a template literal. *)
Definition nl : string := String "010"%char "".

(** [array.map(callback)] for a callback that may throw and whose result
    depends on when it runs: the call on the element at index [i] is
    [f i]. *)
Fixpoint mapM_from {A B} (f : nat -> A -> result B) (i : nat) (l : list A)
    : result (list B) :=
  match l with
  | [] => Ok []
  | a :: l' => b <- f i a ;; bs <- mapM_from f (S i) l' ;; Ok (b :: bs)
  end.

Definition mapM_indexed {A B} (f : nat -> A -> result B) (l : list A)
    : result (list B) :=
  mapM_from f 0 l.

(** [Array.prototype.includes] on an array of strings. *)
Definition includes (l : list string) (s : string) : bool :=
  existsb (String.eqb s) l.

(** ** Arithmetic on [jsnum] as far as the layer uses it *)

(** [a - 1] *)
Definition pred_num (a : jsnum) : jsnum :=
  match a with
  | Num z => to_double (z - 1)
  | other => other
  end.

(** [a * b] *)
Definition mul_num (a b : jsnum) : jsnum :=
  match a, b with
  | Num x, Num y => to_double (x * y)
  | NaN, _ | _, NaN => NaN
  | Infinity, Num y => if (y =? 0)%Z then NaN else Infinity
  | Num x, Infinity => if (x =? 0)%Z then NaN else Infinity
  | Infinity, Infinity => Infinity
  end.

(** The ceiling of the rational [a / b], for [b <> 0]. *)
Definition ceil_div (a b : Z) : Z := - ((- a) / b).

(** [Math.ceil(total / limit)] for an integer [total >= 0]. *)
Definition ceil_quot (total : Z) (limit : jsnum) : jsnum :=
  match limit with
  | Num 0 => if (total =? 0)%Z then NaN else Infinity
  | Num l => Num (ceil_div total l)
  | NaN => NaN
  | Infinity => Num 0
  end.

End JS.
Import JS.

(* ================================================================== *)
(** * Dates: the ECMAScript time arithmetic behind [Date] *)
(* ================================================================== *)

Module JSDate.

Definition msPerDay : Z := 86400000.

(** The time values a [Date] can hold: TimeClip keeps [|tv| <= 8.64e15]. *)
Definition maxTime : Z := 8640000000000000.

Definition TimeClip (tv : Z) : jsnum :=
  if (Z.abs tv <=? maxTime)%Z then Num tv else NaN.

Definition is_leap (y : Z) : bool :=
  ((y mod 4 =? 0) && negb (y mod 100 =? 0) || (y mod 400 =? 0))%Z.

Definition DaysInYear (y : Z) : Z := if is_leap y then 366 else 365.

Definition DayFromYear (y : Z) : Z :=
  365 * (y - 1970) + (y - 1969) / 4 - (y - 1901) / 100 + (y - 1601) / 400.

(** YearFromTime: the largest [y] with [DayFromYear y <= day].  The year of
    the mean Gregorian calendar is off by at most one. *)
Definition YearFromDay (day : Z) : Z :=
  let y := 1970 + (400 * day) / 146097 in
  if (day <? DayFromYear y)%Z then y - 1
  else if (DayFromYear (y + 1) <=? day)%Z then y + 1
  else y.

(** MonthFromTime (0-based) and DateFromTime (1-based), from the day within
    the year [dwy] and the leap flag, as tabulated in the language
    specification. *)
Definition MonthFromDay (leap : bool) (dwy : Z) : Z :=
  let l := if leap then 1 else 0 in
  if (dwy <? 31)%Z then 0
  else if (dwy <? 59 + l)%Z then 1
  else if (dwy <? 90 + l)%Z then 2
  else if (dwy <? 120 + l)%Z then 3
  else if (dwy <? 151 + l)%Z then 4
  else if (dwy <? 181 + l)%Z then 5
  else if (dwy <? 212 + l)%Z then 6
  else if (dwy <? 243 + l)%Z then 7
  else if (dwy <? 273 + l)%Z then 8
  else if (dwy <? 304 + l)%Z then 9
  else if (dwy <? 334 + l)%Z then 10
  else 11.

(** Days of the year before month [m] (0-based). *)
Definition month_start (leap : bool) (m : Z) : Z :=
  let l := if leap then 1 else 0 in
  match m with
  | 0 => 0
  | 1 => 31
  | 2 => 59 + l
  | 3 => 90 + l
  | 4 => 120 + l
  | 5 => 151 + l
  | 6 => 181 + l
  | 7 => 212 + l
  | 8 => 243 + l
  | 9 => 273 + l
  | 10 => 304 + l
  | _ => 334 + l
  end.

Definition DateFromDay (leap : bool) (dwy : Z) : Z :=
  dwy - month_start leap (MonthFromDay leap dwy) + 1.

(** Days in month [m] (1-based) of year [y]. *)
Definition DaysInMonth (y m : Z) : Z :=
  match m with
  | 2 => if is_leap y then 29 else 28
  | 4 | 6 | 9 | 11 => 30
  | _ => 31
  end.

(** MakeDay(year, month, date) for a month in [0, 11]: the day number of the
    first of the month plus [date - 1]; a [date] past the end of the month
    runs over into the next one. *)
Definition MakeDay (year month date : Z) : Z :=
  DayFromYear year + month_start (is_leap year) month + date - 1.

(** ** Rendering *)

Definition digit_char (d : Z) : ascii := ascii_of_nat (48 + Z.to_nat d).

(** The [k] low decimal digits of [n], written in front of [acc]. *)
Fixpoint pad_digits (k : nat) (n : Z) (acc : string) : string :=
  match k with
  | O => acc
  | S k' => pad_digits k' (n / 10) (String (digit_char (n mod 10)) acc)
  end.

Definition pad (k : nat) (n : Z) : string := pad_digits k n "".

(** The year of the ISO format: four digits for years 0 to 9999, otherwise a
    sign and six digits. *)
Definition iso_year (y : Z) : string :=
  if ((0 <=? y) && (y <=? 9999))%Z then pad 4 y
  else if (y <? 0)%Z then String "-" (pad 6 (- y))
  else String "+" (pad 6 y).

Definition iso_string (y mo d h mi s ms : Z) : string :=
  iso_year y ++ "-" ++ pad 2 mo ++ "-" ++ pad 2 d ++ "T" ++
  pad 2 h ++ ":" ++ pad 2 mi ++ ":" ++ pad 2 s ++ "." ++ pad 3 ms ++ "Z".

(** [Date.prototype.toISOString] on the time value [tv]. *)
Definition toISOString (tv : jsnum) : result string :=
  match tv with
  | Num t =>
      let day := t / msPerDay in
      let tid := t mod msPerDay in
      let y := YearFromDay day in
      let dwy := day - DayFromYear y in
      let leap := is_leap y in
      Ok (iso_string y (MonthFromDay leap dwy + 1) (DateFromDay leap dwy)
            (tid / 3600000) (tid / 60000 mod 60) (tid / 1000 mod 60)
            (tid mod 1000))
  | _ => Throw RangeError
  end.

(** [new Date(secs * 1000).toISOString()] for an integer [secs]. *)
Definition iso_of_seconds (secs : Z) : result string :=
  toISOString (TimeClip (secs * 1000)).

(** ** Parsing the date-only form *)

(** The test [value.match(/^\d{4}-\d{2}-\d{2}$/)]. *)
Definition is_ymd_shape (s : string) : bool :=
  match s with
  | String y1 (String y2 (String y3 (String y4 (String s1
      (String m1 (String m2 (String s2 (String d1 (String d2 ""))))))))) =>
      is_digit y1 && is_digit y2 && is_digit y3 && is_digit y4 &&
      Ascii.eqb s1 "-" && is_digit m1 && is_digit m2 &&
      Ascii.eqb s2 "-" && is_digit d1 && is_digit d2
  | _ => false
  end.

(** The year, month and day fields of a string of that shape. *)
Definition ymd_fields (s : string) : Z * Z * Z :=
  match s with
  | String y1 (String y2 (String y3 (String y4 (String _
      (String m1 (String m2 (String _ (String d1 (String d2 _))))))))) =>
      (digits_value [digit_val y1; digit_val y2; digit_val y3; digit_val y4],
       digits_value [digit_val m1; digit_val m2],
       digits_value [digit_val d1; digit_val d2])
  | _ => (0, 0, 0)
  end.

(** [new Date(s).getTime()] for [s] of the date-only shape, as Node's engine
    reads it: UTC midnight; the month must be 1 to 12 and the day 1 to 31,
    anything else is an invalid date, whose time value is [NaN]. *)
Definition Date_parse_ymd (s : string) : jsnum :=
  let '(y, m, d) := ymd_fields s in
  if ((1 <=? m) && (m <=? 12) && (1 <=? d) && (d <=? 31))%Z
  then TimeClip (MakeDay y (m - 1) d * msPerDay)
  else NaN.

(** [Math.floor(tv / 1000)] *)
Definition floor_div_1000 (tv : jsnum) : jsnum :=
  match tv with
  | Num t => Num (t / 1000)
  | other => other
  end.

End JSDate.
Import JSDate.

(* ================================================================== *)
(** * [parseTimestamp] (the same text in accounts.js and characters.js) *)
(* ================================================================== *)

(** [None] is JavaScript's [null]. *)
Definition parseTimestamp (value : option string) : option jsnum :=
  if negb (truthy_str value) then None
  else
    match value with
    | Some s =>
        if is_ymd_shape s then Some (floor_div_1000 (Date_parse_ymd s))
        else
          let timestamp := parseInt s in
          if isNaN timestamp then None else Some timestamp
    | None => None
    end.


(* ================================================================== *)
(** * The database engine, as far as the layer relies on it *)
(* ================================================================== *)

Module Sql.

(** A value bound to a [?] placeholder. *)
Inductive param : Type :=
| PStr (s : string)
| PNum (n : jsnum).

(** A column value of a stored row. *)
Inductive value : Type :=
| VInt (z : Z)
| VStr (s : string)
| VNull.

Definition vint (v : option Z) : value :=
  match v with
  | Some z => VInt z
  | None => VNull
  end.

Definition vstr (v : option string) : value :=
  match v with
  | Some s => VStr s
  | None => VNull
  end.

Inductive cmp : Type := Like | Eq | Ge | Le | Gt.

Inductive operand : Type :=
| Bound (p : param)      (* a [?] with its replacement *)
| Literal (z : Z).       (* a number written in the SQL text *)

(** One predicate [`column` op operand] of a WHERE clause. *)
Record cond : Type := mkCond { c_col : string; c_op : cmp; c_rhs : operand }.

Definition cmp_text (o : cmp) : string :=
  match o with
  | Like => "LIKE"
  | Eq => "="
  | Ge => ">="
  | Le => "<="
  | Gt => ">"
  end.

Definition operand_text (r : operand) : string :=
  match r with
  | Bound _ => "?"
  | Literal z => pad_digits 1 z ""
  end.

Definition cond_text (c : cond) : string :=
  "`" ++ c_col c ++ "` " ++ cmp_text (c_op c) ++ " " ++ operand_text (c_rhs c).

Definition cond_params (c : cond) : list param :=
  match c_rhs c with
  | Bound p => [p]
  | Literal _ => []
  end.

(** The text and the replacement list of a conjunction of predicates. *)
Fixpoint conj_text (cs : list cond) : string :=
  match cs with
  | [] => ""
  | [c] => cond_text c
  | c :: rest => cond_text c ++ " AND " ++ conj_text rest
  end.

Definition where_text (cs : list cond) : string :=
  match cs with
  | [] => ""
  | _ => "WHERE " ++ conj_text cs
  end.

Definition where_params (cs : list cond) : list param :=
  flat_map cond_params cs.

(** [LIKE] under a binary collation: [%] matches any run of characters and
    [_] any single one. *)
Fixpoint like (pat : string) : string -> bool :=
  match pat with
  | EmptyString => fun s => match s with EmptyString => true | _ => false end
  | String "%" pat' =>
      fix skip (s : string) : bool :=
        like pat' s ||
        match s with
        | String _ s' => skip s'
        | EmptyString => false
        end
  | String "_" pat' =>
      fun s => match s with String _ s' => like pat' s' | EmptyString => false end
  | String c pat' =>
      fun s =>
        match s with
        | String d s' => Ascii.eqb c d && like pat' s'
        | EmptyString => false
        end
  end.

Definition cmp_int (o : cmp) (a b : Z) : bool :=
  match o with
  | Eq => (a =? b)%Z
  | Ge => (a >=? b)%Z
  | Le => (a <=? b)%Z
  | Gt => (a >? b)%Z
  | Like => false
  end.

(** A predicate on one row.  A NULL column satisfies no predicate.  The
    queries of this layer only compare integer columns with integers, match
    string columns against patterns and look a string key up; no other
    pairing is given a meaning. *)
Definition holds (lookup : string -> value) (c : cond) : bool :=
  match lookup (c_col c), c_op c, c_rhs c with
  | VInt a, o, Bound (PNum (Num b)) => cmp_int o a b
  | VInt a, o, Literal b => cmp_int o a b
  | VStr s, Like, Bound (PStr pat) => like pat s
  | VStr s, Eq, Bound (PStr t) => String.eqb s t
  | _, _, _ => false
  end.

(** 2^64: LIMIT and OFFSET are below it. *)
Definition two64 : Z := 18446744073709551616.

(** A replacement the engine can read.  [NaN] and an infinity are written
    into the statement as the bare words NaN and Infinity, which the engine
    rejects. *)
Definition param_ok (p : param) : bool :=
  match p with
  | PNum (Num _) => true
  | PNum _ => false
  | PStr _ => true
  end.

(** [NULL], then integers, then strings. *)
Definition value_leb (a b : value) : bool :=
  match a, b with
  | VNull, _ => true
  | _, VNull => false
  | VInt x, VInt y => (x <=? y)%Z
  | VInt _, VStr _ => true
  | VStr _, VInt _ => false
  | VStr s, VStr t => String.leb s t
  end.

Section Engine.
Context {Row : Type}.
Variable lookup : Row -> string -> value.

(** The rows a WHERE clause keeps. *)
Definition select_where (cs : list cond) (table : list Row) : list Row :=
  filter (fun r => forallb (holds (lookup r)) cs) table.

(** ORDER BY [field] ASC|DESC.  Rows with equal keys come out in the order
    of the scan, which is the order of the list the statement is given. *)
Definition comes_before (field : string) (desc : bool) (a b : Row) : bool :=
  if desc then value_leb (lookup b field) (lookup a field)
  else value_leb (lookup a field) (lookup b field).

Fixpoint insert_sorted (field : string) (desc : bool) (r : Row)
    (sorted : list Row) : list Row :=
  match sorted with
  | [] => [r]
  | x :: rest =>
      if comes_before field desc r x then r :: sorted
      else x :: insert_sorted field desc r rest
  end.

Definition order_by (field : string) (desc : bool) (rows : list Row)
    : list Row :=
  fold_right (insert_sorted field desc) [] rows.

(** A statement reaches the engine as its text [sql] and the list
    [replacements] for its placeholders.  The engine model evaluates
    [meaning], the predicate list that the WHERE clause of [sql] spells out;
    for the builders of this layer the two are proved to agree. *)

(** [SELECT COUNT( * ) ...] *)
Definition count_query (sql : string) (replacements : list param)
    (meaning : list cond) (table : list Row) : result Z :=
  if forallb param_ok replacements
  then Ok (Z.of_nat (List.length (select_where meaning table)))
  else Throw DbError.

(** [SELECT * ...] *)
Definition rows_query (sql : string) (replacements : list param)
    (meaning : list cond) (table : list Row) : result (list Row) :=
  if forallb param_ok replacements
  then Ok (select_where meaning table)
  else Throw DbError.

(** [SELECT ... ORDER BY field dir LIMIT ? OFFSET ?], the last two
    replacements being the limit and the offset.  The engine reads either as
    an unsigned integer of 64 bits and refuses anything else: a negative
    number, a number of 2^64 or more (from 10^21 on it is not even written
    in digits alone). *)
Definition page_query (sql : string) (replacements : list param)
    (meaning : list cond) (field : string) (desc : bool)
    (table : list Row) : result (list Row) :=
  if forallb param_ok replacements then
    match rev replacements with
    | PNum (Num o) :: PNum (Num l) :: _ =>
        if ((0 <=? l) && (l <? two64) && (0 <=? o) && (o <? two64))%Z then
          Ok (firstn (Z.to_nat l)
                (skipn (Z.to_nat o)
                   (order_by field desc (select_where meaning table))))
        else Throw DbError
    | _ => Throw DbError
    end
  else Throw DbError.
End Engine.

End Sql.
Import Sql.

(* ================================================================== *)
(** * HTTP responses of the route handlers *)
(* ================================================================== *)

Module Http.

Inductive body (A : Type) : Type :=
| Json (payload : A)
| Failure (error : string) (details : option string).
Arguments Json {A} payload.
Arguments Failure {A} error details.

Record response (A : Type) : Type := mkResponse { status : Z; content : body A }.
Arguments mkResponse {A} status content.
Arguments status {A} r.
Arguments content {A} r.

(** [res.json(x)] answers 200. *)
Definition json {A} (x : A) : response A := mkResponse 200 (Json x).

Definition fail {A} (code : Z) (error : string) (details : option string)
    : response A :=
  mkResponse code (Failure error details).

(** [error.message] of a caught exception. *)
Definition message (e : exn) : string :=
  match e with
  | RangeError => "Invalid time value"
  | DbError => "database error"
  end.

End Http.
Import Http.

(** [whereClause += (whereClause ? " AND " : "") + fragment] *)
Definition and_also (whereClause fragment : string) : string :=
  whereClause ++
  (match whereClause with EmptyString => "" | _ => " AND " end) ++ fragment.

(** [params.push(p)] *)
Definition push {A} (params : list A) (p : A) : list A := (params ++ [p])%list.

(** One guarded block of a builder:
    [if (test) { whereClause += ... + fragment; params.push(p); }],
    acting on the pair of accumulators. *)
Definition when_ (test : bool) (fragment : string) (p : param)
    (acc : string * list param) : string * list param :=
  if test then (and_also (fst acc) fragment, push (snd acc) p) else acc.

(** The last statement of a builder:
    [whereClause ? `WHERE ${whereClause}` : ""] next to [params]. *)
Definition finish (acc : string * list param) : string * list param :=
  (match fst acc with
   | EmptyString => ""
   | _ => "WHERE " ++ fst acc
   end,
   snd acc).

(** [`%${v}%`] for a filter value that passed the truthiness test. *)
Definition substring_pattern (v : option string) : string :=
  "%" ++ (match v with Some s => s | None => "undefined" end) ++ "%".

(** [parseInt(v, 10)] for a filter value; [undefined] reads as a word. *)
Definition parseInt_raw (v : option string) : jsnum :=
  match v with
  | Some s => parseInt s
  | None => NaN
  end.

(** The number of decimal digits of [a >= 1]. *)
Fixpoint count_digits (fuel : nat) (a : Z) : Z :=
  match fuel with
  | O => 1
  | S fuel' => if (a <? 10)%Z then 1 else 1 + count_digits fuel' (a / 10)
  end.

Definition decimal_length (a : Z) : Z :=
  count_digits (Z.to_nat (Z.log2 a)) a.

(** The text [v] reads back as the double [a]. *)
Definition reads_back (v a : Z) : bool :=
  match to_double v with
  | Num w => (w =? a)%Z
  | _ => false
  end.

(** [String(a)] for a double [a >= 1], as the integer its digits spell: the
    fewest significant digits, [k] or more, that read back as [a], and of
    two such texts the nearer one. *)
Fixpoint shortest_text (fuel : nat) (k : Z) (a : Z) : Z :=
  match fuel with
  | O => a
  | S fuel' =>
      let m := 10 ^ (decimal_length a - k) in
      let lo := a / m * m in
      let hi := lo + m in
      match reads_back lo a, reads_back hi a with
      | true, true =>
          if (a - lo <? hi - a)%Z then lo
          else if (hi - a <? a - lo)%Z then hi
          else if Z.even (a / m) then lo else hi
      | true, false => lo
      | false, true => hi
      | false, false => shortest_text fuel' (k + 1) a
      end
  end.

(** [parseInt(n, 10)] for a number: its text read back.  Below 10^21 the
    text is all digits and reads back as the number; from there on it is
    [d.ddde+NN], of which [parseInt] reads the first digit. *)
Definition parseInt_num (n : jsnum) : jsnum :=
  match n with
  | Num z =>
      let a := Z.abs z in
      if (a <? 10 ^ 21)%Z then to_double z
      else
        let t := shortest_text (Z.to_nat (decimal_length a)) 1 a in
        Num (Z.sgn z * (t / 10 ^ (decimal_length t - 1)))
  | _ => NaN
  end.

Definition truthy_ts (t : option jsnum) : bool :=
  match t with
  | Some n => truthy_num n
  | None => false
  end.

(** The value pushed for a timestamp that passed [if (timestamp)]. *)
Definition ts_param (t : option jsnum) : param :=
  match t with
  | Some n => PNum n
  | None => PNum NaN
  end.

(** ToNumber of a numeric column: [null] counts as 0. *)
Definition to_number (v : option Z) : Z :=
  match v with
  | Some z => z
  | None => 0
  end.

Definition truthy_col (v : option Z) : bool := negb (to_number v =? 0)%Z.

(** A destructuring default: [{ k = d } = options]. *)
Definition default {A} (v : option A) (d : A) : A :=
  match v with
  | Some a => a
  | None => d
  end.

(** [if (v) filters.k = v] *)
Definition keep_truthy (v : option string) : option string :=
  if truthy_str v then v else None.

(** [parseInt(v || d, 10)] for a raw query value [v] and a number [d]. *)
Definition parseInt_or (v : option string) (d : Z) : jsnum :=
  if truthy_str v then parseInt_raw v else Num d.

(** [v || d] for a raw query value and a string. *)
Definition str_or (v : option string) (d : string) : string :=
  match v with
  | Some (String _ _ as s) => s
  | _ => d
  end.

(** [(page - 1) * limit] *)
Definition offset_of (page limit : jsnum) : jsnum :=
  mul_num (pred_num page) limit.

(** Pagination metadata of every list result. *)
Record Pagination : Type := mkPagination {
  total : Z;
  page : jsnum;
  limit : jsnum;
  totalPages : jsnum
}.

(* ================================================================== *)
(** * Accounts repository: [src/config/db/accounts.js] *)
(* ================================================================== *)

Module Accounts.

(** A row of the [accounts] table. *)
Record Row : Type := mkRow {
  login : string;
  password : string;
  accessLevel : option Z;
  lastactive : option Z;
  lastIP : option string;
  lastHWID : option string;
  lastServerId : option Z;
  ban_expire : option Z;
  l2email : option string
}.

Definition lookup (r : Row) (column : string) : value :=
  if String.eqb column "login" then VStr (login r)
  else if String.eqb column "password" then VStr (password r)
  else if String.eqb column "accessLevel" then vint (accessLevel r)
  else if String.eqb column "lastactive" then vint (lastactive r)
  else if String.eqb column "lastIP" then vstr (lastIP r)
  else if String.eqb column "lastHWID" then vstr (lastHWID r)
  else if String.eqb column "lastServerId" then vint (lastServerId r)
  else if String.eqb column "ban_expire" then vint (ban_expire r)
  else if String.eqb column "l2email" then vstr (l2email r)
  else VNull.

(** The [filters] object: a field is [None] when the key is not set. *)
Record Filters : Type := mkFilters {
  f_login : option string;
  f_email : option string;
  f_lastIP : option string;
  f_lastHWID : option string;
  f_lastServerId : option string;
  f_accessLevel : option string;
  f_lastActiveFrom : option string;
  f_lastActiveTo : option string;
  f_isBanned : option bool
}.

Definition no_filters : Filters :=
  mkFilters None None None None None None None None None.

Definition truthy_flag (v : option bool) : bool :=
  match v with
  | Some b => b
  | None => false
  end.

(** ** [buildWhereClause]: the text and the replacements, as the code
    accumulates them.  [now] is [Math.floor(Date.now() / 1000)]. *)
Definition buildWhereClause (now : Z) (filters : Filters)
    : string * list param :=
  let acc := ("", @nil param) in
  let acc :=
    when_ (truthy_str (f_login filters))
      "`login` LIKE ?" (PStr (substring_pattern (f_login filters))) acc in
  let acc :=
    when_ (truthy_str (f_email filters))
      "`l2email` LIKE ?" (PStr (substring_pattern (f_email filters))) acc in
  let acc :=
    when_ (truthy_str (f_lastIP filters))
      "`lastIP` LIKE ?" (PStr (substring_pattern (f_lastIP filters))) acc in
  let acc :=
    when_ (truthy_str (f_lastHWID filters))
      "`lastHWID` LIKE ?" (PStr (substring_pattern (f_lastHWID filters))) acc in
  let acc :=
    when_ (truthy_str (f_lastServerId filters))
      "`lastServerId` = ?" (PNum (parseInt_raw (f_lastServerId filters))) acc in
  let acc :=
    when_ (defined (f_accessLevel filters))
      "`accessLevel` = ?" (PNum (parseInt_raw (f_accessLevel filters))) acc in
  let acc :=
    let timestamp := parseTimestamp (f_lastActiveFrom filters) in
    when_ (truthy_str (f_lastActiveFrom filters) && truthy_ts timestamp)
      "`lastactive` >= ?" (ts_param timestamp) acc in
  let acc :=
    let timestamp := parseTimestamp (f_lastActiveTo filters) in
    when_ (truthy_str (f_lastActiveTo filters) && truthy_ts timestamp)
      "`lastactive` <= ?" (ts_param timestamp) acc in
  let acc :=
    when_ (truthy_flag (f_isBanned filters))
      "`ban_expire` > ?" (PNum (Num now)) acc in
  finish acc.

(** ** The same clause as a list of predicates, for the engine. *)
Definition where_conds (now : Z) (filters : Filters) : list cond :=
  ((if truthy_str (f_login filters)
   then [mkCond "login" Like (Bound (PStr (substring_pattern (f_login filters))))]
   else []) ++
  (if truthy_str (f_email filters)
   then [mkCond "l2email" Like (Bound (PStr (substring_pattern (f_email filters))))]
   else []) ++
  (if truthy_str (f_lastIP filters)
   then [mkCond "lastIP" Like (Bound (PStr (substring_pattern (f_lastIP filters))))]
   else []) ++
  (if truthy_str (f_lastHWID filters)
   then [mkCond "lastHWID" Like (Bound (PStr (substring_pattern (f_lastHWID filters))))]
   else []) ++
  (if truthy_str (f_lastServerId filters)
   then [mkCond "lastServerId" Eq (Bound (PNum (parseInt_raw (f_lastServerId filters))))]
   else []) ++
  (if defined (f_accessLevel filters)
   then [mkCond "accessLevel" Eq (Bound (PNum (parseInt_raw (f_accessLevel filters))))]
   else []) ++
  (if truthy_str (f_lastActiveFrom filters) &&
      truthy_ts (parseTimestamp (f_lastActiveFrom filters))
   then [mkCond "lastactive" Ge (Bound (ts_param (parseTimestamp (f_lastActiveFrom filters))))]
   else []) ++
  (if truthy_str (f_lastActiveTo filters) &&
      truthy_ts (parseTimestamp (f_lastActiveTo filters))
   then [mkCond "lastactive" Le (Bound (ts_param (parseTimestamp (f_lastActiveTo filters))))]
   else []) ++
  (if truthy_flag (f_isBanned filters)
   then [mkCond "ban_expire" Gt (Bound (PNum (Num now)))]
   else []))%list.

(** ** [exists(login)] *)
Definition exists_ (table : list Row) (login_ : string) : result bool :=
  count <-
    count_query lookup
      "SELECT COUNT(*) as count FROM accounts WHERE login = ?"
      [PStr login_]
      [mkCond "login" Eq (Bound (PStr login_))] table ;;
  Ok (count >? 0)%Z.

(** ** [getAccounts(options)] *)

Record Options : Type := mkOptions {
  o_page : option jsnum;
  o_limit : option jsnum;
  o_filters : option Filters;
  o_sortBy : option string;
  o_sortOrder : option string
}.

Definition validSortFields : list string :=
  ["login"; "lastactive"; "accessLevel"; "lastIP"; "lastHWID";
   "lastServerId"; "ban_expire"].

Definition sortField (sortBy : string) : string :=
  if includes validSortFields sortBy then sortBy else "login".

Definition order (sortOrder : string) : string :=
  if String.eqb (toLowerCase sortOrder) "desc" then "DESC" else "ASC".

(** [options] with the given [sortBy] and [sortOrder]. *)
Definition sorted_by (options : Options) (sortBy sortOrder : string)
    : Options :=
  mkOptions (o_page options) (o_limit options) (o_filters options)
    (Some sortBy) (Some sortOrder).

(** An element of [accounts]: the selected columns and the derived fields. *)
Record Listed : Type := mkListed {
  l_login : string;
  l_accessLevel : option Z;
  l_lastactive : option Z;
  l_lastIP : option string;
  l_lastHWID : option string;
  l_lastServerId : option Z;
  l_ban_expire : option Z;
  l_email : option string;
  lastactiveDate : option string;
  isBanned : bool;
  banExpireDate : option string
}.

(** The callback of [accountsData.map]. *)
Definition enrich (now : Z) (account : Row) : result Listed :=
  lastactiveDate_ <-
    (if truthy_col (lastactive account)
     then s <- iso_of_seconds (to_number (lastactive account)) ;; Ok (Some s)
     else Ok None) ;;
  let isBanned_ := (to_number (ban_expire account) >? now)%Z in
  banExpireDate_ <-
    (if (to_number (ban_expire account) >? now)%Z
     then s <- iso_of_seconds (to_number (ban_expire account)) ;; Ok (Some s)
     else Ok None) ;;
  Ok (mkListed (login account) (accessLevel account) (lastactive account)
        (lastIP account) (lastHWID account) (lastServerId account)
        (ban_expire account) (l2email account)
        lastactiveDate_ isBanned_ banExpireDate_).

Record AccountsPage : Type := mkAccountsPage {
  accounts : list Listed;
  pagination : Pagination
}.

(** The two statements of [getAccounts], as its template literals write
    them. *)
Definition countQuery (whereClause : string) : string :=
  nl ++ "                SELECT COUNT(*) as total " ++
  nl ++ "                FROM accounts " ++
  nl ++ "                " ++ whereClause ++
  nl ++ "            ".

Definition dataQuery (whereClause sortField order : string) : string :=
  nl ++ "                SELECT " ++
  nl ++ "                    login, " ++
  nl ++ "                    accessLevel, " ++
  nl ++ "                    lastactive," ++
  nl ++ "                    lastIP, " ++
  nl ++ "                    lastHWID, " ++
  nl ++ "                    lastServerId, " ++
  nl ++ "                    ban_expire," ++
  nl ++ "                    l2email as email" ++
  nl ++ "                FROM accounts " ++
  nl ++ "                " ++ whereClause ++ " " ++
  nl ++ "                ORDER BY " ++ sortField ++ " " ++ order ++
  nl ++ "                LIMIT ? OFFSET ?" ++
  nl ++ "            ".

(** [now] is the clock as [buildWhereClause] reads it, [clock i] as the
    callback of [accountsData.map] reads it for the row at index [i]. *)
Definition getAccounts (table : list Row) (now : Z) (clock : nat -> Z)
    (options : Options) : result AccountsPage :=
  let page := default (o_page options) (Num 1) in
  let limit := default (o_limit options) (Num 10) in
  let filters := default (o_filters options) no_filters in
  let sortBy := default (o_sortBy options) "login" in
  let sortOrder := default (o_sortOrder options) "asc" in
  let offset := offset_of page limit in
  let built := buildWhereClause now filters in
  let whereClause := fst built in
  let params := snd built in
  let sortField := sortField sortBy in
  let order := order sortOrder in
  let countQuery := countQuery whereClause in
  let dataQuery := dataQuery whereClause sortField order in
  total <- count_query lookup countQuery params (where_conds now filters)
             table ;;
  accountsData <-
    page_query lookup dataQuery (params ++ [PNum limit; PNum offset])%list
      (where_conds now filters) sortField (String.eqb order "DESC") table ;;
  accounts <- mapM_indexed (fun i => enrich (clock i)) accountsData ;;
  let totalPages := ceil_quot total limit in
  Ok (mkAccountsPage accounts
        (mkPagination total (parseInt_num page) (parseInt_num limit)
           totalPages)).

(** The text of the data query that [getAccounts] sends for [options]. *)
Definition dataQuery_of (now : Z) (options : Options) : string :=
  dataQuery
    (fst (buildWhereClause now (default (o_filters options) no_filters)))
    (sortField (default (o_sortBy options) "login"))
    (order (default (o_sortOrder options) "asc")).

(** ** Route [GET /api/login/account/list] *)

Record ListQuery : Type := mkListQuery {
  q_page : option string;
  q_limit : option string;
  q_login : option string;
  q_email : option string;
  q_lastIP : option string;
  q_lastHWID : option string;
  q_lastServerId : option string;
  q_accessLevel : option string;
  q_lastActiveFrom : option string;
  q_lastActiveTo : option string;
  q_isBanned : option string;
  q_sortBy : option string;
  q_sortOrder : option string
}.

Definition list_filters (q : ListQuery) : Filters :=
  mkFilters
    (keep_truthy (q_login q))
    (keep_truthy (q_email q))
    (keep_truthy (q_lastIP q))
    (keep_truthy (q_lastHWID q))
    (keep_truthy (q_lastServerId q))
    (q_accessLevel q)
    (keep_truthy (q_lastActiveFrom q))
    (keep_truthy (q_lastActiveTo q))
    (if strict_eq_str (q_isBanned q) "true" then Some true else None).

Definition list_options (q : ListQuery) : Options :=
  mkOptions
    (Some (parseInt_or (q_page q) 1))
    (Some (parseInt_or (q_limit q) 10))
    (Some (list_filters q))
    (Some (str_or (q_sortBy q) "login"))
    (Some (str_or (q_sortOrder q) "asc")).

Definition list_route (table : list Row) (now : Z) (clock : nat -> Z)
    (q : ListQuery) : response AccountsPage :=
  match getAccounts table now clock (list_options q) with
  | Ok result => json result
  | Throw error =>
      fail 500 "Ошибка при получении списка аккаунтов" (Some (message error))
  end.

(** ** Route [POST /api/login/account/:login/unban] *)

(** [UPDATE accounts SET ban_expire = 0 WHERE login = ?] *)
Definition clear_ban (login_ : string) (table : list Row) : list Row :=
  map (fun r =>
         if String.eqb (login r) login_
         then mkRow (login r) (password r) (accessLevel r) (lastactive r)
                (lastIP r) (lastHWID r) (lastServerId r) (Some 0) (l2email r)
         else r)
      table.

(** The body [{ success: true, message: "Бан успешно снят" }]. *)
Record Success : Type := mkSuccess { success : bool; message_ : string }.

(** The handler: the table after the request, and the response sent. *)
Definition unban_route (table : list Row) (login_ : string)
    : list Row * response Success :=
  match exists_ table login_ with
  | Ok accountExists =>
      if negb accountExists
      then (table, fail 404 "Аккаунт не найден" None)
      else (clear_ban login_ table,
            json (mkSuccess true "Бан успешно снят"))
  | Throw error =>
      (table, fail 500 "Ошибка при снятии бана" (Some (message error)))
  end.

End Accounts.

(* ================================================================== *)
(** * Characters repository: [src/config/db/characters.js] *)
(* ================================================================== *)

Module Characters.

(** A row of the [characters] table (the columns this layer names). *)
Record Row : Type := mkRow {
  obj_Id : Z;
  char_name : string;
  account_name : string;
  sex : option Z;
  createtime : option Z;
  deletetime : option Z;
  lastAccess : option Z;
  online : option Z;
  onlinetime : option Z;
  clanid : option Z;
  title : option string;
  pvpkills : option Z;
  pkkills : option Z;
  karma : option Z;
  accesslevel : option Z;
  x : option Z;
  y : option Z;
  z : option Z;
  base_class_id : option Z
}.

Definition lookup (r : Row) (column : string) : value :=
  if String.eqb column "obj_Id" then VInt (obj_Id r)
  else if String.eqb column "char_name" then VStr (char_name r)
  else if String.eqb column "account_name" then VStr (account_name r)
  else if String.eqb column "sex" then vint (sex r)
  else if String.eqb column "createtime" then vint (createtime r)
  else if String.eqb column "deletetime" then vint (deletetime r)
  else if String.eqb column "lastAccess" then vint (lastAccess r)
  else if String.eqb column "online" then vint (online r)
  else if String.eqb column "onlinetime" then vint (onlinetime r)
  else if String.eqb column "clanid" then vint (clanid r)
  else if String.eqb column "title" then vstr (title r)
  else if String.eqb column "pvpkills" then vint (pvpkills r)
  else if String.eqb column "pkkills" then vint (pkkills r)
  else if String.eqb column "karma" then vint (karma r)
  else if String.eqb column "accesslevel" then vint (accesslevel r)
  else if String.eqb column "x" then vint (x r)
  else if String.eqb column "y" then vint (y r)
  else if String.eqb column "z" then vint (z r)
  else if String.eqb column "base_class_id" then vint (base_class_id r)
  else VNull.

(** The [filters] object: a field is [None] when the key is not set. *)
Record Filters : Type := mkFilters {
  f_char_name : option string;
  f_account_name : option string;
  f_clanid : option string;
  f_online : option string;
  f_minLevel : option string;
  f_maxLevel : option string;
  f_createdAfter : option string;
  f_createdBefore : option string;
  f_lastAccessAfter : option string;
  f_lastAccessBefore : option string;
  f_sex : option string;
  f_deletedOnly : option string
}.

Definition no_filters : Filters :=
  mkFilters None None None None None None None None None None None None.

(** ** [buildWhereClause]: the text and the replacements, as the code
    accumulates them. *)
Definition buildWhereClause (filters : Filters) : string * list param :=
  let acc := ("", @nil param) in
  let acc :=
    when_ (truthy_str (f_char_name filters))
      "`char_name` LIKE ?" (PStr (substring_pattern (f_char_name filters)))
      acc in
  let acc :=
    when_ (truthy_str (f_account_name filters))
      "`account_name` LIKE ?"
      (PStr (substring_pattern (f_account_name filters))) acc in
  let acc :=
    when_ (truthy_str (f_clanid filters))
      "`clanid` = ?" (PNum (parseInt_raw (f_clanid filters))) acc in
  let acc :=
    when_ (defined (f_online filters))
      "`online` = ?"
      (PNum (if strict_eq_str (f_online filters) "true" then Num 1 else Num 0))
      acc in
  let acc :=
    when_ (defined (f_minLevel filters))
      "`base_class_id` >= ?" (PNum (parseInt_raw (f_minLevel filters))) acc in
  let acc :=
    when_ (defined (f_maxLevel filters))
      "`base_class_id` <= ?" (PNum (parseInt_raw (f_maxLevel filters))) acc in
  let acc :=
    let timestamp := parseTimestamp (f_createdAfter filters) in
    when_ (truthy_str (f_createdAfter filters) && truthy_ts timestamp)
      "`createtime` >= ?" (ts_param timestamp) acc in
  let acc :=
    let timestamp := parseTimestamp (f_createdBefore filters) in
    when_ (truthy_str (f_createdBefore filters) && truthy_ts timestamp)
      "`createtime` <= ?" (ts_param timestamp) acc in
  let acc :=
    let timestamp := parseTimestamp (f_lastAccessAfter filters) in
    when_ (truthy_str (f_lastAccessAfter filters) && truthy_ts timestamp)
      "`lastAccess` >= ?" (ts_param timestamp) acc in
  let acc :=
    let timestamp := parseTimestamp (f_lastAccessBefore filters) in
    when_ (truthy_str (f_lastAccessBefore filters) && truthy_ts timestamp)
      "`lastAccess` <= ?" (ts_param timestamp) acc in
  let acc :=
    when_ (defined (f_sex filters))
      "`sex` = ?" (PNum (parseInt_raw (f_sex filters))) acc in
  let acc :=
    if strict_eq_str (f_deletedOnly filters) "true"
    then (and_also (fst acc) "`deletetime` > 0", snd acc)
    else (and_also (fst acc) "`deletetime` = 0", snd acc) in
  finish acc.

(** ** The same clause as a list of predicates, for the engine. *)
Definition where_conds (filters : Filters) : list cond :=
  ((if truthy_str (f_char_name filters)
    then [mkCond "char_name" Like
            (Bound (PStr (substring_pattern (f_char_name filters))))]
    else []) ++
   (if truthy_str (f_account_name filters)
    then [mkCond "account_name" Like
            (Bound (PStr (substring_pattern (f_account_name filters))))]
    else []) ++
   (if truthy_str (f_clanid filters)
    then [mkCond "clanid" Eq (Bound (PNum (parseInt_raw (f_clanid filters))))]
    else []) ++
   (if defined (f_online filters)
    then [mkCond "online" Eq
            (Bound (PNum (if strict_eq_str (f_online filters) "true"
                          then Num 1 else Num 0)))]
    else []) ++
   (if defined (f_minLevel filters)
    then [mkCond "base_class_id" Ge
            (Bound (PNum (parseInt_raw (f_minLevel filters))))]
    else []) ++
   (if defined (f_maxLevel filters)
    then [mkCond "base_class_id" Le
            (Bound (PNum (parseInt_raw (f_maxLevel filters))))]
    else []) ++
   (if truthy_str (f_createdAfter filters) &&
       truthy_ts (parseTimestamp (f_createdAfter filters))
    then [mkCond "createtime" Ge
            (Bound (ts_param (parseTimestamp (f_createdAfter filters))))]
    else []) ++
   (if truthy_str (f_createdBefore filters) &&
       truthy_ts (parseTimestamp (f_createdBefore filters))
    then [mkCond "createtime" Le
            (Bound (ts_param (parseTimestamp (f_createdBefore filters))))]
    else []) ++
   (if truthy_str (f_lastAccessAfter filters) &&
       truthy_ts (parseTimestamp (f_lastAccessAfter filters))
    then [mkCond "lastAccess" Ge
            (Bound (ts_param (parseTimestamp (f_lastAccessAfter filters))))]
    else []) ++
   (if truthy_str (f_lastAccessBefore filters) &&
       truthy_ts (parseTimestamp (f_lastAccessBefore filters))
    then [mkCond "lastAccess" Le
            (Bound (ts_param (parseTimestamp (f_lastAccessBefore filters))))]
    else []) ++
   (if defined (f_sex filters)
    then [mkCond "sex" Eq (Bound (PNum (parseInt_raw (f_sex filters))))]
    else []) ++
   [if strict_eq_str (f_deletedOnly filters) "true"
    then mkCond "deletetime" Gt (Literal 0)
    else mkCond "deletetime" Eq (Literal 0)])%list.

(** ** [exists(charName)] and [existsById(objId)] *)
Definition exists_ (table : list Row) (charName : string) : result bool :=
  count <-
    count_query lookup
      ("SELECT COUNT(*) as count FROM characters " ++
       "WHERE char_name = ? AND deletetime = 0")
      [PStr charName]
      [mkCond "char_name" Eq (Bound (PStr charName));
       mkCond "deletetime" Eq (Literal 0)]
      table ;;
  Ok (count >? 0)%Z.

Definition existsById (table : list Row) (objId : jsnum) : result bool :=
  count <-
    count_query lookup
      ("SELECT COUNT(*) as count FROM characters " ++
       "WHERE obj_Id = ? AND deletetime = 0")
      [PNum objId]
      [mkCond "obj_Id" Eq (Bound (PNum objId));
       mkCond "deletetime" Eq (Literal 0)]
      table ;;
  Ok (count >? 0)%Z.

(** ** [enrichCharacterData(character)] *)

Record Enriched : Type := mkEnriched {
  raw : Row;
  createDate : option string;
  deleteDate : option string;
  lastAccessDate : option string;
  isOnline : bool;
  isDeleted : bool;
  gender : string;
  onlineTimeHours : Z
}.

(** [v === 1] for a numeric column. *)
Definition is_one (v : option Z) : bool :=
  match v with
  | Some 1 => true
  | _ => false
  end.

Definition enrichCharacterData (character : Row) : result Enriched :=
  createDate_ <-
    (if truthy_col (createtime character)
     then s <- iso_of_seconds (to_number (createtime character)) ;; Ok (Some s)
     else Ok None) ;;
  deleteDate_ <-
    (if truthy_col (deletetime character) &&
        (to_number (deletetime character) >? 0)%Z
     then s <- iso_of_seconds (to_number (deletetime character)) ;; Ok (Some s)
     else Ok None) ;;
  lastAccessDate_ <-
    (if truthy_col (lastAccess character)
     then s <- iso_of_seconds (to_number (lastAccess character)) ;; Ok (Some s)
     else Ok None) ;;
  Ok (mkEnriched character createDate_ deleteDate_ lastAccessDate_
        (is_one (online character))
        (to_number (deletetime character) >? 0)%Z
        (if is_one (sex character) then "male" else "female")
        (to_number (onlinetime character) / 3600)).

(** ** [loadById(objId)]: [Ok None] is the [null] result. *)
Definition loadById (table : list Row) (objId : jsnum)
    : result (option Enriched) :=
  rows <-
    rows_query lookup
      "SELECT * FROM characters WHERE obj_Id = ? AND deletetime = 0"
      [PNum objId]
      [mkCond "obj_Id" Eq (Bound (PNum objId));
       mkCond "deletetime" Eq (Literal 0)]
      table ;;
  match rows with
  | [] => Ok None
  | character :: _ => c <- enrichCharacterData character ;; Ok (Some c)
  end.

(** ** [getCharacters(options)] *)

Record Options : Type := mkOptions {
  o_page : option jsnum;
  o_limit : option jsnum;
  o_filters : option Filters;
  o_sortBy : option string;
  o_sortOrder : option string
}.

Definition validSortFields : list string :=
  ["char_name"; "account_name"; "createtime"; "lastAccess"; "online";
   "clanid"; "pvpkills"; "pkkills"; "karma"; "onlinetime"].

Definition sortField (sortBy : string) : string :=
  if includes validSortFields sortBy then sortBy else "char_name".

Definition order (sortOrder : string) : string :=
  if String.eqb (toLowerCase sortOrder) "desc" then "DESC" else "ASC".

(** [options] with the given [sortBy] and [sortOrder]. *)
Definition sorted_by (options : Options) (sortBy sortOrder : string)
    : Options :=
  mkOptions (o_page options) (o_limit options) (o_filters options)
    (Some sortBy) (Some sortOrder).

(** The select list of the data query leaves [base_class_id] out. *)
Definition selected (r : Row) : Row :=
  mkRow (obj_Id r) (char_name r) (account_name r) (sex r) (createtime r)
    (deletetime r) (lastAccess r) (online r) (onlinetime r) (clanid r)
    (title r) (pvpkills r) (pkkills r) (karma r) (accesslevel r)
    (x r) (y r) (z r) None.

Record CharactersPage : Type := mkCharactersPage {
  characters : list Enriched;
  pagination : Pagination
}.

(** The two statements of [getCharacters], as its template literals write
    them. *)
Definition countQuery (whereClause : string) : string :=
  nl ++ "                SELECT COUNT(*) as total " ++
  nl ++ "                FROM characters " ++
  nl ++ "                " ++ whereClause ++
  nl ++ "            ".

Definition dataQuery (whereClause sortField order : string) : string :=
  nl ++ "                SELECT " ++
  nl ++ "                    obj_Id," ++
  nl ++ "                    char_name," ++
  nl ++ "                    account_name," ++
  nl ++ "                    sex," ++
  nl ++ "                    createtime," ++
  nl ++ "                    deletetime," ++
  nl ++ "                    lastAccess," ++
  nl ++ "                    online," ++
  nl ++ "                    onlinetime," ++
  nl ++ "                    clanid," ++
  nl ++ "                    title," ++
  nl ++ "                    pvpkills," ++
  nl ++ "                    pkkills," ++
  nl ++ "                    karma," ++
  nl ++ "                    accesslevel," ++
  nl ++ "                    x, y, z" ++
  nl ++ "                FROM characters " ++
  nl ++ "                " ++ whereClause ++ " " ++
  nl ++ "                ORDER BY " ++ sortField ++ " " ++ order ++
  nl ++ "                LIMIT ? OFFSET ?" ++
  nl ++ "            ".

Definition getCharacters (table : list Row) (options : Options)
    : result CharactersPage :=
  let page := default (o_page options) (Num 1) in
  let limit := default (o_limit options) (Num 10) in
  let filters := default (o_filters options) no_filters in
  let sortBy := default (o_sortBy options) "char_name" in
  let sortOrder := default (o_sortOrder options) "asc" in
  let offset := offset_of page limit in
  let built := buildWhereClause filters in
  let whereClause := fst built in
  let params := snd built in
  let sortField := sortField sortBy in
  let order := order sortOrder in
  let countQuery := countQuery whereClause in
  let dataQuery := dataQuery whereClause sortField order in
  total <- count_query lookup countQuery params (where_conds filters) table ;;
  charactersData <-
    page_query lookup dataQuery (params ++ [PNum limit; PNum offset])%list
      (where_conds filters) sortField (String.eqb order "DESC") table ;;
  characters <- mapM enrichCharacterData (map selected charactersData) ;;
  let totalPages := ceil_quot total limit in
  Ok (mkCharactersPage characters
        (mkPagination total (parseInt_num page) (parseInt_num limit)
           totalPages)).

(** The text of the data query that [getCharacters] sends for [options]. *)
Definition dataQuery_of (options : Options) : string :=
  dataQuery
    (fst (buildWhereClause (default (o_filters options) no_filters)))
    (sortField (default (o_sortBy options) "char_name"))
    (order (default (o_sortOrder options) "asc")).

(** ** Route [GET /api/game/characters/list] *)

Record ListQuery : Type := mkListQuery {
  q_page : option string;
  q_limit : option string;
  q_char_name : option string;
  q_account_name : option string;
  q_clanid : option string;
  q_online : option string;
  q_minLevel : option string;
  q_maxLevel : option string;
  q_createdAfter : option string;
  q_createdBefore : option string;
  q_lastAccessAfter : option string;
  q_lastAccessBefore : option string;
  q_sex : option string;
  q_deletedOnly : option string;
  q_sortBy : option string;
  q_sortOrder : option string
}.

Definition list_filters (q : ListQuery) : Filters :=
  mkFilters
    (keep_truthy (q_char_name q))
    (keep_truthy (q_account_name q))
    (keep_truthy (q_clanid q))
    (q_online q)
    (keep_truthy (q_minLevel q))
    (keep_truthy (q_maxLevel q))
    (keep_truthy (q_createdAfter q))
    (keep_truthy (q_createdBefore q))
    (keep_truthy (q_lastAccessAfter q))
    (keep_truthy (q_lastAccessBefore q))
    (q_sex q)
    (if strict_eq_str (q_deletedOnly q) "true" then Some "true" else None).

Definition list_options (q : ListQuery) : Options :=
  mkOptions
    (Some (parseInt_or (q_page q) 1))
    (Some (parseInt_or (q_limit q) 10))
    (Some (list_filters q))
    (Some (str_or (q_sortBy q) "char_name"))
    (Some (str_or (q_sortOrder q) "asc")).

Definition list_route (table : list Row) (q : ListQuery)
    : response CharactersPage :=
  match getCharacters table (list_options q) with
  | Ok result => json result
  | Throw error =>
      fail 500 "Ошибка при получении списка персонажей" (Some (message error))
  end.

(** ** Route [GET /api/game/characters/:charId] *)
Definition by_id_route (table : list Row) (charId : string)
    : response Enriched :=
  let objId := parseInt charId in
  if isNaN objId
  then fail 400 "Неверный формат ID персонажа"
         (Some "ID персонажа должен быть числом")
  else
    match loadById table objId with
    | Ok None => fail 404 "Персонаж не найден" None
    | Ok (Some character) => json character
    | Throw error =>
        fail 500 "Ошибка при получении информации о персонаже"
          (Some (message error))
    end.

(** ** Route [GET /api/game/characters/:charName/exists] *)
Record Exists : Type := mkExists { exists_field : bool }.

Definition exists_route (table : list Row) (charName : string)
    : response Exists :=
  match exists_ table charName with
  | Ok e => json (mkExists e)
  | Throw error =>
      fail 500 "Ошибка при проверке существования персонажа"
        (Some (message error))
  end.

End Characters.

(* ================================================================== *)
(** * Vocabulary of the properties *)
(* ================================================================== *)

(** [needle] occurs in [text]. *)
Definition occurs_in (needle text : string) : bool :=
  match index 0 needle text with
  | Some _ => true
  | None => false
  end.

(** A predicate with its replacement forgotten: the text of a clause does
    not depend on the values bound to its placeholders. *)
Definition shape (c : cond) : cond :=
  mkCond (c_col c) (c_op c)
    (match c_rhs c with
     | Bound _ => Bound (PNum NaN)
     | Literal k => Literal k
     end).

(** The optional predicates of the characters builder, in its order. *)
Definition characters_columns : list cond :=
  map (fun co => mkCond (fst co) (snd co) (Bound (PNum NaN)))
    [("char_name", Like); ("account_name", Like); ("clanid", Eq);
     ("online", Eq); ("base_class_id", Ge); ("base_class_id", Le);
     ("createtime", Ge); ("createtime", Le); ("lastAccess", Ge);
     ("lastAccess", Le); ("sex", Eq)].

(** The members of [cs] whose test, at the same position, holds, followed
    by [rest]. *)
Fixpoint chosen (tests : list bool) (cs rest : list cond) : list cond :=
  match tests, cs with
  | t :: tests', c :: cs' =>
      ((if t then [c] else []) ++ chosen tests' cs' rest)%list
  | _, _ => rest
  end.

(** The shape of the predicate list of the characters builder, from the
    outcomes of its eleven tests and of [deletedOnly === 'true']. *)
Definition characters_skeleton (tests : list bool) (deletedOnly : bool)
    : list cond :=
  chosen tests characters_columns
    [if deletedOnly then mkCond "deletetime" Gt (Literal 0)
     else mkCond "deletetime" Eq (Literal 0)].

(** The tests the characters builder makes on a filter set. *)
Definition characters_tests (filters : Characters.Filters) : list bool :=
  let ts v := truthy_str v && truthy_ts (parseTimestamp v) in
  [truthy_str (Characters.f_char_name filters);
   truthy_str (Characters.f_account_name filters);
   truthy_str (Characters.f_clanid filters);
   defined (Characters.f_online filters);
   defined (Characters.f_minLevel filters);
   defined (Characters.f_maxLevel filters);
   ts (Characters.f_createdAfter filters);
   ts (Characters.f_createdBefore filters);
   ts (Characters.f_lastAccessAfter filters);
   ts (Characters.f_lastAccessBefore filters);
   defined (Characters.f_sex filters)].

(** [P] on every list of [n] booleans. *)
Fixpoint all_bools (n : nat) (P : list bool -> bool) : bool :=
  match n with
  | O => P []
  | S n' =>
      all_bools n' (fun l => P (true :: l)) &&
      all_bools n' (fun l => P (false :: l))
  end.

Definition on_deletetime (c : cond) : bool := String.eqb (c_col c) "deletetime".

(** For given outcomes of the optional tests: with [deletedOnly] the clause
    carries [`deletetime` > 0] and not [`deletetime` = 0], without it the
    other way round, and either way one predicate is on that column. *)
Definition deletetime_check (tests : list bool) : bool :=
  let w d := where_text (characters_skeleton tests d) in
  let n d := List.length (filter on_deletetime (characters_skeleton tests d)) in
  occurs_in "`deletetime` > 0" (w true) &&
  negb (occurs_in "`deletetime` = 0" (w true)) &&
  occurs_in "`deletetime` = 0" (w false) &&
  negb (occurs_in "`deletetime` > 0" (w false)) &&
  (n true =? 1)%nat && (n false =? 1)%nat.

(** ** Reading an ISO-8601 date-time back

    The format of the language specification: [YYYY-MM-DDTHH:mm:ss.sssZ],
    or with an expanded year, a sign and six digits, where year zero is
    written without a minus sign. *)

(** Exactly [k] decimal digits, read onto [acc]. *)
Fixpoint read_digits (k : nat) (s : string) (acc : Z) : option (Z * string) :=
  match k with
  | O => Some (acc, s)
  | S k' =>
      match s with
      | String c r =>
          if is_digit c then read_digits k' r (10 * acc + digit_val c)
          else None
      | EmptyString => None
      end
  end.

Definition read_year (s : string) : option (Z * string) :=
  match s with
  | String c r =>
      if Ascii.eqb c "+" then read_digits 6 r 0
      else if Ascii.eqb c "-" then
        match read_digits 6 r 0 with
        | Some (y, r') => if (y =? 0)%Z then None else Some (- y, r')
        | None => None
        end
      else read_digits 4 s 0
  | EmptyString => None
  end.

(** A separator, then [k] digits. *)
Definition read_field (sep : ascii) (k : nat) (s : string)
    : option (Z * string) :=
  match s with
  | String c r => if Ascii.eqb c sep then read_digits k r 0 else None
  | EmptyString => None
  end.

Record DateTime : Type := mkDateTime {
  dt_year : Z;
  dt_month : Z;      (* 1 to 12 *)
  dt_day : Z;
  dt_hour : Z;
  dt_minute : Z;
  dt_second : Z;
  dt_millisecond : Z
}.

Definition read_iso8601 (s : string) : option DateTime :=
  match read_year s with
  | Some (y, s) =>
  match read_field "-" 2 s with
  | Some (mo, s) =>
  match read_field "-" 2 s with
  | Some (d, s) =>
  match read_field "T" 2 s with
  | Some (h, s) =>
  match read_field ":" 2 s with
  | Some (mi, s) =>
  match read_field ":" 2 s with
  | Some (sec, s) =>
  match read_field "." 3 s with
  | Some (ms, "Z") => Some (mkDateTime y mo d h mi sec ms)
  | _ => None
  end
  | None => None
  end
  | None => None
  end
  | None => None
  end
  | None => None
  end
  | None => None
  end
  | None => None
  end.

(** The fields name a day of the calendar and a time of that day. *)
Definition valid_DateTime (t : DateTime) : bool :=
  ((1 <=? dt_month t) && (dt_month t <=? 12) &&
   (1 <=? dt_day t) && (dt_day t <=? DaysInMonth (dt_year t) (dt_month t)) &&
   (dt_hour t <=? 23) && (dt_minute t <=? 59) && (dt_second t <=? 59))%Z.

(** [s] is a valid ISO-8601 date-time in UTC. *)
Definition is_iso8601 (s : string) : bool :=
  match read_iso8601 s with
  | Some t => valid_DateTime t
  | None => false
  end.

(** The instant the fields name, in milliseconds since the epoch. *)
Definition instant (t : DateTime) : Z :=
  MakeDay (dt_year t) (dt_month t - 1) (dt_day t) * msPerDay +
  dt_hour t * 3600000 + dt_minute t * 60000 + dt_second t * 1000 +
  dt_millisecond t.

(** [s] is the ISO-8601 rendering of the Unix time [secs]. *)
Definition iso8601_of (secs : Z) (s : string) : Prop :=
  exists t, read_iso8601 s = Some t /\ valid_DateTime t = true /\
            instant t = secs * 1000.

(** The column is [0] or holds nothing. *)
Definition zero_or_absent (source : option Z) : Prop :=
  source = None \/ source = Some 0.

(** A derived date field: it is [null] exactly when [hidden], and what it
    shows otherwise is the valid ISO-8601 rendering of the stored time. *)
Definition derived_date (source : option Z) (hidden : Prop)
    (field : option string) : Prop :=
  (field = None <-> hidden) /\
  (forall s, field = Some s ->
     is_iso8601 s = true /\ iso8601_of (to_number source) s).

(** Pagination metadata that agrees with itself for the page size [limit]:
    [totalPages] is the ceiling of [total / limit], that is the least
    number of pages of [limit] rows that hold [total] rows, and the page
    returned has at most [limit] rows. *)
Definition consistent (limit : Z) (p : Pagination) (rows : nat) : Prop :=
  exists pages : Z,
    totalPages p = Num pages /\
    (pages - 1) * limit < total p <= pages * limit /\
    (rows <= Z.to_nat limit)%nat.

(** A stored Unix time that [new Date(t * 1000)] can hold. *)
Definition in_date_range (t : option Z) : bool :=
  (Z.abs (to_number t * 1000) <=? maxTime)%Z.

Definition account_dates_in_range (r : Accounts.Row) : bool :=
  in_date_range (Accounts.lastactive r) && in_date_range (Accounts.ban_expire r).

Definition character_dates_in_range (r : Characters.Row) : bool :=
  in_date_range (Characters.createtime r) &&
  in_date_range (Characters.deletetime r) &&
  in_date_range (Characters.lastAccess r).

(** Every replacement is a string or a number proper. *)
Definition replacements_ok (params : list param) : bool :=
  forallb param_ok params.

(* ================================================================== *)
(** * Sample tables *)
(* ================================================================== *)

Module Sample.

(** One second past 2023-11-14T22:13:20Z. *)
Definition now : Z := 1700000001.

(** An account whose ban ran out long ago. *)
Definition expired : Accounts.Row :=
  Accounts.mkRow "expired3" "x3" (Some 0) (Some 1680998400)
    (Some "10.0.0.3") (Some "HW-3") (Some 1) (Some 1000) None.

Definition accounts : list Accounts.Row :=
  [Accounts.mkRow "tester01" "x1" (Some 0) None None None None
     (Some 0) None;
   Accounts.mkRow "banned02" "x2" (Some 0) (Some 1680998400)
     (Some "10.0.0.2") (Some "HW-2") (Some 1) (Some 1893456000)
     (Some "b@example.org");
   expired;
   Accounts.mkRow "admin004" "x4" (Some 100) (Some 1699999999)
     (Some "10.0.0.4") (Some "HW-4") (Some 2) None
     (Some "a@example.org")].

Definition character (id : Z) (name account : string)
    (created deleted : option Z) : Characters.Row :=
  Characters.mkRow id name account (Some 1) created deleted
    (Some 1699999999) (Some 0) (Some 7300) (Some 0) None
    (Some 0) (Some 0) (Some 0) (Some 0) (Some 0) (Some 0) (Some 0) (Some 10).

Definition characters : list Characters.Row :=
  [character 268480001 "Alpha" "tester01" (Some 1680998400) (Some 0);
   character 268480002 "Bravo" "tester01" (Some 1680998401) (Some 1690000000);
   character 268480003 "Charlie" "banned02" (Some 1680998402) (Some 0)].

(** U+00A0 and U+FEFF as UTF-8 text. *)
Definition nbsp : string := String "194"%char (String "160"%char "").
Definition bom : string :=
  String "239"%char (String "187"%char (String "191"%char "")).

(** [n] times the character [c]. *)
Fixpoint copies (n : nat) (c : ascii) : string :=
  match n with
  | O => ""
  | S n' => String c (copies n' c)
  end.

(** A clock that stands still while the rows are read. *)
Definition steady : nat -> Z := fun _ => now.

(** A clock that ticks once a row. *)
Definition ticking : nat -> Z := fun i => now + Z.of_nat i.

Definition page_two_of_three : Accounts.Options :=
  Accounts.mkOptions (Some (Num 2)) (Some (Num 3)) None None None.

(** The query string [?page=...&limit=...] of the accounts list. *)
Definition accounts_query (page limit : option string) : Accounts.ListQuery :=
  Accounts.mkListQuery page limit None None None None None None None None
    None None None.

(** The same for the characters list. *)
Definition characters_query (page limit : option string)
    : Characters.ListQuery :=
  Characters.mkListQuery page limit None None None None None None None None
    None None None None None None.

End Sample.

(* ================================================================== *)
(** * Characters repository, continued: lookups by name and by account *)
(* ================================================================== *)

Module CharacterLists.
Import Characters.

(** ** [loadByName(charName)]: [Ok None] is the [null] result. *)
Definition loadByName (table : list Row) (charName : string)
    : result (option Enriched) :=
  rows <-
    rows_query lookup
      "SELECT * FROM characters WHERE char_name = ? AND deletetime = 0"
      [PStr charName]
      [mkCond "char_name" Eq (Bound (PStr charName));
       mkCond "deletetime" Eq (Literal 0)]
      table ;;
  match rows with
  | [] => Ok None
  | character :: _ => c <- enrichCharacterData character ;; Ok (Some c)
  end.

(** ** [getAccountCharacters(accountName, options)] *)

Record Options : Type := mkOptions {
  o_page : option jsnum;
  o_limit : option jsnum;
  o_includDeleted : option bool
}.

(** An element of [characters]: the twelve selected columns and the fields
    [enrichCharacterData] derives from them. *)
Record Listed : Type := mkListed {
  l_obj_Id : Z;
  l_char_name : string;
  l_sex : option Z;
  l_createtime : option Z;
  l_deletetime : option Z;
  l_lastAccess : option Z;
  l_online : option Z;
  l_onlinetime : option Z;
  l_clanid : option Z;
  l_title : option string;
  l_pvpkills : option Z;
  l_pkkills : option Z;
  l_createDate : option string;
  l_deleteDate : option string;
  l_lastAccessDate : option string;
  l_isOnline : bool;
  l_isDeleted : bool;
  l_gender : string;
  l_onlineTimeHours : Z
}.

(** [enrichCharacterData] on a row of the data query; it reads selected
    columns only. *)
Definition enrich_listed (character : Row) : result Listed :=
  e <- enrichCharacterData character ;;
  Ok (mkListed (obj_Id character) (char_name character) (sex character)
        (createtime character) (deletetime character) (lastAccess character)
        (online character) (onlinetime character) (clanid character)
        (title character) (pvpkills character) (pkkills character)
        (createDate e) (deleteDate e) (lastAccessDate e)
        (isOnline e) (isDeleted e) (gender e) (onlineTimeHours e)).

Record AccountCharacters : Type := mkAccountCharacters {
  accountName_ : string;
  characters_ : list Listed;
  pagination_ : Pagination
}.

(** [!includDeleted] *)
Definition live_only (includDeleted : bool) : bool := negb includDeleted.

(** The predicates of [whereClause]. *)
Definition account_conds (accountName : string) (includDeleted : bool)
    : list cond :=
  (mkCond "account_name" Eq (Bound (PStr accountName)) ::
   (if live_only includDeleted
    then [mkCond "deletetime" Eq (Literal 0)]
    else []))%list.

Definition getAccountCharacters (table : list Row) (accountName : string)
    (options : Options) : result AccountCharacters :=
  let page := default (o_page options) (Num 1) in
  let limit := default (o_limit options) (Num 10) in
  let includDeleted := default (o_includDeleted options) false in
  let offset := offset_of page limit in
  let whereClause := "WHERE account_name = ?" in
  let params := [PStr accountName] in
  let whereClause :=
    if live_only includDeleted
    then whereClause ++ " AND deletetime = 0"
    else whereClause in
  let countQuery :=
    nl ++ "                SELECT COUNT(*) as total " ++
    nl ++ "                FROM characters " ++
    nl ++ "                " ++ whereClause ++
    nl ++ "            " in
  let dataQuery :=
    nl ++ "                SELECT " ++
    nl ++ "                    obj_Id," ++
    nl ++ "                    char_name," ++
    nl ++ "                    sex," ++
    nl ++ "                    createtime," ++
    nl ++ "                    deletetime," ++
    nl ++ "                    lastAccess," ++
    nl ++ "                    online," ++
    nl ++ "                    onlinetime," ++
    nl ++ "                    clanid," ++
    nl ++ "                    title," ++
    nl ++ "                    pvpkills," ++
    nl ++ "                    pkkills" ++
    nl ++ "                FROM characters " ++
    nl ++ "                " ++ whereClause ++ " " ++
    nl ++ "                ORDER BY lastAccess DESC" ++
    nl ++ "                LIMIT ? OFFSET ?" ++
    nl ++ "            " in
  total <-
    count_query lookup countQuery params
      (account_conds accountName includDeleted) table ;;
  charactersData <-
    page_query lookup dataQuery (params ++ [PNum limit; PNum offset])%list
      (account_conds accountName includDeleted) "lastAccess" true table ;;
  characters <- mapM enrich_listed charactersData ;;
  let totalPages := ceil_quot total limit in
  Ok (mkAccountCharacters accountName characters
        (mkPagination total (parseInt_num page) (parseInt_num limit)
           totalPages)).

(** ** Route [GET /api/game/characters/account/:accountName] *)
Definition account_route (accounts : list Accounts.Row) (table : list Row)
    (accountName : string) (page limit includDeleted : option string)
    : response AccountCharacters :=
  match Accounts.exists_ accounts accountName with
  | Throw error =>
      fail 500 "Ошибка при получении персонажей аккаунта"
        (Some (message error))
  | Ok accountExists =>
      if negb accountExists then fail 404 "Аккаунт не найден" None
      else
        match getAccountCharacters table accountName
                (mkOptions (Some (parseInt_or page 1))
                   (Some (parseInt_or limit 10))
                   (Some (strict_eq_str includDeleted "true"))) with
        | Ok result => json result
        | Throw error =>
            fail 500 "Ошибка при получении персонажей аккаунта"
              (Some (message error))
        end
  end.

End CharacterLists.

(* ================================================================== *)
(** * Accounts repository, continued: login history *)
(* ================================================================== *)

Module AccountHistory.

(** A row of the [account_log] table. *)
Record LogRow : Type := mkLogRow {
  g_login : string;
  g_time : option Z;
  g_lastServerId : option Z;
  g_ip : option string;
  g_hwid : option string
}.

Definition lookup (r : LogRow) (column : string) : value :=
  if String.eqb column "login" then VStr (g_login r)
  else if String.eqb column "time" then vint (g_time r)
  else if String.eqb column "lastServerId" then vint (g_lastServerId r)
  else if String.eqb column "ip" then vstr (g_ip r)
  else if String.eqb column "hwid" then vstr (g_hwid r)
  else VNull.

Record Options : Type := mkOptions {
  o_page : option jsnum;
  o_limit : option jsnum
}.

(** An element of [loginHistory]: the selected columns and [date]. *)
Record Entry : Type := mkEntry {
  time : option Z;
  lastServerId : option Z;
  ip : option string;
  hwid : option string;
  date : option string
}.

(** The callback of [historyData.map]. *)
Definition dated (entry : LogRow) : result Entry :=
  date_ <-
    (if truthy_col (g_time entry)
     then s <- iso_of_seconds (to_number (g_time entry)) ;; Ok (Some s)
     else Ok None) ;;
  Ok (mkEntry (g_time entry) (g_lastServerId entry) (g_ip entry)
        (g_hwid entry) date_).

Record LoginHistory : Type := mkLoginHistory {
  login : string;
  loginHistory : list Entry;
  pagination : Pagination
}.

Definition getAccountLoginHistory (log : list LogRow) (login_ : string)
    (options : Options) : result LoginHistory :=
  let page := default (o_page options) (Num 1) in
  let limit := default (o_limit options) (Num 10) in
  let offset := offset_of page limit in
  let countQuery :=
    nl ++ "                SELECT COUNT(*) as total " ++
    nl ++ "                FROM account_log " ++
    nl ++ "                WHERE login = ?" ++
    nl ++ "            " in
  let dataQuery :=
    nl ++ "                SELECT " ++
    nl ++ "                    time, " ++
    nl ++ "                    lastServerId, " ++
    nl ++ "                    ip, " ++
    nl ++ "                    hwid" ++
    nl ++ "                FROM account_log " ++
    nl ++ "                WHERE login = ? " ++
    nl ++ "                ORDER BY time DESC" ++
    nl ++ "                LIMIT ? OFFSET ?" ++
    nl ++ "            " in
  total <-
    count_query lookup countQuery [PStr login_]
      [mkCond "login" Eq (Bound (PStr login_))] log ;;
  historyData <-
    page_query lookup dataQuery [PStr login_; PNum limit; PNum offset]
      [mkCond "login" Eq (Bound (PStr login_))] "time" true log ;;
  loginHistory <- mapM dated historyData ;;
  let totalPages := ceil_quot total limit in
  Ok (mkLoginHistory login_ loginHistory
        (mkPagination total (parseInt_num page) (parseInt_num limit)
           totalPages)).

(** ** Route [GET /api/login/account/:login/history] *)
Definition history_route (accounts : list Accounts.Row) (log : list LogRow)
    (login_ : string) (page limit : option string) : response LoginHistory :=
  match Accounts.exists_ accounts login_ with
  | Throw error =>
      fail 500 "Ошибка при получении истории входов аккаунта"
        (Some (message error))
  | Ok accountExists =>
      if negb accountExists then fail 404 "Аккаунт не найден" None
      else
        match getAccountLoginHistory log login_
                (mkOptions (Some (parseInt_or page 1))
                   (Some (parseInt_or limit 10))) with
        | Ok result => json result
        | Throw error =>
            fail 500 "Ошибка при получении истории входов аккаунта"
              (Some (message error))
        end
  end.

End AccountHistory.

(* ================================================================== *)
(** * Account routes that write: [src/api/login/account.js] *)
(* ================================================================== *)

Module AccountRoutes.
Import AccountHistory.

(** The login database: the two tables the routes touch. *)
Record Db : Type := mkDb {
  accounts : list Accounts.Row;
  account_log : list LogRow
}.

(** A statement changes the database and may throw; what it changed before
    throwing stays changed. *)
Definition Eff (A : Type) : Type := Db -> Db * result A.

Definition ret {A} (a : A) : Eff A := fun db => (db, Ok a).

Definition seq {A B} (m : Eff A) (k : A -> Eff B) : Eff B :=
  fun db =>
    match m db with
    | (db', Ok a) => k a db'
    | (db', Throw e) => (db', Throw e)
    end.

(** A query of the accounts table, which changes nothing. *)
Definition reading {A} (q : list Accounts.Row -> result A) : Eff A :=
  fun db => (db, q (accounts db)).

(** [try { ... } catch (error) { res.status(500).json(...) }] *)
Definition catching {A} (m : Eff (response A)) (error : string)
    : Db -> Db * response A :=
  fun db =>
    match m db with
    | (db', Ok r) => (db', r)
    | (db', Throw e) => (db', fail 500 error (Some (message e)))
    end.

(** [UPDATE accounts SET ban_expire = ? WHERE login = ?] *)
Definition set_ban (banExpire : jsnum) (login_ : string) : Eff unit :=
  fun db =>
    match banExpire with
    | Num t =>
        (mkDb
           (map (fun r =>
                   if String.eqb (Accounts.login r) login_
                   then Accounts.mkRow (Accounts.login r) (Accounts.password r)
                          (Accounts.accessLevel r) (Accounts.lastactive r)
                          (Accounts.lastIP r) (Accounts.lastHWID r)
                          (Accounts.lastServerId r) (Some t)
                          (Accounts.l2email r)
                   else r)
              (accounts db))
           (account_log db),
         Ok tt)
    | _ => (db, Throw DbError)
    end.

(** [DELETE FROM accounts WHERE login = ?] *)
Definition delete_account (login_ : string) : Eff unit :=
  fun db =>
    (mkDb
       (filter (fun r => negb (String.eqb (Accounts.login r) login_))
          (accounts db))
       (account_log db),
     Ok tt).

(** [DELETE FROM account_log WHERE login = ?] *)
Definition delete_log (login_ : string) : Eff unit :=
  fun db =>
    (mkDb (accounts db)
       (filter (fun r => negb (String.eqb (g_login r) login_))
          (account_log db)),
     Ok tt).

(** ** Route [DELETE /api/login/account/:login] *)
Definition delete_route (login_ : string)
    : Db -> Db * response Accounts.Success :=
  catching
    (seq (reading (fun t => Accounts.exists_ t login_)) (fun accountExists =>
     if negb accountExists
     then ret (fail 404 "Аккаунт не найден" None)
     else
       seq (delete_account login_) (fun _ =>
       seq (delete_log login_) (fun _ =>
       ret (json (Accounts.mkSuccess true "Аккаунт успешно удален"))))))
    "Ошибка при удалении аккаунта".

(** ** Route [POST /api/login/account/:login/ban] *)

Record Banned : Type := mkBanned {
  ban_success : bool;
  ban_message : string;
  ban_banExpireDate : string
}.

(** [a <= b] for a number [a] and an integer [b]: false on [NaN]. *)
Definition le_num (a : jsnum) (b : Z) : bool :=
  match a with
  | Num x => (x <=? b)%Z
  | NaN => false
  | Infinity => false
  end.

(** [new Date(n * 1000).toISOString()] *)
Definition iso_of_num (n : jsnum) : result string :=
  match n with
  | Num t => iso_of_seconds t
  | _ => Throw RangeError
  end.

Section Ban.

(** [new Date(s).getTime()] for a string [s]: the engine's date parser,
    whose reading of texts outside the ISO format is its own. *)
Variable Date_parse : string -> jsnum.

Definition ban_route (now : Z) (login_ : string) (banExpire : option string)
    : Db -> Db * response Banned :=
  catching
    (if negb (truthy_str banExpire)
     then ret (fail 400 "Неверный формат данных"
                 (Some "Дата окончания бана обязательна для заполнения"))
     else
       seq (reading (fun t => Accounts.exists_ t login_))
         (fun accountExists =>
       if negb accountExists
       then ret (fail 404 "Аккаунт не найден" None)
       else
         let banExpireTimestamp :=
           floor_div_1000
             (Date_parse (match banExpire with Some s => s | None => "" end)) in
         if le_num banExpireTimestamp now
         then ret (fail 400 "Неверный формат данных"
                     (Some "Дата окончания бана должна быть в будущем"))
         else
           seq (set_ban banExpireTimestamp login_) (fun _ =>
           seq (fun db => (db, iso_of_num banExpireTimestamp)) (fun logged =>
           seq (fun db => (db, iso_of_num banExpireTimestamp))
             (fun banExpireDate =>
           ret (json (mkBanned true "Аккаунт успешно забанен"
                        banExpireDate)))))))
    "Ошибка при бане аккаунта".

End Ban.

(** ** Routes [POST /register] and [PUT /change-password] *)

(** A value of a parsed JSON body, as far as the routes look at it: of a
    number they test whether it is zero, and what an array or an object holds
    they do not test. *)
Inductive jsvalue : Type :=
| JNull
| JBool (b : bool)
| JNumber (zero : bool)
| JString (s : string)
| JArray
| JObject.

(** ToBoolean of a member of the body; [None] is a member that is
    missing. *)
Definition truthy (v : option jsvalue) : bool :=
  match v with
  | None => false
  | Some JNull => false
  | Some (JBool b) => b
  | Some (JNumber zero) => negb zero
  | Some (JString s) => truthy_str (Some s)
  | Some JArray => true
  | Some JObject => true
  end.

(** A member that is passed on as a string or [null]: a missing member and
    [null] are [null]. *)
Definition nullable_text (v : option jsvalue) : option (option string) :=
  match v with
  | None => Some None
  | Some JNull => Some None
  | Some (JString s) => Some (Some s)
  | Some _ => None
  end.

Record RegisterBody : Type := mkRegisterBody {
  r_login : option jsvalue;
  r_password : option jsvalue;
  r_email : option jsvalue
}.

Record PasswordBody : Type := mkPasswordBody {
  p_login : option jsvalue;
  p_newPassword : option jsvalue
}.

(** The fields [update] hands to the stored procedure, in its order. *)
Record UpdateCall : Type := mkUpdateCall {
  u_login : string;
  u_password : option string;
  u_accessLevel : option Z;
  u_lastServerId : option Z;
  u_lastIP : option string;
  u_lastHWID : option string;
  u_lastactive : option Z;
  u_email : option string
}.

(** The [updateData] object: a field is [None] when the key is not set or
    is [null]. *)
Record UpdateData : Type := mkUpdateData {
  d_password : option string;
  d_accessLevel : option Z;
  d_lastServerId : option Z;
  d_lastIP : option string;
  d_lastHWID : option string;
  d_lastactive : option Z;
  d_email : option string
}.

(** [s.length]: the UTF-16 code units of the text.  A character of one to
    three bytes of UTF-8 is one unit and a character of four bytes is two;
    the bytes that continue a character count nothing. *)
Fixpoint length_of (s : string) : Z :=
  match s with
  | EmptyString => 0
  | String c r =>
      let n := nat_of_ascii c in
      (if (n <? 128)%nat then 1
       else if (n <? 192)%nat then 0
       else if (n <? 240)%nat then 1
       else 2) + length_of r
  end.

Section Procedures.

(** [passwordUtils.defaultHash]: the Base64 digest of the password that
    Node's [crypto] computes; the digest is taken as given. *)
Variable defaultHash : string -> string.

(** The stored procedures [lip_AccountCreate(login, password)] and
    [lip_AccountUpdate(...)] of the login database. *)
Variable lip_AccountCreate : string -> string -> Eff unit.
Variable lip_AccountUpdate : UpdateCall -> Eff unit.

(** [accountsDb.update(login, updateData)] *)
Definition update (login_ : string) (updateData : UpdateData) : Eff unit :=
  lip_AccountUpdate
    (mkUpdateCall login_ (d_password updateData) (d_accessLevel updateData)
       (d_lastServerId updateData) (d_lastIP updateData)
       (d_lastHWID updateData) (d_lastactive updateData)
       (d_email updateData)).

(** [accountsDb.create(login, passwordHash, email)] *)
Definition create (login_ passwordHash : string) (email : option string)
    : Eff unit :=
  seq (lip_AccountCreate login_ passwordHash) (fun _ =>
  update login_
    (mkUpdateData (Some passwordHash) (Some 0) None None None None email)).

(** The register handler after its first test, for a login and a password
    that are strings. *)
Definition register_text (login_ password : string) (email : option string)
    : Db -> Db * response Accounts.Success :=
  catching
    (if ((length_of login_ <? 4) || (length_of login_ >? 32))%Z
     then ret (fail 400 "Неверный формат данных"
                 (Some "Длина логина должна быть от 4 до 32 символов"))
     else if ((length_of password <? 6) || (length_of password >? 32))%Z
     then ret (fail 400 "Неверный формат данных"
                 (Some "Длина пароля должна быть от 6 до 32 символов"))
     else
       seq (reading (fun t => Accounts.exists_ t login_))
         (fun accountExists =>
       if accountExists
       then ret (fail 409 "Аккаунт с таким логином уже существует" None)
       else
         let hashedPassword := defaultHash password in
         seq (create login_ hashedPassword email) (fun _ =>
         ret (mkResponse 201
                (Json (Accounts.mkSuccess true "Аккаунт успешно создан"))))))
    "Ошибка при создании аккаунта".

(** The register handler.  The first test is made on any body.  Past it
    the request is followed when [login] and [password] are strings and
    [email] is a string, [null] or missing; the result is [None] for any
    other body, where what happens depends on how the database reads a
    value that is not a string. *)
Definition register_route (body : RegisterBody) (db : Db)
    : option (Db * response Accounts.Success) :=
  let login_ := r_login body in
  let password := r_password body in
  if negb (truthy login_) || negb (truthy password)
  then Some (db, fail 400 "Неверный формат данных"
                   (Some "Логин и пароль обязательны для заполнения"))
  else
    match login_, password, nullable_text (r_email body) with
    | Some (JString l), Some (JString p), Some email =>
        Some (register_text l p email db)
    | _, _, _ => None
    end.

(** The change-password handler after its first test, for strings. *)
Definition change_password_text (login_ newPassword : string)
    : Db -> Db * response Accounts.Success :=
  catching
    (if ((length_of newPassword <? 6) || (length_of newPassword >? 32))%Z
     then ret (fail 400 "Неверный формат данных"
                 (Some "Длина нового пароля должна быть от 6 до 32 символов"))
     else
       seq (reading (fun t => Accounts.exists_ t login_))
         (fun accountExists =>
       if negb accountExists
       then ret (fail 404 "Аккаунт не найден" None)
       else
         let hashedNewPassword := defaultHash newPassword in
         seq (update login_
                (mkUpdateData (Some hashedNewPassword) None None None None
                   None None)) (fun _ =>
         ret (mkResponse 200
                (Json (Accounts.mkSuccess true "Пароль успешно изменен"))))))
    "Ошибка при изменении пароля".

(** The change-password handler, followed as the register handler is. *)
Definition change_password_route (body : PasswordBody) (db : Db)
    : option (Db * response Accounts.Success) :=
  let login_ := p_login body in
  let newPassword := p_newPassword body in
  if negb (truthy login_) || negb (truthy newPassword)
  then Some (db, fail 400 "Неверный формат данных"
                   (Some "Логин и новый пароль обязательны для заполнения"))
  else
    match login_, newPassword with
    | Some (JString l), Some (JString p) => Some (change_password_text l p db)
    | _, _ => None
    end.

End Procedures.

End AccountRoutes.

(* ================================================================== *)
(** * The API-key check: [src/middlewares/apiKeyMiddleware.js] *)
(* ================================================================== *)

Module ApiKey.

(** [process.env], as far as the check reads it. *)
Record Env : Type := mkEnv {
  API_KEY_HEADER : option string;
  API_KEY : option string
}.

(** [req.headers]: the header names, in lower case, with their values. *)
Definition Headers : Type := list (string * string).

Fixpoint field (headers : Headers) (name : string) : option string :=
  match headers with
  | [] => None
  | (n, v) :: rest => if String.eqb n name then Some v else field rest name
  end.

(** [a || b] for two header values. *)
Definition or_else (a b : option string) : option string :=
  if truthy_str a then a else b.

(** [req.get(name)] *)
Definition get (headers : Headers) (name : string) : option string :=
  let lc := toLowerCase name in
  if String.eqb lc "referer" || String.eqb lc "referrer"
  then or_else (field headers "referrer") (field headers "referer")
  else field headers lc.

(** The body of the 401 answer. *)
Record Unauthorized : Type := mkUnauthorized {
  error : string;
  message : string
}.

Inductive outcome : Type :=
| Next                                   (* [next()] *)
| Answer (r : response Unauthorized).

(** [a !== b] for a header value and the configured key. *)
Definition differs (a b : option string) : bool :=
  match a, b with
  | Some x, Some y => negb (String.eqb x y)
  | None, None => false
  | _, _ => true
  end.

Definition apiKeyMiddleware (env : Env) (headers : Headers) : outcome :=
  let apiKeyHeader := str_or (API_KEY_HEADER env) "X-API-Key" in
  let expectedApiKey := API_KEY env in
  let providedApiKey := get headers apiKeyHeader in
  if negb (truthy_str providedApiKey) || differs providedApiKey expectedApiKey
  then Answer (mkResponse 401
                 (Json (mkUnauthorized "Неавторизованный доступ"
                          "Требуется действительный API-ключ")))
  else Next.

End ApiKey.

(* ================================================================== *)
(** * The characters router: which handler a GET reaches *)
(* ================================================================== *)

Module Router.

(** A piece of a route path: a literal, or a parameter [:name]. *)
Inductive piece : Type :=
| Lit (s : string)
| Par.

(** The handlers of the router that has the list, in the order
    [router.get] registers them. *)
Inductive handler : Type :=
| AccountCharacters   (* /account/:accountName *)
| List                (* /list *)
| ById                (* /:charId *)
| Exists              (* /:charName/exists *)
| Stats.              (* /stats *)

Definition routes : list (list piece * handler) :=
  [([Lit "account"; Par], AccountCharacters);
   ([Lit "list"], List);
   ([Par], ById);
   ([Par; Lit "exists"], Exists);
   ([Lit "stats"], Stats)].

(** The text between the slashes of [path], read after [current]. *)
Fixpoint fields (path current : string) : list string :=
  match path with
  | EmptyString => [current]
  | String c rest =>
      if Ascii.eqb c "/" then current :: fields rest ""
      else fields rest (current ++ String c "")
  end.

(** The segments of a request path: it starts with a slash, and one slash
    at its end is allowed. *)
Definition segments (path : string) : option (list string) :=
  match fields path "" with
  | "" :: rest =>
      match rev rest with
      | "" :: front => Some (rev front)
      | _ => Some rest
      end
  | _ => None
  end.

(** A literal matches without regard to case, a parameter matches any
    segment that is not empty. *)
Definition piece_matches (p : piece) (segment : string) : bool :=
  match p with
  | Lit s => String.eqb (toLowerCase segment) (toLowerCase s)
  | Par => negb (String.eqb segment "")
  end.

Fixpoint pattern_matches (pattern : list piece) (path : list string) : bool :=
  match pattern, path with
  | [], [] => true
  | p :: pattern', s :: path' =>
      piece_matches p s && pattern_matches pattern' path'
  | _, _ => false
  end.

(** What becomes of a GET in the router. *)
Inductive outcome : Type :=
| Reached (h : handler) (params : list string)
    (* the handler runs, with its parameters decoded *)
| BadRequest
    (* a parameter could not be decoded: Express answers 400 *)
| NoRoute.
    (* no path matches *)

Section Decoding.

(** [decodeURIComponent]; [None] is the URIError of a malformed escape. *)
Variable decodeURIComponent : string -> option string.

(** The parameters of a path that matches [pattern], decoded. *)
Fixpoint params (pattern : list piece) (path : list string)
    : option (list string) :=
  match pattern, path with
  | Lit _ :: pattern', _ :: path' => params pattern' path'
  | Par :: pattern', s :: path' =>
      match decodeURIComponent s, params pattern' path' with
      | Some v, Some vs => Some (v :: vs)
      | _, _ => None
      end
  | _, _ => Some []
  end.

(** The first route, in registration order, whose path matches.  Every
    handler here answers and none passes on; when a parameter of the
    matching path cannot be decoded no later route is tried. *)
Fixpoint first_match (rs : list (list piece * handler)) (path : list string)
    : outcome :=
  match rs with
  | [] => NoRoute
  | (pattern, h) :: rest =>
      if pattern_matches pattern path
      then match params pattern path with
           | Some vs => Reached h vs
           | None => BadRequest
           end
      else first_match rest path
  end.

Definition dispatch (path : string) : outcome :=
  match segments path with
  | Some segs => first_match routes segs
  | None => NoRoute
  end.

End Decoding.

End Router.

(* ================================================================== *)
(** * Vocabulary of the further properties *)
(* ================================================================== *)

(** How often [c] occurs in [s]. *)
Fixpoint count_char (c : ascii) (s : string) : nat :=
  match s with
  | EmptyString => O
  | String d r => ((if Ascii.eqb d c then 1 else 0) + count_char c r)%nat
  end.

(** A predicate writes one [?] for each replacement it binds. *)
Definition one_mark_per_param (c : cond) : Prop :=
  count_char "?" (cond_text c) = List.length (cond_params c).

(** The tests the accounts builder makes on a filter set. *)
Definition accounts_tests (filters : Accounts.Filters) : list bool :=
  let ts v := truthy_str v && truthy_ts (parseTimestamp v) in
  [truthy_str (Accounts.f_login filters);
   truthy_str (Accounts.f_email filters);
   truthy_str (Accounts.f_lastIP filters);
   truthy_str (Accounts.f_lastHWID filters);
   truthy_str (Accounts.f_lastServerId filters);
   defined (Accounts.f_accessLevel filters);
   ts (Accounts.f_lastActiveFrom filters);
   ts (Accounts.f_lastActiveTo filters);
   Accounts.truthy_flag (Accounts.f_isBanned filters)].

(** The predicates of the accounts builder, in its order. *)
Definition accounts_columns : list cond :=
  map (fun co => mkCond (fst co) (snd co) (Bound (PNum NaN)))
    [("login", Like); ("l2email", Like); ("lastIP", Like);
     ("lastHWID", Like); ("lastServerId", Eq); ("accessLevel", Eq);
     ("lastactive", Ge); ("lastactive", Le); ("ban_expire", Gt)].

(** Options that set nothing but the filters. *)
Definition accounts_filtered (filters : Accounts.Filters) : Accounts.Options :=
  Accounts.mkOptions None None (Some filters) None None.

Definition characters_filtered (filters : Characters.Filters)
    : Characters.Options :=
  Characters.mkOptions None None (Some filters) None None.

(** The accounts filter set that asks for banned accounts only. *)
Definition banned_only : Accounts.Filters :=
  Accounts.mkFilters None None None None None None None None (Some true).

(** [options] asked for page [p] in pages of [l]. *)
Definition accounts_paged (options : Accounts.Options) (p l : Z)
    : Accounts.Options :=
  Accounts.mkOptions (Some (Num p)) (Some (Num l))
    (Accounts.o_filters options) (Accounts.o_sortBy options)
    (Accounts.o_sortOrder options).



(** A character that is not soft-deleted. *)
Definition live (r : Characters.Row) : bool :=
  match Characters.deletetime r with
  | Some 0 => true
  | _ => false
  end.

Definition live_named (name : string) (r : Characters.Row) : bool :=
  String.eqb (Characters.char_name r) name && live r.

Definition live_with_id (n : Z) (r : Characters.Row) : bool :=
  (Characters.obj_Id r =? n)%Z && live r.

(** Sample rows of the login log. *)
Definition sample_log : list AccountHistory.LogRow :=
  [AccountHistory.mkLogRow "tester01" (Some 1680998400) (Some 1)
     (Some "10.0.0.1") (Some "HW-1");
   AccountHistory.mkLogRow "banned02" (Some 1690000000) (Some 1)
     (Some "10.0.0.2") (Some "HW-2");
   AccountHistory.mkLogRow "tester01" (Some 1699999999) (Some 2)
     (Some "10.0.0.9") None;
   AccountHistory.mkLogRow "tester01" None None None None].

Definition sample_db : AccountRoutes.Db :=
  AccountRoutes.mkDb Sample.accounts sample_log.

(** Each element stands in relation [R] to the next one. *)
Fixpoint in_order {A} (R : A -> A -> bool) (l : list A) : bool :=
  match l with
  | a :: rest =>
      match rest with
      | b :: _ => R a b && in_order R rest
      | [] => true
      end
  | [] => true
  end.

(** [a] is not older than [b]; an entry without time counts as oldest. *)
Definition not_older (a b : option Z) : bool := value_leb (vint b) (vint a).

(** A date parser that reads the date-only form and nothing else. *)
Definition date_only_parser (s : string) : jsnum :=
  if is_ymd_shape s then Date_parse_ymd s else NaN.

(** A login the register route takes: 4 to 32 code units. *)
Definition login_length_ok (login_ : string) : bool :=
  ((4 <=? AccountRoutes.length_of login_) &&
   (AccountRoutes.length_of login_ <=? 32))%Z.

(** A password the routes take: 6 to 32 code units. *)
Definition password_length_ok (password : string) : bool :=
  ((6 <=? AccountRoutes.length_of password) &&
   (AccountRoutes.length_of password <=? 32))%Z.

(** No escape sign in the text. *)
Definition plain (s : string) : bool := (count_char "%" s =? 0)%nat.

(** A decoder that knows plain texts only. *)
Definition decode_plain (s : string) : option string :=
  if plain s then Some s else None.


(** Stored procedures for the checks below: the first adds a row, the
    second overwrites the fields of the call that are not [null]. *)
Definition sample_create (login_ passwordHash : string)
    : AccountRoutes.Eff unit :=
  fun db =>
    (AccountRoutes.mkDb
       (AccountRoutes.accounts db ++
        [Accounts.mkRow login_ passwordHash None None None None None None
           None])%list
       (AccountRoutes.account_log db),
     Ok tt).

Definition or_kept {A} (new old : option A) : option A :=
  match new with
  | Some _ => new
  | None => old
  end.

Definition sample_update (call : AccountRoutes.UpdateCall)
    : AccountRoutes.Eff unit :=
  fun db =>
    (AccountRoutes.mkDb
       (map (fun r =>
               if String.eqb (Accounts.login r) (AccountRoutes.u_login call)
               then Accounts.mkRow (Accounts.login r)
                      (match AccountRoutes.u_password call with
                       | Some p => p
                       | None => Accounts.password r
                       end)
                      (or_kept (AccountRoutes.u_accessLevel call)
                         (Accounts.accessLevel r))
                      (or_kept (AccountRoutes.u_lastactive call)
                         (Accounts.lastactive r))
                      (or_kept (AccountRoutes.u_lastIP call)
                         (Accounts.lastIP r))
                      (or_kept (AccountRoutes.u_lastHWID call)
                         (Accounts.lastHWID r))
                      (or_kept (AccountRoutes.u_lastServerId call)
                         (Accounts.lastServerId r))
                      (Accounts.ban_expire r)
                      (or_kept (AccountRoutes.u_email call)
                         (Accounts.l2email r))
               else r)
          (AccountRoutes.accounts db))
       (AccountRoutes.account_log db),
     Ok tt).

(** A stand-in for the password hash. *)
Definition sample_hash (password : string) : string := "#" ++ password.
(* ================================================================== *)
(** * Checks of the embedding on concrete inputs *)
(* ================================================================== *)

Example parseTimestamp_epoch :
  parseTimestamp (Some "1970-01-01") = Some (Num 0).
Proof. reflexivity. Qed.

Example parseTimestamp_doc_example :
  parseTimestamp (Some "2023-04-09") = Some (Num 1680998400).
Proof. reflexivity. Qed.

Example parseTimestamp_leap_day :
  parseTimestamp (Some "2024-02-29") = Some (Num 1709164800).
Proof. reflexivity. Qed.

Example parseTimestamp_digits :
  parseTimestamp (Some "1680998400") = Some (Num 1680998400).
Proof. reflexivity. Qed.

Example parseTimestamp_prefix :
  parseTimestamp (Some "12abc") = Some (Num 12).
Proof. reflexivity. Qed.

Example parseTimestamp_words :
  parseTimestamp (Some "yesterday") = None.
Proof. reflexivity. Qed.

Example toISOString_doc_example :
  iso_of_seconds 1680998400 = Ok "2023-04-09T00:00:00.000Z".
Proof. reflexivity. Qed.

Example toISOString_last_second_1999 :
  iso_of_seconds 946684799 = Ok "1999-12-31T23:59:59.000Z".
Proof. reflexivity. Qed.

Example toISOString_before_epoch :
  iso_of_seconds (-5) = Ok "1969-12-31T23:59:55.000Z".
Proof. reflexivity. Qed.

Example toISOString_out_of_range :
  iso_of_seconds 8640000000001 = Throw RangeError.
Proof. reflexivity. Qed.

(* ================================================================== *)
(** * The builders against the predicate lists *)
(* ================================================================== *)

Section BuilderSteps.

Lemma append_assoc (a b c : string) : (a ++ b) ++ c = a ++ (b ++ c).
Proof. induction a as [| ch a IH]; simpl; [reflexivity | now rewrite IH]. Qed.

Lemma conj_text_cons (c : cond) (cs : list cond) :
  cs <> [] -> conj_text (c :: cs) = cond_text c ++ " AND " ++ conj_text cs.
Proof. destruct cs; [congruence | reflexivity]. Qed.

Lemma conj_text_nonempty (c : cond) (cs : list cond) :
  exists r, conj_text (c :: cs) = String "`" r.
Proof. destruct cs; unfold conj_text, cond_text; simpl; eauto. Qed.

Lemma and_also_after (a : string) (ch : ascii) (r fragment : string) :
  and_also (a ++ String ch r) fragment = a ++ and_also (String ch r) fragment.
Proof.
  unfold and_also.
  destruct a as [| ch' a']; [reflexivity |].
  cbn [append]. now rewrite append_assoc.
Qed.

Lemma conj_text_snoc (cs : list cond) (c : cond) :
  and_also (conj_text cs) (cond_text c) = conj_text (cs ++ [c])%list.
Proof.
  induction cs as [| a cs IH]; [reflexivity |].
  destruct cs as [| b cs'].
  - destruct (conj_text_nonempty a []) as (r & Hr).
    simpl app. rewrite (conj_text_cons a [c]) by discriminate.
    change (conj_text [a]) with (cond_text a) in *.
    rewrite Hr. reflexivity.
  - change ((a :: b :: cs') ++ [c])%list with (a :: ((b :: cs') ++ [c]))%list.
    rewrite (conj_text_cons a ((b :: cs') ++ [c])%list) by discriminate.
    rewrite <- IH.
    rewrite (conj_text_cons a (b :: cs')) by discriminate.
    destruct (conj_text_nonempty b cs') as (r & Hr). rewrite Hr.
    rewrite <- !append_assoc. rewrite and_also_after.
    rewrite !append_assoc. reflexivity.
Qed.

Lemma where_params_snoc (cs : list cond) (c : cond) :
  where_params (cs ++ [c])%list = (where_params cs ++ cond_params c)%list.
Proof.
  unfold where_params. rewrite flat_map_app. simpl.
  now rewrite app_nil_r.
Qed.

(** A guarded block adds its predicate to the list exactly when its test
    holds. *)
Lemma when_snoc (test : bool) (fragment : string) (p : param)
    (col : string) (op : cmp) (cs : list cond) :
  fragment = cond_text (mkCond col op (Bound p)) ->
  when_ test fragment p (conj_text cs, where_params cs) =
  (conj_text (cs ++ (if test then [mkCond col op (Bound p)] else []))%list,
   where_params (cs ++ (if test then [mkCond col op (Bound p)] else []))%list).
Proof.
  intros ->. unfold when_. destruct test; simpl fst; simpl snd.
  - rewrite conj_text_snoc, where_params_snoc. reflexivity.
  - rewrite app_nil_r. reflexivity.
Qed.

Lemma literal_snoc (col : string) (op : cmp) (k : Z) (fragment : string)
    (cs : list cond) :
  fragment = cond_text (mkCond col op (Literal k)) ->
  (and_also (conj_text cs) fragment, where_params cs) =
  (conj_text (cs ++ [mkCond col op (Literal k)])%list,
   where_params (cs ++ [mkCond col op (Literal k)])%list).
Proof.
  intros ->. rewrite conj_text_snoc, where_params_snoc. simpl.
  now rewrite app_nil_r.
Qed.

Lemma finish_conds (cs : list cond) :
  finish (conj_text cs, where_params cs) = (where_text cs, where_params cs).
Proof.
  unfold finish, where_text. simpl fst; simpl snd.
  destruct cs as [| c cs]; [reflexivity |].
  destruct (conj_text_nonempty c cs) as (r & ->). reflexivity.
Qed.

End BuilderSteps.

(** Rewrites the innermost guarded block, whose predicate is on [col]. *)
Ltac block col op := erewrite (when_snoc _ _ _ col op) by reflexivity.

(** The text and the replacements the characters builder accumulates are
    those of the predicate list handed to the engine model. *)
Lemma characters_buildWhereClause_conds (filters : Characters.Filters) :
  Characters.buildWhereClause filters =
  (where_text (Characters.where_conds filters),
   where_params (Characters.where_conds filters)).
Proof.
  unfold Characters.buildWhereClause, Characters.where_conds.
  cbv zeta.
  change ("", @nil param) with (conj_text [], where_params []).
  block "char_name" Like. block "account_name" Like. block "clanid" Eq.
  block "online" Eq. block "base_class_id" Ge. block "base_class_id" Le.
  block "createtime" Ge. block "createtime" Le.
  block "lastAccess" Ge. block "lastAccess" Le. block "sex" Eq.
  destruct (strict_eq_str (Characters.f_deletedOnly filters) "true");
    simpl fst; simpl snd.
  - erewrite (literal_snoc "deletetime" Gt 0) by reflexivity.
    rewrite finish_conds. simpl app. rewrite <- !app_assoc. reflexivity.
  - erewrite (literal_snoc "deletetime" Eq 0) by reflexivity.
    rewrite finish_conds. simpl app. rewrite <- !app_assoc. reflexivity.
Qed.

(** The same for the accounts builder. *)
Lemma accounts_buildWhereClause_conds (now : Z) (filters : Accounts.Filters) :
  Accounts.buildWhereClause now filters =
  (where_text (Accounts.where_conds now filters),
   where_params (Accounts.where_conds now filters)).
Proof.
  unfold Accounts.buildWhereClause, Accounts.where_conds.
  cbv zeta.
  change ("", @nil param) with (conj_text [], where_params []).
  block "login" Like. block "l2email" Like. block "lastIP" Like.
  block "lastHWID" Like. block "lastServerId" Eq. block "accessLevel" Eq.
  block "lastactive" Ge. block "lastactive" Le. block "ban_expire" Gt.
  rewrite finish_conds. simpl app. rewrite <- !app_assoc. reflexivity.
Qed.

(* ================================================================== *)
(** * The soft-delete predicate of the characters list *)
(* ================================================================== *)

Lemma all_bools_spec (n : nat) :
  forall P, all_bools n P = true ->
  forall l, List.length l = n -> P l = true.
Proof.
  induction n as [| n IH]; intros P HP l Hl.
  - destruct l; [exact HP | discriminate].
  - destruct l as [| b l]; [discriminate |].
    simpl in HP. apply andb_prop in HP. destruct HP as [Ht Hf].
    injection Hl as Hl.
    destruct b; [apply (IH _ Ht) | apply (IH _ Hf)]; exact Hl.
Qed.

Lemma cond_text_shape (c : cond) : cond_text (shape c) = cond_text c.
Proof. destruct c as [col op [p | k]]; reflexivity. Qed.

Lemma conj_text_shape (cs : list cond) :
  conj_text (map shape cs) = conj_text cs.
Proof.
  induction cs as [| c cs IH]; [reflexivity |].
  destruct cs as [| d cs'].
  - simpl. apply cond_text_shape.
  - change (map shape (c :: d :: cs')) with (shape c :: map shape (d :: cs')).
    rewrite (conj_text_cons (shape c)) by discriminate.
    rewrite (conj_text_cons c) by discriminate.
    now rewrite IH, cond_text_shape.
Qed.

Lemma where_text_shape (cs : list cond) :
  where_text (map shape cs) = where_text cs.
Proof.
  destruct cs as [| c cs]; [reflexivity |].
  unfold where_text. change (map shape (c :: cs)) with (shape c :: map shape cs).
  change (shape c :: map shape cs) with (map shape (c :: cs)).
  now rewrite conj_text_shape.
Qed.

Lemma filter_on_deletetime_shape (cs : list cond) :
  List.length (filter on_deletetime (map shape cs)) =
  List.length (filter on_deletetime cs).
Proof.
  induction cs as [| c cs IH]; [reflexivity |].
  cbn [map filter].
  replace (on_deletetime (shape c)) with (on_deletetime c) by reflexivity.
  destruct (on_deletetime c); cbn [List.length]; now rewrite IH.
Qed.

Lemma map_shape_guarded (test : bool) (c : cond) :
  map shape (if test then [c] else []) = if test then [shape c] else [].
Proof. destruct test; reflexivity. Qed.

(** The predicate list of a filter set has the shape its tests select. *)
Lemma characters_conds_shape (filters : Characters.Filters) :
  map shape (Characters.where_conds filters) =
  characters_skeleton (characters_tests filters)
    (strict_eq_str (Characters.f_deletedOnly filters) "true").
Proof.
  unfold Characters.where_conds.
  rewrite !map_app, !map_shape_guarded.
  destruct (strict_eq_str (Characters.f_deletedOnly filters) "true");
    reflexivity.
Qed.

Lemma deletetime_check_all : all_bools 11 deletetime_check = true.
Proof. vm_compute. reflexivity. Qed.

(** C2.  Whatever the filter set, the WHERE clause the characters builder
    produces contains the predicate [`deletetime` > 0] exactly when
    [deletedOnly] is the string ['true'] and the predicate [`deletetime` = 0]
    exactly when it is not; so one of the two is present and never both, and
    the predicate list has a single predicate on that column. *)
Theorem characters_deletetime_exactly_one (filters : Characters.Filters) :
  let whereClause := fst (Characters.buildWhereClause filters) in
  let deletedOnly := strict_eq_str (Characters.f_deletedOnly filters) "true" in
  occurs_in "`deletetime` > 0" whereClause = deletedOnly /\
  occurs_in "`deletetime` = 0" whereClause = negb deletedOnly /\
  List.length (filter on_deletetime (Characters.where_conds filters)) = 1%nat.
Proof.
  cbv zeta.
  rewrite characters_buildWhereClause_conds. simpl fst.
  rewrite <- where_text_shape, <- filter_on_deletetime_shape.
  rewrite characters_conds_shape.
  pose proof (all_bools_spec 11 deletetime_check deletetime_check_all
                (characters_tests filters) eq_refl) as H.
  unfold deletetime_check in H. cbv zeta in H.
  repeat (apply andb_prop in H; destruct H as [H ?]).
  destruct (strict_eq_str (Characters.f_deletedOnly filters) "true").
  - repeat split; try assumption.
    + now apply negb_true_iff.
    + now apply Nat.eqb_eq.
  - repeat split; try assumption.
    + now apply negb_true_iff.
    + now apply Nat.eqb_eq.
Qed.

(* ================================================================== *)
(** * Boolean flags of the list routes *)
(* ================================================================== *)

Lemma strict_eq_str_true (v : option string) (lit : string) :
  strict_eq_str v lit = true <-> v = Some lit.
Proof.
  destruct v as [s |]; simpl.
  - rewrite String.eqb_eq. split; congruence.
  - split; discriminate.
Qed.

(** Membership in one guarded block of a predicate list. *)
Lemma in_guarded (test : bool) (c d : cond) :
  In c (if test then [d] else []) <-> test = true /\ c = d.
Proof.
  destruct test; simpl; intuition (try discriminate; auto).
Qed.

(** C4.  On the list routes a boolean flag takes its true branch for the raw
    value ["true"] and for no other: the accounts clause has the predicate
    [`ban_expire` > now] exactly when [isBanned] is ["true"]; the characters
    clause has [`online` = 1] exactly when [online] is ["true"], and
    [`deletetime` > 0] exactly when [deletedOnly] is ["true"].  The clauses
    are the ones the builders write out. *)
Theorem flags_true_only_for_true
    (now : Z) (qa : Accounts.ListQuery) (qc : Characters.ListQuery) :
  let accountConds := Accounts.where_conds now (Accounts.list_filters qa) in
  let characterConds := Characters.where_conds (Characters.list_filters qc) in
  Accounts.buildWhereClause now (Accounts.list_filters qa) =
    (where_text accountConds, where_params accountConds) /\
  Characters.buildWhereClause (Characters.list_filters qc) =
    (where_text characterConds, where_params characterConds) /\
  (In (mkCond "ban_expire" Gt (Bound (PNum (Num now)))) accountConds <->
   Accounts.q_isBanned qa = Some "true") /\
  (In (mkCond "online" Eq (Bound (PNum (Num 1)))) characterConds <->
   Characters.q_online qc = Some "true") /\
  (In (mkCond "deletetime" Gt (Literal 0)) characterConds <->
   Characters.q_deletedOnly qc = Some "true").
Proof.
  cbv zeta.
  split; [apply accounts_buildWhereClause_conds |].
  split; [apply characters_buildWhereClause_conds |].
  split; [| split].
  - unfold Accounts.where_conds, Accounts.list_filters; simpl.
    rewrite !in_app_iff, !in_guarded, <- strict_eq_str_true.
    destruct (strict_eq_str (Accounts.q_isBanned qa) "true"); simpl;
      intuition (try discriminate; auto).
  - unfold Characters.where_conds, Characters.list_filters; simpl.
    rewrite !in_app_iff, !in_guarded, <- strict_eq_str_true.
    destruct (Characters.q_online qc) as [s |]; simpl.
    + destruct (String.eqb s "true"); simpl;
        destruct (strict_eq_str (Characters.q_deletedOnly qc) "true"); simpl;
        intuition (try discriminate; auto).
    + destruct (strict_eq_str (Characters.q_deletedOnly qc) "true"); simpl;
        intuition (try discriminate; auto).
  - unfold Characters.where_conds, Characters.list_filters; simpl.
    rewrite !in_app_iff, !in_guarded, <- strict_eq_str_true.
    destruct (strict_eq_str (Characters.q_deletedOnly qc) "true"); simpl;
      intuition (try discriminate; auto).
Qed.

(** ["false"] and ["TRUE"] are not ["true"]: [online=false] filters on
    [`online` = 0], and [isBanned=false] or [deletedOnly=TRUE] leave the
    clause as it is without them. *)
Example flags_other_values :
  Characters.buildWhereClause
    (Characters.list_filters
       (Characters.mkListQuery None None None None None (Some "false") None
          None None None None None None (Some "TRUE") None None)) =
    ("WHERE `online` = ? AND `deletetime` = 0", [PNum (Num 0)]) /\
  Accounts.buildWhereClause Sample.now
    (Accounts.list_filters
       (Accounts.mkListQuery None None None None None None None None None
          None (Some "false") None None)) = ("", []) /\
  Accounts.buildWhereClause Sample.now
    (Accounts.list_filters
       (Accounts.mkListQuery None None (Some "test") None None None None
          None None None (Some "true") None None)) =
    ("WHERE `login` LIKE ? AND `ban_expire` > ?",
     [PStr "%test%"; PNum (Num Sample.now)]).
Proof. repeat split. Qed.

(* ================================================================== *)
(** * Sorting: the allow-list and the direction *)
(* ================================================================== *)

Lemma includes_In (l : list string) (s : string) :
  includes l s = true <-> In s l.
Proof.
  unfold includes. rewrite existsb_exists. split.
  - intros (x & Hin & Heq). apply String.eqb_eq in Heq. now subst.
  - intros Hin. exists s. split; [assumption | apply String.eqb_refl].
Qed.

Lemma includes_not_In (l : list string) (s : string) :
  ~ In s l -> includes l s = false.
Proof.
  intros Hn. destruct (includes l s) eqn:E; [| reflexivity].
  apply includes_In in E. contradiction.
Qed.

(** C5.  A [sortBy] outside the allow-list sorts by ['login'] in
    [getAccounts] and by ['char_name'] in [getCharacters]; a [sortOrder]
    whose lowercase form is not ['desc'] sorts ascending.  The whole call
    then behaves as the call with the default field or direction written
    out, so the fallback raises nothing of its own. *)
Theorem sort_fallbacks (accountSort characterSort sortOrder : string)
    (Haccount : ~ In accountSort Accounts.validSortFields)
    (Hcharacter : ~ In characterSort Characters.validSortFields)
    (Horder : toLowerCase sortOrder <> "desc") :
  Accounts.sortField accountSort = "login" /\
  Characters.sortField characterSort = "char_name" /\
  Accounts.order sortOrder = "ASC" /\
  Characters.order sortOrder = "ASC" /\
  (forall table now clock options,
     Accounts.getAccounts table now clock
       (Accounts.sorted_by options accountSort sortOrder) =
     Accounts.getAccounts table now clock
       (Accounts.sorted_by options "login" "asc")) /\
  (forall table options,
     Characters.getCharacters table
       (Characters.sorted_by options characterSort sortOrder) =
     Characters.getCharacters table
       (Characters.sorted_by options "char_name" "asc")).
Proof.
  assert (Ha : Accounts.sortField accountSort = "login").
  { unfold Accounts.sortField. now rewrite includes_not_In. }
  assert (Hc : Characters.sortField characterSort = "char_name").
  { unfold Characters.sortField. now rewrite includes_not_In. }
  assert (Ho : String.eqb (toLowerCase sortOrder) "desc" = false).
  { now apply String.eqb_neq. }
  repeat split.
  - exact Ha.
  - exact Hc.
  - unfold Accounts.order. now rewrite Ho.
  - unfold Characters.order. now rewrite Ho.
  - intros table now clock options.
    unfold Accounts.getAccounts, Accounts.sorted_by; simpl.
    rewrite Ha. unfold Accounts.order. rewrite Ho. reflexivity.
  - intros table options.
    unfold Characters.getCharacters, Characters.sorted_by; simpl.
    rewrite Hc. unfold Characters.order. rewrite Ho. reflexivity.
Qed.

Lemma sort_fallbacks_witness :
  Accounts.sortField "password; DROP TABLE accounts" = "login" /\
  Characters.sortField "level" = "char_name" /\
  Accounts.order "Descending" = "ASC" /\
  Characters.order "Descending" = "ASC" /\
  (forall table now clock options,
     Accounts.getAccounts table now clock
       (Accounts.sorted_by options "password; DROP TABLE accounts"
          "Descending") =
     Accounts.getAccounts table now clock
       (Accounts.sorted_by options "login" "asc")) /\
  (forall table options,
     Characters.getCharacters table
       (Characters.sorted_by options "level" "Descending") =
     Characters.getCharacters table
       (Characters.sorted_by options "char_name" "asc")).
Proof.
  apply sort_fallbacks.
  - simpl. intuition discriminate.
  - simpl. intuition discriminate.
  - discriminate.
Defined.

(** An allow-listed field and either spelling of the direction are kept. *)
Example sort_kept :
  Accounts.sortField "ban_expire" = "ban_expire" /\
  Characters.sortField "karma" = "karma" /\
  Accounts.order "DeSc" = "DESC" /\ Characters.order "desc" = "DESC".
Proof. repeat split. Qed.

(* ================================================================== *)
(** * Pagination *)
(* ================================================================== *)

Section PaginationFacts.

Lemma ceil_div_spec (a b : Z) :
  0 < b -> (ceil_div a b - 1) * b < a <= ceil_div a b * b.
Proof.
  intros Hb. unfold ceil_div.
  pose proof (Z.mul_div_le (- a) b Hb).
  pose proof (Z.mul_succ_div_gt (- a) b Hb).
  nia.
Qed.

Lemma mapM_length {A B} (f : A -> result B) (l : list A) (l' : list B) :
  mapM f l = Ok l' -> List.length l' = List.length l.
Proof.
  revert l'. induction l as [| a l IH]; intros l' H; simpl in H.
  - injection H as <-. reflexivity.
  - destruct (f a) as [b | e]; simpl in H; [| discriminate].
    destruct (mapM f l) as [bs | e]; simpl in H; [| discriminate].
    injection H as <-. simpl. now rewrite (IH bs).
Qed.

Lemma mapM_total {A B} (f : A -> result B) (l : list A) :
  (forall a, In a l -> exists b, f a = Ok b) -> exists l', mapM f l = Ok l'.
Proof.
  induction l as [| a l IH]; intros H; simpl.
  - now exists [].
  - destruct (H a (or_introl eq_refl)) as (b & ->).
    destruct IH as (bs & ->); [intros; apply H; now right |].
    simpl. now exists (b :: bs).
Qed.

Lemma in_firstn {A} (n : nat) (l : list A) (x : A) :
  In x (firstn n l) -> In x l.
Proof.
  intros H. rewrite <- (firstn_skipn n l). apply in_or_app. now left.
Qed.

Lemma in_skipn {A} (n : nat) (l : list A) (x : A) :
  In x (skipn n l) -> In x l.
Proof.
  intros H. rewrite <- (firstn_skipn n l). apply in_or_app. now right.
Qed.

Lemma mapM_from_length {A B} (f : nat -> A -> result B) (l : list A) :
  forall i l', mapM_from f i l = Ok l' -> List.length l' = List.length l.
Proof.
  induction l as [| a l IH]; intros i l' H; simpl in H.
  - injection H as <-. reflexivity.
  - destruct (f i a) as [b | e]; simpl in H; [| discriminate].
    destruct (mapM_from f (S i) l) as [bs | e] eqn:E; simpl in H;
      [| discriminate].
    injection H as <-. simpl. now rewrite (IH _ _ E).
Qed.

Lemma mapM_from_total {A B} (f : nat -> A -> result B) (l : list A) :
  (forall i a, In a l -> exists b, f i a = Ok b) ->
  forall i, exists l', mapM_from f i l = Ok l'.
Proof.
  induction l as [| a l IH]; intros H i; simpl.
  - now exists [].
  - destruct (H i a (or_introl eq_refl)) as (b & ->).
    destruct (IH (fun j x Hx => H j x (or_intror Hx)) (S i)) as (bs & ->).
    simpl. now exists (b :: bs).
Qed.

(** Below 2^53 an integer is its own double. *)
Lemma to_double_exact (z : Z) : Z.abs z < two53 -> to_double z = Num z.
Proof.
  intros H. unfold to_double. apply Z.ltb_lt in H. now rewrite H.
Qed.

(** The offset of a page, where the product stays below 2^53. *)
Lemma offset_of_exact (p l : Z) :
  1 <= p -> 0 <= l -> p <= two53 -> (p - 1) * l < two53 ->
  offset_of (Num p) (Num l) = Num ((p - 1) * l).
Proof.
  intros Hp Hl Hp' Hpl. unfold offset_of, pred_num.
  rewrite to_double_exact by lia. unfold mul_num.
  apply to_double_exact. rewrite Z.abs_eq; nia.
Qed.

Context {Row : Type} (lookup : Row -> string -> value).

Lemma in_insert_sorted field desc (r x : Row) (l : list Row) :
  In x (insert_sorted lookup field desc r l) -> x = r \/ In x l.
Proof.
  induction l as [| y l IH]; simpl.
  - intros [H | []]; auto.
  - destruct (comes_before lookup field desc r y); simpl.
    + intros [H | [H | H]]; auto.
    + intros [H | H]; auto. destruct (IH H); auto.
Qed.

Lemma in_order_by field desc (x : Row) (l : list Row) :
  In x (order_by lookup field desc l) -> In x l.
Proof.
  induction l as [| y l IH]; simpl; [auto |].
  intros H. apply in_insert_sorted in H. destruct H; auto.
Qed.

Lemma page_query_rows sql params cs field desc limit offset table rows :
  page_query lookup sql (params ++ [PNum (Num limit); PNum (Num offset)])%list
    cs field desc table = Ok rows ->
  (List.length rows <= Z.to_nat limit)%nat /\
  (forall r, In r rows -> In r table).
Proof.
  unfold page_query.
  destruct (forallb param_ok _); [| discriminate].
  rewrite rev_app_distr. cbn [rev app].
  destruct ((0 <=? limit) && (limit <? two64) && (0 <=? offset) &&
            (offset <? two64))%Z; [| discriminate].
  intros H. injection H as <-. split.
  - apply firstn_le_length.
  - intros r Hr.
    apply in_firstn, in_skipn, in_order_by in Hr.
    unfold select_where in Hr. now apply filter_In in Hr.
Qed.

Lemma page_query_total sql params cs field desc limit offset table :
  replacements_ok params = true ->
  0 <= limit < two64 -> 0 <= offset < two64 ->
  exists rows,
    page_query lookup sql
      (params ++ [PNum (Num limit); PNum (Num offset)])%list
      cs field desc table = Ok rows.
Proof.
  unfold page_query, replacements_ok. intros Hok [Hl Hl'] [Ho Ho'].
  rewrite forallb_app, Hok. cbn [forallb param_ok andb].
  rewrite rev_app_distr. cbn [rev app].
  apply Z.leb_le in Hl, Ho. apply Z.ltb_lt in Hl', Ho'.
  rewrite Hl, Ho, Hl', Ho'. simpl. eauto.
Qed.

End PaginationFacts.

Lemma iso_of_seconds_total (t : option Z) :
  in_date_range t = true -> exists s, iso_of_seconds (to_number t) = Ok s.
Proof.
  unfold in_date_range, iso_of_seconds, TimeClip. intros ->.
  unfold toISOString. eauto.
Qed.

Lemma accounts_enrich_total (now : Z) (r : Accounts.Row) :
  account_dates_in_range r = true -> exists e, Accounts.enrich now r = Ok e.
Proof.
  unfold account_dates_in_range. intros H.
  apply andb_prop in H. destruct H as [Ha Hb].
  destruct (iso_of_seconds_total _ Ha) as (sa & Hsa).
  destruct (iso_of_seconds_total _ Hb) as (sb & Hsb).
  unfold Accounts.enrich. rewrite Hsa, Hsb.
  destruct (truthy_col (Accounts.lastactive r));
    destruct (to_number (Accounts.ban_expire r) >? now)%Z; simpl; eauto.
Qed.

Lemma characters_enrich_total (r : Characters.Row) :
  character_dates_in_range r = true ->
  exists e, Characters.enrichCharacterData r = Ok e.
Proof.
  unfold character_dates_in_range. intros H.
  apply andb_prop in H. destruct H as [H Hc].
  apply andb_prop in H. destruct H as [Ha Hb].
  destruct (iso_of_seconds_total _ Ha) as (sa & Hsa).
  destruct (iso_of_seconds_total _ Hb) as (sb & Hsb).
  destruct (iso_of_seconds_total _ Hc) as (sc & Hsc).
  unfold Characters.enrichCharacterData. rewrite Hsa, Hsb, Hsc.
  destruct (truthy_col (Characters.createtime r));
    destruct (truthy_col (Characters.deletetime r) &&
              (to_number (Characters.deletetime r) >? 0)%Z);
    destruct (truthy_col (Characters.lastAccess r)); simpl; eauto.
Qed.

Lemma count_query_total {Row : Type} (lookup : Row -> string -> value)
    (sql : string) (params : list param) (cs : list cond)
    (table : list Row) :
  replacements_ok params = true ->
  count_query lookup sql params cs table =
  Ok (Z.of_nat (List.length (select_where lookup cs table))).
Proof. unfold count_query, replacements_ok. now intros ->. Qed.

Lemma ceil_quot_consistent (count : nat) (l : Z) (rows : nat) (pg page : jsnum) :
  1 <= l -> (rows <= Z.to_nat l)%nat ->
  consistent l
    (mkPagination (Z.of_nat count) pg page (ceil_quot (Z.of_nat count) (Num l)))
    rows.
Proof.
  intros Hl Hrows. exists (ceil_div (Z.of_nat count) l). simpl.
  split; [| split].
  - destruct l; try lia; reflexivity.
  - apply ceil_div_spec. lia.
  - exact Hrows.
Qed.

(** C1.  For [page >= 1] and [limit >= 1], whatever [getAccounts] or
    [getCharacters] returns has [totalPages] equal to the ceiling of
    [total / limit] and at most [limit] rows.  The call does return when no
    replacement of the clause is [NaN] or an infinity, the stored times are
    within what a [Date] holds, and page and offset are below 2^53, where
    [(page - 1) * limit] is computed without rounding. *)
Theorem pagination_consistent (p l : Z) (Hp : 1 <= p) (Hl : 1 <= l) :
  (forall table now clock options,
     Accounts.o_page options = Some (Num p) ->
     Accounts.o_limit options = Some (Num l) ->
     (forall result,
        Accounts.getAccounts table now clock options = Ok result ->
        consistent l (Accounts.pagination result)
          (List.length (Accounts.accounts result))) /\
     (replacements_ok
        (snd (Accounts.buildWhereClause now
                (default (Accounts.o_filters options) Accounts.no_filters)))
        = true ->
      forallb account_dates_in_range table = true ->
      p < two53 -> l < two53 -> (p - 1) * l < two53 ->
      exists result,
        Accounts.getAccounts table now clock options = Ok result)) /\
  (forall table options,
     Characters.o_page options = Some (Num p) ->
     Characters.o_limit options = Some (Num l) ->
     (forall result,
        Characters.getCharacters table options = Ok result ->
        consistent l (Characters.pagination result)
          (List.length (Characters.characters result))) /\
     (replacements_ok
        (snd (Characters.buildWhereClause
                (default (Characters.o_filters options)
                   Characters.no_filters)))
        = true ->
      forallb character_dates_in_range table = true ->
      p < two53 -> l < two53 -> (p - 1) * l < two53 ->
      exists result, Characters.getCharacters table options = Ok result)).
Proof.
  assert (Hbound : two53 < two64) by reflexivity.
  split.
  - intros table now clock options Hpage Hlimit.
    unfold Accounts.getAccounts. rewrite Hpage, Hlimit.
    cbn [default].
    set (built := Accounts.buildWhereClause now _).
    set (conds := Accounts.where_conds now _).
    cbv zeta.
    split.
    + intros result H.
      unfold count_query in H.
      destruct (forallb param_ok (snd built)); [| discriminate].
      cbn [bind] in H.
      destruct (offset_of (Num p) (Num l)) as [o | |] eqn:Ho;
        try (unfold page_query in H; rewrite rev_app_distr in H;
             cbn [rev app] in H;
             destruct (forallb param_ok _) in H; discriminate).
      match type of H with
      | bind ?q _ = _ => destruct q as [rows | e] eqn:Hq; [| discriminate]
      end.
      cbn [bind] in H.
      destruct (mapM_indexed _ rows) as [out | e] eqn:Hm; [| discriminate].
      cbn [bind] in H. injection H as <-.
      cbn [Accounts.pagination Accounts.accounts].
      apply ceil_quot_consistent; [assumption |].
      rewrite (mapM_from_length _ _ _ _ Hm).
      now apply page_query_rows in Hq.
    + intros Hok Hdates Hp' Hl' Hpl.
      rewrite (count_query_total _ _ _ _ _ Hok). cbn [bind].
      rewrite (offset_of_exact p l) by lia.
      match goal with
      | |- context [page_query ?lk ?sql _ ?cs ?f ?d ?t] =>
          destruct (page_query_total lk sql (snd built) cs f d
                      l ((p - 1) * l) t Hok) as (rows & Hq);
            [lia | nia |]
      end.
      rewrite Hq. cbn [bind].
      destruct (mapM_from_total (fun i => Accounts.enrich (clock i)) rows)
        with (i := 0%nat) as (out & Hout).
      * intros i a Ha. apply accounts_enrich_total.
        apply page_query_rows in Hq. destruct Hq as [_ Hin].
        rewrite forallb_forall in Hdates. now apply Hdates, Hin.
      * unfold mapM_indexed. rewrite Hout. cbn [bind]. eauto.
  - intros table options Hpage Hlimit.
    unfold Characters.getCharacters. rewrite Hpage, Hlimit.
    cbn [default].
    set (built := Characters.buildWhereClause _).
    set (conds := Characters.where_conds _).
    cbv zeta.
    split.
    + intros result H.
      unfold count_query in H.
      destruct (forallb param_ok (snd built)); [| discriminate].
      cbn [bind] in H.
      destruct (offset_of (Num p) (Num l)) as [o | |] eqn:Ho;
        try (unfold page_query in H; rewrite rev_app_distr in H;
             cbn [rev app] in H;
             destruct (forallb param_ok _) in H; discriminate).
      match type of H with
      | bind ?q _ = _ => destruct q as [rows | e] eqn:Hq; [| discriminate]
      end.
      cbn [bind] in H.
      destruct (mapM Characters.enrichCharacterData
                  (map Characters.selected rows)) as [out | e] eqn:Hm;
        [| discriminate].
      cbn [bind] in H. injection H as <-.
      cbn [Characters.pagination Characters.characters].
      apply ceil_quot_consistent; [assumption |].
      rewrite (mapM_length _ _ _ Hm), length_map.
      now apply page_query_rows in Hq.
    + intros Hok Hdates Hp' Hl' Hpl.
      rewrite (count_query_total _ _ _ _ _ Hok). cbn [bind].
      rewrite (offset_of_exact p l) by lia.
      match goal with
      | |- context [page_query ?lk ?sql _ ?cs ?f ?d ?t] =>
          destruct (page_query_total lk sql (snd built) cs f d
                      l ((p - 1) * l) t Hok) as (rows & Hq);
            [lia | nia |]
      end.
      rewrite Hq. cbn [bind].
      destruct (mapM_total Characters.enrichCharacterData
                  (map Characters.selected rows)) as (out & ->).
      * intros a Ha. apply in_map_iff in Ha. destruct Ha as (r & <- & Hr).
        apply characters_enrich_total.
        apply page_query_rows in Hq. destruct Hq as [_ Hin].
        rewrite forallb_forall in Hdates.
        exact (Hdates r (Hin r Hr)).
      * cbn [bind]. eauto.
Qed.

Lemma pagination_consistent_witness :
  exists result,
    Accounts.getAccounts Sample.accounts Sample.now Sample.ticking
      Sample.page_two_of_three = Ok result /\
    consistent 3 (Accounts.pagination result)
      (List.length (Accounts.accounts result)).
Proof.
  destruct (pagination_consistent 2 3) as [Haccounts _]; [lia | lia |].
  destruct (Haccounts Sample.accounts Sample.now Sample.ticking
              Sample.page_two_of_three eq_refl eq_refl)
    as [Hpartial Htotal].
  destruct Htotal as (result & Hresult);
    [reflexivity | reflexivity | reflexivity | reflexivity | reflexivity |].
  exists result. split; [exact Hresult | exact (Hpartial result Hresult)].
Defined.

(** Four accounts in pages of three: the second page has one row. *)
Example second_page_of_four :
  match Accounts.getAccounts Sample.accounts Sample.now Sample.ticking
          Sample.page_two_of_three with
  | Ok result =>
      map Accounts.l_login (Accounts.accounts result) = ["tester01"] /\
      Accounts.pagination result = mkPagination 4 (Num 2) (Num 3) (Num 2)
  | Throw _ => False
  end.
Proof. vm_compute. split; reflexivity. Qed.

(* ================================================================== *)
(** * Page and limit of the list routes *)
(* ================================================================== *)

(** C7.  A [page] or [limit] that is present but no number is not replaced
    by the default: [parseInt("abc" || 1, 10)] is [NaN], which [getAccounts]
    and [getCharacters] write into the data query, so the database refuses
    the statement and the list routes answer 500 on any table.  A number
    below one is used as it is: [page=0] asks for OFFSET -10, which is
    refused as well. *)
Lemma page_limit_not_coerced :
  (forall table now clock,
     Accounts.getAccounts table now clock
       (Accounts.list_options (Sample.accounts_query (Some "abc") None)) =
       Throw DbError /\
     status (Accounts.list_route table now clock
               (Sample.accounts_query (Some "abc") None)) = 500 /\
     status (Accounts.list_route table now clock
               (Sample.accounts_query None (Some "ten"))) = 500 /\
     status (Accounts.list_route table now clock
               (Sample.accounts_query (Some "0") None)) = 500) /\
  (forall table,
     Characters.getCharacters table
       (Characters.list_options (Sample.characters_query (Some "abc") None)) =
       Throw DbError /\
     status (Characters.list_route table
               (Sample.characters_query (Some "abc") None)) = 500) /\
  Accounts.o_page
    (Accounts.list_options (Sample.accounts_query (Some "abc") None)) =
    Some NaN /\
  offset_of (parseInt_or (Some "0") 1) (parseInt_or None 10) = Num (-10).
Proof.
  split; [| split; [| split; reflexivity]].
  - intros table now clock. repeat split.
  - intros table. split; reflexivity.
Qed.

(** With [page] and [limit] absent or empty the defaults are used. *)
Example page_limit_defaults :
  Accounts.list_options (Sample.accounts_query None (Some "")) =
  Accounts.mkOptions (Some (Num 1)) (Some (Num 10))
    (Some Accounts.no_filters) (Some "login") (Some "asc").
Proof. reflexivity. Qed.

(* ================================================================== *)
(** * Lookups that skip soft-deleted characters *)
(* ================================================================== *)

Section SoftDelete.
Import Characters.

Lemma lookup_deletetime (r : Row) :
  lookup r "deletetime" = vint (deletetime r).
Proof. reflexivity. Qed.

Lemma lookup_obj_Id (r : Row) : lookup r "obj_Id" = VInt (obj_Id r).
Proof. reflexivity. Qed.

Lemma lookup_char_name (r : Row) : lookup r "char_name" = VStr (char_name r).
Proof. reflexivity. Qed.

(** A row the key predicates [col = ? AND deletetime = 0] keep. *)
Lemma holds_live_id (r : Row) (n : Z) :
  forallb (holds (lookup r))
    [mkCond "obj_Id" Eq (Bound (PNum (Num n)));
     mkCond "deletetime" Eq (Literal 0)] = true ->
  obj_Id r = n /\ deletetime r = Some 0.
Proof.
  unfold forallb, holds. cbn [c_col c_op c_rhs].
  rewrite lookup_deletetime, lookup_obj_Id.
  destruct (deletetime r) as [d |]; cbn.
  - rewrite andb_true_r. intros H. apply andb_prop in H.
    destruct H as [H1 H2]. apply Z.eqb_eq in H1, H2. now subst.
  - rewrite andb_false_r. discriminate.
Qed.

Lemma holds_live_name (r : Row) (name : string) :
  forallb (holds (lookup r))
    [mkCond "char_name" Eq (Bound (PStr name));
     mkCond "deletetime" Eq (Literal 0)] = true ->
  char_name r = name /\ deletetime r = Some 0.
Proof.
  unfold forallb, holds. cbn [c_col c_op c_rhs].
  rewrite lookup_deletetime, lookup_char_name.
  destruct (deletetime r) as [d |]; cbn.
  - rewrite andb_true_r. intros H. apply andb_prop in H.
    destruct H as [H1 H2]. apply String.eqb_eq in H1. apply Z.eqb_eq in H2.
    now subst.
  - rewrite andb_false_r. discriminate.
Qed.

Lemma filter_nil {A} (f : A -> bool) (l : list A) :
  (forall a, In a l -> f a = false) -> filter f l = [].
Proof.
  induction l as [| a l IH]; intros H; [reflexivity |].
  simpl. rewrite (H a (or_introl eq_refl)). apply IH.
  intros b Hb. apply H. now right.
Qed.

(** No live row under the id: the keyed query is empty. *)
Lemma no_live_row_by_id (table : list Row) (n : Z) :
  (forall r, In r table -> obj_Id r = n -> deletetime r <> Some 0) ->
  select_where lookup
    [mkCond "obj_Id" Eq (Bound (PNum (Num n)));
     mkCond "deletetime" Eq (Literal 0)] table = [].
Proof.
  intros H. apply filter_nil. intros r Hr.
  destruct (forallb _ _) eqn:E; [| reflexivity].
  apply holds_live_id in E. destruct E as [E1 E2].
  now destruct (H r Hr E1).
Qed.

Lemma no_live_row_by_name (table : list Row) (name : string) :
  (forall r, In r table -> char_name r = name -> deletetime r <> Some 0) ->
  select_where lookup
    [mkCond "char_name" Eq (Bound (PStr name));
     mkCond "deletetime" Eq (Literal 0)] table = [].
Proof.
  intros H. apply filter_nil. intros r Hr.
  destruct (forallb _ _) eqn:E; [| reflexivity].
  apply holds_live_name in E. destruct E as [E1 E2].
  now destruct (H r Hr E1).
Qed.


End SoftDelete.



(** The live characters of the sample are found, also behind white space
    that [parseInt] skips; an id of 310 digits is an infinity, which the
    database refuses. *)
Example character_by_id_found :
  status (Characters.by_id_route Sample.characters "268480001") = 200 /\
  status (Characters.by_id_route Sample.characters
            (Sample.nbsp ++ "268480001")) = 200 /\
  status (Characters.by_id_route Sample.characters
            (Sample.bom ++ " 268480003abc")) = 200 /\
  parseInt (String "1" (Sample.copies 309 "0")) = Infinity /\
  status (Characters.by_id_route Sample.characters
            (String "1" (Sample.copies 309 "0"))) = 500.
Proof. repeat split. Qed.

(** C10.  The existence checks count rows with [deletetime = 0] only: for
    a stored character with [deletetime > 0], whose name and id no other
    row carries, [exists(charName)] and [existsById(objId)] are [false] and
    the exists route answers [{exists: false}] with status 200. *)
Theorem soft_deleted_do_not_exist
    (table : list Characters.Row) (c : Characters.Row) (d : Z)
    (Hstored : In c table)
    (Hdeleted : Characters.deletetime c = Some d /\ 0 < d)
    (Hname : forall r, In r table ->
               Characters.char_name r = Characters.char_name c -> r = c)
    (Hid : forall r, In r table ->
             Characters.obj_Id r = Characters.obj_Id c -> r = c) :
  Characters.exists_ table (Characters.char_name c) = Ok false /\
  Characters.existsById table (Num (Characters.obj_Id c)) = Ok false /\
  Characters.exists_route table (Characters.char_name c) =
    json (Characters.mkExists false).
Proof.
  destruct Hdeleted as [Hd Hpos].
  assert (Hc : Characters.deletetime c <> Some 0).
  { rewrite Hd. intros E. injection E as E. lia. }
  assert (Hbyname :
            Characters.exists_ table (Characters.char_name c) = Ok false).
  { unfold Characters.exists_, count_query.
    cbn [forallb param_ok andb].
    rewrite no_live_row_by_name; [reflexivity |].
    intros r Hr Hn. now rewrite (Hname r Hr Hn). }
  split; [exact Hbyname | split].
  - unfold Characters.existsById, count_query.
    cbn [forallb param_ok andb].
    rewrite no_live_row_by_id; [reflexivity |].
    intros r Hr Hn. now rewrite (Hid r Hr Hn).
  - unfold Characters.exists_route. now rewrite Hbyname.
Qed.

Lemma soft_deleted_do_not_exist_witness :
  In (Sample.character 268480002 "Bravo" "tester01"
        (Some 1680998401) (Some 1690000000)) Sample.characters /\
  Characters.exists_ Sample.characters "Bravo" = Ok false /\
  Characters.existsById Sample.characters (Num 268480002) = Ok false /\
  Characters.exists_route Sample.characters "Bravo" =
    json (Characters.mkExists false).
Proof.
  split; [right; left; reflexivity |].
  apply (soft_deleted_do_not_exist Sample.characters
           (Sample.character 268480002 "Bravo" "tester01"
              (Some 1680998401) (Some 1690000000)) 1690000000).
  - right; left; reflexivity.
  - split; [reflexivity | lia].
  - intros r [<- | [<- | [<- | []]]]; try discriminate; reflexivity.
  - intros r [<- | [<- | [<- | []]]]; try discriminate; reflexivity.
Defined.

(** A live character exists under its name and under its id. *)
Example live_character_exists :
  Characters.exists_ Sample.characters "Alpha" = Ok true /\
  Characters.existsById Sample.characters (Num 268480003) = Ok true.
Proof. split; reflexivity. Qed.

(* ================================================================== *)
(** * Unban *)
(* ================================================================== *)

Section Unban.
Import Accounts.

Lemma lookup_login (r : Row) : lookup r "login" = VStr (login r).
Proof. reflexivity. Qed.

Lemma select_by_login (table : list Row) (name : string) :
  select_where lookup [mkCond "login" Eq (Bound (PStr name))] table =
  filter (fun r => String.eqb (login r) name) table.
Proof.
  unfold select_where. apply filter_ext. intros r.
  unfold forallb, holds. cbn [c_col c_op c_rhs].
  rewrite lookup_login. apply andb_true_r.
Qed.

(** [exists(login)] is [true] exactly when a row has that login. *)
Lemma exists_spec (table : list Row) (name : string) :
  exists_ table name =
  Ok (existsb (fun r => String.eqb (login r) name) table).
Proof.
  unfold exists_, count_query.
  cbn [forallb param_ok andb bind].
  rewrite select_by_login. f_equal.
  induction table as [| r table IH]; [reflexivity |].
  simpl. destruct (String.eqb (login r) name); simpl.
  - destruct (filter _ table); reflexivity.
  - exact IH.
Qed.

Lemma login_clear_ban (name : string) (table : list Row) :
  map login (clear_ban name table) = map login table.
Proof.
  unfold clear_ban. rewrite map_map. apply map_ext. intros r.
  destruct (String.eqb (login r) name); reflexivity.
Qed.

Lemma existsb_clear_ban (name : string) (table : list Row) :
  existsb (fun r => String.eqb (login r) name) (clear_ban name table) =
  existsb (fun r => String.eqb (login r) name) table.
Proof.
  induction table as [| r table IH]; [reflexivity |].
  simpl. rewrite IH. destruct (String.eqb (login r) name) eqn:E; simpl.
  - now rewrite E.
  - now rewrite E.
Qed.

(** The update changes nothing where the ban is already lifted. *)
Lemma clear_ban_unbanned (name : string) (table : list Row) :
  (forall r, In r table -> login r = name -> ban_expire r = Some 0) ->
  clear_ban name table = table.
Proof.
  intros H. unfold clear_ban. rewrite <- (map_id table) at 2.
  apply map_ext_in. intros r Hr.
  destruct (String.eqb (login r) name) eqn:E; [| reflexivity].
  apply String.eqb_eq in E. specialize (H r Hr E).
  destruct r; simpl in *. now rewrite H.
Qed.

Lemma clear_ban_lifts (name : string) (table : list Row) :
  forall r, In r (clear_ban name table) -> login r = name ->
            ban_expire r = Some 0.
Proof.
  intros r Hr Hn. unfold clear_ban in Hr. apply in_map_iff in Hr.
  destruct Hr as (r0 & Hr0 & _).
  destruct (String.eqb (login r0) name) eqn:E.
  - now subst r.
  - subst r. apply String.eqb_neq in E. contradiction.
Qed.

End Unban.

(** C9.  Unban is idempotent.  For an existing account whose [ban_expire]
    is already 0 the handler answers 200 with the success body and leaves
    the table as it was; and a first unban sets [ban_expire] to 0, so a
    second call answers as the first did and changes nothing. *)
Theorem unban_idempotent (table : list Accounts.Row) (name : string)
    (Hexists : exists r, In r table /\ Accounts.login r = name) :
  let success := json (Accounts.mkSuccess true "Бан успешно снят") in
  ((forall r, In r table -> Accounts.login r = name ->
      Accounts.ban_expire r = Some 0) ->
   Accounts.unban_route table name = (table, success)) /\
  (let first := Accounts.unban_route table name in
   let second := Accounts.unban_route (fst first) name in
   snd first = success /\
   (forall r, In r (fst first) -> Accounts.login r = name ->
      Accounts.ban_expire r = Some 0) /\
   snd second = success /\
   fst second = fst first /\
   status (snd second) = 200).
Proof.
  cbv zeta.
  assert (Hfound :
            existsb (fun r => String.eqb (Accounts.login r) name) table = true).
  { apply existsb_exists. destruct Hexists as (r & Hr & Hn).
    exists r. split; [assumption | now apply String.eqb_eq]. }
  assert (Hcall : Accounts.unban_route table name =
                  (Accounts.clear_ban name table,
                   json (Accounts.mkSuccess true "Бан успешно снят"))).
  { unfold Accounts.unban_route. rewrite exists_spec, Hfound. reflexivity. }
  assert (Hagain :
            Accounts.unban_route (Accounts.clear_ban name table) name =
            (Accounts.clear_ban name table,
             json (Accounts.mkSuccess true "Бан успешно снят"))).
  { unfold Accounts.unban_route.
    rewrite exists_spec, existsb_clear_ban, Hfound. cbn [negb].
    rewrite (clear_ban_unbanned name (Accounts.clear_ban name table))
      by apply clear_ban_lifts.
    reflexivity. }
  split.
  - intros Hzero. rewrite Hcall. now rewrite clear_ban_unbanned.
  - rewrite Hcall. cbn [fst snd]. rewrite Hagain. cbn [fst snd].
    split; [reflexivity | split; [apply clear_ban_lifts |]].
    repeat split.
Qed.

Lemma unban_idempotent_witness :
  let first := Accounts.unban_route Sample.accounts "banned02" in
  let second := Accounts.unban_route (fst first) "banned02" in
  snd first = json (Accounts.mkSuccess true "Бан успешно снят") /\
  (forall r, In r (fst first) -> Accounts.login r = "banned02" ->
     Accounts.ban_expire r = Some 0) /\
  snd second = json (Accounts.mkSuccess true "Бан успешно снят") /\
  fst second = fst first /\
  status (snd second) = 200.
Proof.
  apply (unban_idempotent Sample.accounts "banned02").
  eexists. split; [right; left; reflexivity | reflexivity].
Defined.

(** Unbanning an unknown login answers 404 and touches nothing. *)
Example unban_unknown :
  Accounts.unban_route Sample.accounts "nobody" =
  (Sample.accounts, fail 404 "Аккаунт не найден" None).
Proof. reflexivity. Qed.

(* ================================================================== *)
(** * The calendar *)
(* ================================================================== *)

Section Calendar.

Lemma DayFromYear_step (y : Z) :
  DayFromYear (y + 1) = DayFromYear y + DaysInYear y.
Proof.
  assert (H4 : y mod 4 <> 0 -> (y + 1 - 1969) / 4 = (y - 1969) / 4)
    by (intros; Z.div_mod_to_equations; lia).
  assert (H4' : y mod 4 = 0 -> (y + 1 - 1969) / 4 = (y - 1969) / 4 + 1)
    by (intros; Z.div_mod_to_equations; lia).
  assert (H100 : y mod 100 <> 0 -> (y + 1 - 1901) / 100 = (y - 1901) / 100)
    by (intros; Z.div_mod_to_equations; lia).
  assert (H100' : y mod 100 = 0 ->
                  (y + 1 - 1901) / 100 = (y - 1901) / 100 + 1)
    by (intros; Z.div_mod_to_equations; lia).
  assert (H400 : y mod 400 <> 0 -> (y + 1 - 1601) / 400 = (y - 1601) / 400)
    by (intros; Z.div_mod_to_equations; lia).
  assert (H400' : y mod 400 = 0 ->
                  (y + 1 - 1601) / 400 = (y - 1601) / 400 + 1)
    by (intros; Z.div_mod_to_equations; lia).
  assert (D1 : y mod 100 = 0 -> y mod 4 = 0)
    by (intros; Z.div_mod_to_equations; lia).
  assert (D2 : y mod 400 = 0 -> y mod 100 = 0)
    by (intros; Z.div_mod_to_equations; lia).
  unfold DayFromYear, DaysInYear, is_leap.
  destruct (Z.eqb_spec (y mod 4) 0) as [E4 | E4];
    destruct (Z.eqb_spec (y mod 100) 0) as [E100 | E100];
    destruct (Z.eqb_spec (y mod 400) 0) as [E400 | E400];
    cbn [andb orb negb];
    try (exfalso; auto; fail);
    first [rewrite (H4 E4) | rewrite (H4' E4)];
    first [rewrite (H100 E100) | rewrite (H100' E100)];
    first [rewrite (H400 E400) | rewrite (H400' E400)];
    lia.
Qed.

(** [YearFromDay] is YearFromTime: the year whose days contain [day]. *)
Lemma YearFromDay_spec (day : Z) :
  DayFromYear (YearFromDay day) <= day < DayFromYear (YearFromDay day + 1).
Proof.
  unfold YearFromDay. cbv zeta.
  destruct (Z.ltb_spec day (DayFromYear (1970 + 400 * day / 146097)));
    [| destruct (Z.leb_spec
                   (DayFromYear (1970 + 400 * day / 146097 + 1)) day)];
    unfold DayFromYear in *; Z.div_mod_to_equations; lia.
Qed.

Lemma DaysInYear_cases (y : Z) :
  DaysInYear y = 365 + (if is_leap y then 1 else 0).
Proof. unfold DaysInYear. now destruct (is_leap y). Qed.

Lemma day_within_year (day : Z) :
  0 <= day - DayFromYear (YearFromDay day) < DaysInYear (YearFromDay day).
Proof.
  pose proof (YearFromDay_spec day) as H.
  rewrite DayFromYear_step in H. lia.
Qed.

Lemma DayFromYear_increasing (a b : Z) :
  a < b -> DayFromYear a + 365 <= DayFromYear b.
Proof.
  intros H. unfold DayFromYear. Z.div_mod_to_equations. lia.
Qed.

(** The year is determined by the day. *)
Lemma YearFromDay_unique (day y : Z) :
  DayFromYear y <= day < DayFromYear (y + 1) -> YearFromDay day = y.
Proof.
  intros H. pose proof (YearFromDay_spec day) as S.
  destruct (Z.lt_trichotomy (YearFromDay day) y) as [L | [E | G]];
    [| exact E |].
  - pose proof (DayFromYear_increasing (YearFromDay day) y L).
    assert (DayFromYear (YearFromDay day + 1) <= DayFromYear y).
    { destruct (Z.eq_dec (YearFromDay day + 1) y) as [-> | N]; [lia |].
      pose proof (DayFromYear_increasing (YearFromDay day + 1) y). lia. }
    lia.
  - assert (DayFromYear (y + 1) <= DayFromYear (YearFromDay day)).
    { destruct (Z.eq_dec (y + 1) (YearFromDay day)) as [<- | N]; [lia |].
      pose proof (DayFromYear_increasing (y + 1) (YearFromDay day)). lia. }
    lia.
Qed.

(** Month and day of the month of a day within the year. *)
Lemma month_and_date (y dwy : Z) :
  0 <= dwy < DaysInYear y ->
  0 <= MonthFromDay (is_leap y) dwy <= 11 /\
  1 <= DateFromDay (is_leap y) dwy
    <= DaysInMonth y (MonthFromDay (is_leap y) dwy + 1).
Proof.
  rewrite DaysInYear_cases. intros H.
  unfold DateFromDay, MonthFromDay, DaysInMonth.
  destruct (is_leap y); cbv zeta;
    repeat match goal with
           | |- context [(?a <? ?b)%Z] => destruct (Z.ltb_spec a b)
           end;
    cbn; lia.
Qed.

(** The month and the day of the month determine the day within the
    year. *)
Lemma month_and_date_unique (y m d : Z) :
  1 <= m <= 12 -> 1 <= d <= DaysInMonth y m ->
  let dwy := month_start (is_leap y) (m - 1) + d - 1 in
  0 <= dwy < DaysInYear y /\
  MonthFromDay (is_leap y) dwy = m - 1 /\
  DateFromDay (is_leap y) dwy = d.
Proof.
  intros Hm Hd. cbv zeta. rewrite DaysInYear_cases.
  assert (Cases : m = 1 \/ m = 2 \/ m = 3 \/ m = 4 \/ m = 5 \/ m = 6 \/
                  m = 7 \/ m = 8 \/ m = 9 \/ m = 10 \/ m = 11 \/ m = 12)
    by lia.
  destruct (is_leap y) eqn:L;
    repeat (destruct Cases as [-> | Cases]); try subst m;
    unfold DaysInMonth in Hd; try rewrite L in Hd;
    unfold DateFromDay, MonthFromDay;
    match goal with
    | |- context [month_start _ (?k - 1)] =>
        let v := eval vm_compute in (k - 1) in change (k - 1) with v
    end;
    cbn [month_start]; cbv zeta;
    repeat match goal with
           | |- context [(?a <? ?b)%Z] => destruct (Z.ltb_spec a b); try lia
           end;
    cbn [month_start]; lia.
Qed.

End Calendar.

(* ================================================================== *)
(** * Writing and reading decimal fields *)
(* ================================================================== *)

Section DecimalFields.

Lemma digit_char_digit (d : Z) :
  0 <= d <= 9 ->
  is_digit (digit_char d) = true /\ digit_val (digit_char d) = d.
Proof.
  intros H.
  assert (C : d = 0 \/ d = 1 \/ d = 2 \/ d = 3 \/ d = 4 \/ d = 5 \/
              d = 6 \/ d = 7 \/ d = 8 \/ d = 9) by lia.
  repeat (destruct C as [-> | C]); try subst d; split; reflexivity.
Qed.

Lemma digit_char_of_digit (c : ascii) :
  is_digit c = true ->
  digit_char (digit_val c) = c /\ 0 <= digit_val c <= 9.
Proof.
  unfold is_digit, digit_char, digit_val. intros H.
  apply andb_prop in H. destruct H as [Hlo Hhi].
  apply Nat.leb_le in Hlo, Hhi.
  split; [| lia].
  replace (48 + Z.to_nat (Z.of_nat (nat_of_ascii c) - 48))%nat
    with (nat_of_ascii c) by lia.
  apply ascii_nat_embedding.
Qed.

Lemma pad_digits_app (k : nat) :
  forall n acc rest,
    pad_digits k n acc ++ rest = pad_digits k n (acc ++ rest).
Proof.
  induction k as [| k IH]; intros n acc rest; simpl; [reflexivity |].
  now rewrite IH.
Qed.

Lemma read_digits_app (j k : nat) :
  forall s acc,
    read_digits (j + k) s acc =
    match read_digits j s acc with
    | Some (v, r) => read_digits k r v
    | None => None
    end.
Proof.
  induction j as [| j IH]; intros s acc; simpl; [reflexivity |].
  destruct s as [| c r]; [reflexivity |].
  destruct (is_digit c); [apply IH | reflexivity].
Qed.

(** Reading back [k] digits that were written. *)
Lemma read_pad (k : nat) :
  forall n rest acc,
    0 <= n < 10 ^ Z.of_nat k ->
    read_digits k (pad_digits k n rest) acc =
    Some (acc * 10 ^ Z.of_nat k + n, rest).
Proof.
  induction k as [| k IH]; intros n rest acc H.
  - simpl in *. f_equal. f_equal. lia.
  - rewrite Nat2Z.inj_succ, Z.pow_succ_r in * by lia.
    replace (S k) with (k + 1)%nat at 1 by lia.
    rewrite read_digits_app.
    cbn [pad_digits].
    rewrite IH by (Z.div_mod_to_equations; lia).
    cbn [read_digits].
    destruct (digit_char_digit (n mod 10)) as [-> ->];
      [Z.div_mod_to_equations; lia |].
    f_equal. f_equal. Z.div_mod_to_equations. lia.
Qed.

Lemma read_field_pad (sep : ascii) (k : nat) (n : Z) (rest : string) :
  0 <= n < 10 ^ Z.of_nat k ->
  read_field sep k (String sep (pad k n ++ rest)) = Some (n, rest).
Proof.
  intros H. unfold read_field, pad. rewrite Ascii.eqb_refl.
  rewrite pad_digits_app. cbn [append].
  rewrite read_pad by assumption.
  now replace (0 * 10 ^ Z.of_nat k + n) with n by lia.
Qed.

(** The head of a written field is a digit, so it is no sign. *)
Lemma pad_head (k : nat) (n : Z) (rest : string) :
  0 <= n < 10 ^ Z.of_nat (S k) ->
  exists c r, pad_digits (S k) n rest = String c r /\ is_digit c = true.
Proof.
  intros H.
  pose proof (read_pad (S k) n rest 0 H) as R.
  destruct (pad_digits (S k) n rest) as [| c r]; [discriminate |].
  exists c, r. split; [reflexivity |].
  cbn [read_digits] in R. destruct (is_digit c); [reflexivity | discriminate].
Qed.

Lemma read_year_iso_year (y : Z) (rest : string) :
  - 10 ^ 6 < y < 10 ^ 6 ->
  read_year (iso_year y ++ rest) = Some (y, rest).
Proof.
  intros H. unfold iso_year.
  destruct ((0 <=? y) && (y <=? 9999))%Z eqn:E.
  - apply andb_prop in E. destruct E as [E1 E2].
    apply Z.leb_le in E1, E2.
    unfold pad. rewrite pad_digits_app. cbn [append].
    destruct (pad_head 3 y rest) as (c & r & Hs & Hc); [simpl; lia |].
    unfold read_year. rewrite Hs.
    assert (Ascii.eqb c "+" = false /\ Ascii.eqb c "-" = false) as [-> ->].
    { split; apply Ascii.eqb_neq; intros ->; discriminate. }
    rewrite <- Hs. rewrite read_pad by (simpl; lia).
    now replace (0 * 10 ^ Z.of_nat 4 + y) with y by lia.
  - destruct (Z.ltb_spec y 0) as [N | P].
    + cbn [append read_year]. cbn [Ascii.eqb Bool.eqb].
      unfold pad. rewrite pad_digits_app. cbn [append].
      rewrite read_pad by (simpl; lia).
      replace (0 * 10 ^ Z.of_nat 6 + - y) with (- y) by lia.
      destruct (Z.eqb_spec (- y) 0); [lia |].
      now replace (- - y) with y by lia.
    + cbn [append read_year]. cbn [Ascii.eqb Bool.eqb].
      unfold pad. rewrite pad_digits_app. cbn [append].
      rewrite read_pad by (simpl; lia).
      now replace (0 * 10 ^ Z.of_nat 6 + y) with y by lia.
Qed.

(** What was written is what is read. *)
Lemma read_iso_string (y mo d h mi s ms : Z) :
  - 10 ^ 6 < y < 10 ^ 6 ->
  0 <= mo < 100 -> 0 <= d < 100 -> 0 <= h < 100 -> 0 <= mi < 100 ->
  0 <= s < 100 -> 0 <= ms < 1000 ->
  read_iso8601 (iso_string y mo d h mi s ms) =
  Some (mkDateTime y mo d h mi s ms).
Proof.
  intros Hy Hmo Hd Hh Hmi Hs Hms.
  unfold read_iso8601, iso_string.
  rewrite read_year_iso_year by assumption.
  change ("-" ++ pad 2 mo ++ ?r) with (String "-" (pad 2 mo ++ r)).
  rewrite read_field_pad by (simpl; lia).
  change ("-" ++ pad 2 d ++ ?r) with (String "-" (pad 2 d ++ r)).
  rewrite read_field_pad by (simpl; lia).
  change ("T" ++ pad 2 h ++ ?r) with (String "T" (pad 2 h ++ r)).
  rewrite read_field_pad by (simpl; lia).
  change (":" ++ pad 2 mi ++ ?r) with (String ":" (pad 2 mi ++ r)).
  rewrite read_field_pad by (simpl; lia).
  change (":" ++ pad 2 s ++ ?r) with (String ":" (pad 2 s ++ r)).
  rewrite read_field_pad by (simpl; lia).
  change ("." ++ pad 3 ms ++ "Z") with (String "." (pad 3 ms ++ "Z")).
  rewrite read_field_pad by (simpl; lia).
  reflexivity.
Qed.

End DecimalFields.

(* ================================================================== *)
(** * [toISOString] writes a valid ISO-8601 date-time of its instant *)
(* ================================================================== *)

Lemma YearFromDay_bound (day : Z) :
  - 100000000 <= day <= 100000000 -> - 10 ^ 6 < YearFromDay day < 10 ^ 6.
Proof.
  intros H. unfold YearFromDay. cbv zeta.
  change (10 ^ 6) with 1000000.
  destruct (day <? _)%Z; [| destruct (_ <=? day)%Z];
    Z.div_mod_to_equations; lia.
Qed.

Lemma MakeDay_of_day (day : Z) :
  let y := YearFromDay day in
  let dwy := day - DayFromYear y in
  MakeDay y (MonthFromDay (is_leap y) dwy + 1 - 1)
    (DateFromDay (is_leap y) dwy) = day.
Proof.
  cbv zeta. unfold MakeDay, DateFromDay.
  replace (MonthFromDay (is_leap (YearFromDay day))
             (day - DayFromYear (YearFromDay day)) + 1 - 1)
    with (MonthFromDay (is_leap (YearFromDay day))
            (day - DayFromYear (YearFromDay day))) by lia.
  lia.
Qed.

Lemma DaysInMonth_bound (y m : Z) : 28 <= DaysInMonth y m <= 31.
Proof.
  unfold DaysInMonth.
  destruct m as [| p | p]; try lia.
  destruct (is_leap y);
    repeat (destruct p as [p | p |]; try lia).
Qed.

Theorem toISOString_valid (t : Z) :
  Z.abs t <= maxTime ->
  exists s dt,
    toISOString (Num t) = Ok s /\
    read_iso8601 s = Some dt /\
    valid_DateTime dt = true /\
    instant dt = t.
Proof.
  intros Ht. unfold maxTime in Ht.
  unfold toISOString.
  set (day := t / msPerDay).
  set (tid := t mod msPerDay).
  set (y := YearFromDay day).
  set (dwy := day - DayFromYear y).
  assert (Hday : - 100000000 <= day <= 100000000).
  { unfold day, msPerDay. Z.div_mod_to_equations. lia. }
  assert (Htid : 0 <= tid < 86400000).
  { unfold tid, msPerDay. Z.div_mod_to_equations. lia. }
  assert (Hsplit : t = day * 86400000 + tid).
  { unfold day, tid, msPerDay. Z.div_mod_to_equations. lia. }
  clearbody day tid.
  pose proof (YearFromDay_bound day Hday) as Hy. fold y in Hy.
  pose proof (day_within_year day) as Hdwy. fold y in Hdwy. fold dwy in Hdwy.
  destruct (month_and_date y dwy Hdwy) as [Hmonth Hdate].
  pose proof (DaysInMonth_bound y (MonthFromDay (is_leap y) dwy + 1)) as Hdim.
  pose proof (MakeDay_of_day day) as Hmake. cbv zeta in Hmake.
  fold y in Hmake. fold dwy in Hmake.
  eexists. eexists. split; [reflexivity |].
  split; [| split].
  - apply read_iso_string; try lia; Z.div_mod_to_equations; lia.
  - unfold valid_DateTime.
    cbn [dt_year dt_month dt_day dt_hour dt_minute dt_second].
    repeat (apply andb_true_intro; split); apply Z.leb_le; try lia;
      Z.div_mod_to_equations; lia.
  - unfold instant.
    cbn [dt_year dt_month dt_day dt_hour dt_minute dt_second dt_millisecond].
    rewrite Hmake. unfold msPerDay.
    Z.div_mod_to_equations. lia.
Qed.

(** [new Date(secs * 1000).toISOString()] on a time a [Date] holds. *)
Lemma iso_of_seconds_valid (secs : option Z) :
  in_date_range secs = true ->
  exists s, iso_of_seconds (to_number secs) = Ok s /\
            is_iso8601 s = true /\ iso8601_of (to_number secs) s.
Proof.
  unfold in_date_range. intros H. apply Z.leb_le in H.
  destruct (toISOString_valid (to_number secs * 1000) H)
    as (s & dt & Hs & Hread & Hvalid & Hinstant).
  exists s. unfold iso_of_seconds, TimeClip.
  apply Z.leb_le in H. rewrite H.
  split; [exact Hs | split].
  - unfold is_iso8601. now rewrite Hread.
  - exists dt. auto.
Qed.

(* ================================================================== *)
(** * Derived date fields *)
(* ================================================================== *)

(** Against C3 as worded: a ban that ran out.  [ban_expire] is neither
    absent nor 0, and [banExpireDate] is [null] all the same. *)
Lemma expired_ban_shows_no_date :
  Accounts.ban_expire Sample.expired = Some 1000 /\
  ~ zero_or_absent (Accounts.ban_expire Sample.expired) /\
  exists listed,
    Accounts.enrich Sample.now Sample.expired = Ok listed /\
    Accounts.banExpireDate listed = None /\
    Accounts.lastactiveDate listed = Some "2023-04-09T00:00:00.000Z".
Proof.
  split; [reflexivity | split].
  - intros [H | H]; discriminate.
  - eexists. split; [reflexivity | split; reflexivity].
Qed.

Lemma zero_or_absent_number (v : option Z) :
  zero_or_absent v <-> to_number v = 0.
Proof.
  unfold zero_or_absent. destruct v as [z |]; simpl.
  - split; [intros [H | H]; congruence | intros ->; now right].
  - split; [reflexivity | now left].
Qed.

(** One field: the guard [shown] decides between the rendering and
    [null]. *)
Lemma guarded_date (source : option Z) (shown : bool) (hidden : Prop) :
  in_date_range source = true ->
  (shown = false <-> hidden) ->
  exists field,
    (if shown
     then s <- iso_of_seconds (to_number source) ;; Ok (Some s)
     else Ok None) = Ok field /\
    derived_date source hidden field.
Proof.
  intros Hrange Hshown.
  destruct (iso_of_seconds_valid source Hrange) as (s & Hs & Hvalid & Hof).
  destruct shown.
  - exists (Some s). rewrite Hs. split; [reflexivity | split].
    + split; [discriminate |]. intros H. apply Hshown in H. discriminate.
    + intros s' E. injection E as <-. auto.
  - exists None. split; [reflexivity | split].
    + split; [intros _; now apply Hshown | reflexivity].
    + discriminate.
Qed.

(** C3, as the code has it.  For rows whose stored times a [Date] can hold
    the enrichment returns, and of the derived date fields [createDate],
    [lastAccessDate] and [lastactiveDate] are [null] exactly when the source
    column is 0 or absent; [deleteDate] is [null] exactly when [deletetime]
    is absent or not positive; [banExpireDate] is [null] exactly when
    [ban_expire], absent counting as 0, is not later than the current time.
    A field that is not [null] is the valid ISO-8601 rendering of the stored
    time. *)
Theorem derived_date_fields (now : Z) (account : Accounts.Row)
    (character : Characters.Row)
    (Haccount : account_dates_in_range account = true)
    (Hcharacter : character_dates_in_range character = true) :
  (exists listed,
     Accounts.enrich now account = Ok listed /\
     derived_date (Accounts.lastactive account)
       (zero_or_absent (Accounts.lastactive account))
       (Accounts.lastactiveDate listed) /\
     derived_date (Accounts.ban_expire account)
       (to_number (Accounts.ban_expire account) <= now)
       (Accounts.banExpireDate listed)) /\
  (exists enriched,
     Characters.enrichCharacterData character = Ok enriched /\
     derived_date (Characters.createtime character)
       (zero_or_absent (Characters.createtime character))
       (Characters.createDate enriched) /\
     derived_date (Characters.deletetime character)
       (to_number (Characters.deletetime character) <= 0)
       (Characters.deleteDate enriched) /\
     derived_date (Characters.lastAccess character)
       (zero_or_absent (Characters.lastAccess character))
       (Characters.lastAccessDate enriched)).
Proof.
  split.
  - unfold account_dates_in_range in Haccount.
    apply andb_prop in Haccount. destruct Haccount as [Hactive Hban].
    destruct (guarded_date (Accounts.lastactive account)
                (truthy_col (Accounts.lastactive account))
                (zero_or_absent (Accounts.lastactive account)) Hactive)
      as (f1 & E1 & D1).
    { rewrite zero_or_absent_number. unfold truthy_col.
      rewrite negb_false_iff. apply Z.eqb_eq. }
    destruct (guarded_date (Accounts.ban_expire account)
                (to_number (Accounts.ban_expire account) >? now)%Z
                (to_number (Accounts.ban_expire account) <= now) Hban)
      as (f2 & E2 & D2).
    { rewrite Z.gtb_ltb, Z.ltb_ge. reflexivity. }
    unfold Accounts.enrich. rewrite E1. cbn [bind]. rewrite E2. cbn [bind].
    eexists. split; [reflexivity |]. split; [exact D1 | exact D2].
  - unfold character_dates_in_range in Hcharacter.
    apply andb_prop in Hcharacter. destruct Hcharacter as [H Haccess].
    apply andb_prop in H. destruct H as [Hcreate Hdelete].
    destruct (guarded_date (Characters.createtime character)
                (truthy_col (Characters.createtime character))
                (zero_or_absent (Characters.createtime character)) Hcreate)
      as (f1 & E1 & D1).
    { rewrite zero_or_absent_number. unfold truthy_col.
      rewrite negb_false_iff. apply Z.eqb_eq. }
    destruct (guarded_date (Characters.deletetime character)
                (truthy_col (Characters.deletetime character) &&
                 (to_number (Characters.deletetime character) >? 0)%Z)
                (to_number (Characters.deletetime character) <= 0) Hdelete)
      as (f2 & E2 & D2).
    { unfold truthy_col. rewrite andb_false_iff, negb_false_iff.
      rewrite Z.eqb_eq, Z.gtb_ltb, Z.ltb_ge. lia. }
    destruct (guarded_date (Characters.lastAccess character)
                (truthy_col (Characters.lastAccess character))
                (zero_or_absent (Characters.lastAccess character)) Haccess)
      as (f3 & E3 & D3).
    { rewrite zero_or_absent_number. unfold truthy_col.
      rewrite negb_false_iff. apply Z.eqb_eq. }
    unfold Characters.enrichCharacterData.
    rewrite E1. cbn [bind]. rewrite E2. cbn [bind]. rewrite E3. cbn [bind].
    eexists. split; [reflexivity |].
    split; [exact D1 | split; [exact D2 | exact D3]].
Qed.

Lemma derived_date_fields_witness :
  (exists listed,
     Accounts.enrich Sample.now Sample.expired = Ok listed /\
     derived_date (Accounts.lastactive Sample.expired)
       (zero_or_absent (Accounts.lastactive Sample.expired))
       (Accounts.lastactiveDate listed) /\
     derived_date (Accounts.ban_expire Sample.expired)
       (to_number (Accounts.ban_expire Sample.expired) <= Sample.now)
       (Accounts.banExpireDate listed)) /\
  (exists enriched,
     Characters.enrichCharacterData
       (Sample.character 268480002 "Bravo" "tester01"
          (Some 1680998401) (Some 1690000000)) = Ok enriched /\
     derived_date (Some 1680998401) (zero_or_absent (Some 1680998401))
       (Characters.createDate enriched) /\
     derived_date (Some 1690000000) (1690000000 <= 0)
       (Characters.deleteDate enriched) /\
     derived_date (Some 1699999999) (zero_or_absent (Some 1699999999))
       (Characters.lastAccessDate enriched)).
Proof.
  apply (derived_date_fields Sample.now Sample.expired
           (Sample.character 268480002 "Bravo" "tester01"
              (Some 1680998401) (Some 1690000000))); reflexivity.
Defined.

(** The enrichment of a live and of a deleted character of the sample. *)
Example enriched_dates :
  match Characters.enrichCharacterData
          (Sample.character 268480002 "Bravo" "tester01"
             (Some 1680998401) (Some 1690000000)),
        Characters.enrichCharacterData
          (Sample.character 268480001 "Alpha" "tester01" None (Some 0))
  with
  | Ok bravo, Ok alpha =>
      Characters.createDate bravo = Some "2023-04-09T00:00:01.000Z" /\
      Characters.deleteDate bravo = Some "2023-07-22T04:26:40.000Z" /\
      Characters.isDeleted bravo = true /\
      Characters.onlineTimeHours bravo = 2 /\
      Characters.createDate alpha = None /\
      Characters.deleteDate alpha = None /\
      Characters.gender alpha = "male"
  | _, _ => False
  end.
Proof. vm_compute. repeat split. Qed.

(* ================================================================== *)
(** * [parseTimestamp] *)
(* ================================================================== *)

Section DateOnly.

Lemma ymd_shape_inv (s : string) :
  is_ymd_shape s = true ->
  exists y1 y2 y3 y4 m1 m2 d1 d2,
    s = String y1 (String y2 (String y3 (String y4 (String "-"
          (String m1 (String m2 (String "-" (String d1 (String d2 ""))))))))) /\
    is_digit y1 = true /\ is_digit y2 = true /\ is_digit y3 = true /\
    is_digit y4 = true /\ is_digit m1 = true /\ is_digit m2 = true /\
    is_digit d1 = true /\ is_digit d2 = true.
Proof.
  intros H.
  do 10 (destruct s as [| ? s]; [discriminate |]).
  destruct s; [| discriminate].
  cbn [is_ymd_shape] in H.
  repeat (apply andb_prop in H; destruct H as [H ?]).
  repeat match goal with
         | E : Ascii.eqb _ _ = true |- _ => apply Ascii.eqb_eq in E; subst
         end.
  do 8 eexists. split; [reflexivity |].
  repeat split; try assumption.
  unfold is_digit. apply andb_true_intro. split; assumption.
Qed.

Lemma pad2_digits (a b : Z) :
  0 <= a <= 9 -> 0 <= b <= 9 ->
  pad 2 (digits_value [a; b]) = String (digit_char a) (String (digit_char b) "").
Proof.
  intros Ha Hb. unfold pad, digits_value. cbn [pad_digits fold_left].
  f_equal; [| f_equal]; f_equal; Z.div_mod_to_equations; lia.
Qed.

Lemma pad4_digits (a b c d : Z) :
  0 <= a <= 9 -> 0 <= b <= 9 -> 0 <= c <= 9 -> 0 <= d <= 9 ->
  pad 4 (digits_value [a; b; c; d]) =
  String (digit_char a) (String (digit_char b)
    (String (digit_char c) (String (digit_char d) ""))).
Proof.
  intros Ha Hb Hc Hd. unfold pad, digits_value. cbn [pad_digits fold_left].
  f_equal; [| f_equal; [| f_equal; [| f_equal]]]; f_equal;
    Z.div_mod_to_equations; lia.
Qed.

(** A date of the calendar is rendered as it was written. *)
Lemma toISOString_MakeDay (y m d : Z) :
  0 <= y <= 9999 -> 1 <= m <= 12 -> 1 <= d <= DaysInMonth y m ->
  iso_of_seconds (86400 * MakeDay y (m - 1) d) =
  Ok (iso_string y m d 0 0 0 0).
Proof.
  intros Hy Hm Hd.
  destruct (month_and_date_unique y m d Hm Hd) as (Hdwy & Hmonth & Hdate).
  set (dwy := month_start (is_leap y) (m - 1) + d - 1) in *.
  assert (Hday : MakeDay y (m - 1) d = DayFromYear y + dwy)
    by (unfold MakeDay, dwy; lia).
  assert (Hyear : YearFromDay (DayFromYear y + dwy) = y).
  { apply YearFromDay_unique. rewrite DayFromYear_step. lia. }
  assert (Hbound : - 719528 <= DayFromYear y <= 2932532).
  { unfold DayFromYear. Z.div_mod_to_equations. lia. }
  assert (Hdiy : DaysInYear y <= 366)
    by (unfold DaysInYear; destruct (is_leap y); lia).
  unfold iso_of_seconds, TimeClip, maxTime.
  rewrite Hday.
  destruct (Z.leb_spec (Z.abs (86400 * (DayFromYear y + dwy) * 1000))
              8640000000000000) as [_ | Hbig]; [| lia].
  unfold toISOString, msPerDay.
  replace (86400 * (DayFromYear y + dwy) * 1000)
    with ((DayFromYear y + dwy) * 86400000) by lia.
  rewrite Z.div_mul, Z.mod_mul by lia.
  rewrite Hyear.
  replace (DayFromYear y + dwy - DayFromYear y) with dwy by lia.
  rewrite Hmonth, Hdate.
  replace (m - 1 + 1) with m by lia.
  reflexivity.
Qed.

End DateOnly.

(** C6.  A string of the date shape that names no date is not mapped to
    [null]: the date branch returns [Math.floor(NaN / 1000)], which is
    [NaN], where the branch beside it turns the [NaN] of [parseInt] into
    [null].  The callers test [if (timestamp)] and so drop the filter. *)
Lemma parseTimestamp_month_13 :
  is_ymd_shape "2023-13-45" = true /\
  parseTimestamp (Some "2023-13-45") = Some NaN /\
  parseTimestamp (Some "2023-13-45") <> None /\
  parseTimestamp (Some "abc") = None /\
  truthy_ts (parseTimestamp (Some "2023-13-45")) = false.
Proof. repeat split. discriminate. Qed.

Lemma iso_string_of_ymd (y1 y2 y3 y4 m1 m2 d1 d2 : ascii) :
  is_digit y1 = true -> is_digit y2 = true -> is_digit y3 = true ->
  is_digit y4 = true -> is_digit m1 = true -> is_digit m2 = true ->
  is_digit d1 = true -> is_digit d2 = true ->
  let s := String y1 (String y2 (String y3 (String y4 (String "-"
             (String m1 (String m2 (String "-" (String d1 (String d2 "")))))))))
  in
  let '(y, m, d) := ymd_fields s in
  0 <= y <= 9999 /\
  iso_string y m d 0 0 0 0 = s ++ "T00:00:00.000Z".
Proof.
  intros Hy1 Hy2 Hy3 Hy4 Hm1 Hm2 Hd1 Hd2. cbv zeta. cbn [ymd_fields].
  destruct (digit_char_of_digit y1 Hy1) as [Cy1 By1].
  destruct (digit_char_of_digit y2 Hy2) as [Cy2 By2].
  destruct (digit_char_of_digit y3 Hy3) as [Cy3 By3].
  destruct (digit_char_of_digit y4 Hy4) as [Cy4 By4].
  destruct (digit_char_of_digit m1 Hm1) as [Cm1 Bm1].
  destruct (digit_char_of_digit m2 Hm2) as [Cm2 Bm2].
  destruct (digit_char_of_digit d1 Hd1) as [Cd1 Bd1].
  destruct (digit_char_of_digit d2 Hd2) as [Cd2 Bd2].
  assert (Hy : 0 <= digits_value
                      [digit_val y1; digit_val y2; digit_val y3; digit_val y4]
               <= 9999).
  { unfold digits_value. cbn [fold_left]. lia. }
  split; [exact Hy |].
  unfold iso_string, iso_year.
  destruct Hy as [Hlo Hhi]. apply Z.leb_le in Hlo, Hhi.
  rewrite Hlo, Hhi. cbn [andb].
  rewrite pad4_digits, !pad2_digits by assumption.
  rewrite Cy1, Cy2, Cy3, Cy4, Cm1, Cm2, Cd1, Cd2.
  reflexivity.
Qed.

(** Every string of the date shape whose month is not 1 to 12 or whose
    day is not 1 to 31 gives [NaN]. *)
Lemma parseTimestamp_not_a_date (s : string) (y m d : Z) :
  is_ymd_shape s = true -> ymd_fields s = (y, m, d) ->
  ~ (1 <= m <= 12 /\ 1 <= d <= 31) ->
  parseTimestamp (Some s) = Some NaN.
Proof.
  intros Hshape Hfields Hout.
  destruct (ymd_shape_inv s Hshape)
    as (y1 & y2 & y3 & y4 & m1 & m2 & d1 & d2 & Hs & _).
  unfold parseTimestamp. rewrite Hshape. rewrite Hs at 1.
  cbn [truthy_str negb]. unfold Date_parse_ymd. rewrite Hfields.
  replace ((1 <=? m) && (m <=? 12) && (1 <=? d) && (d <=? 31))%Z
    with false; [reflexivity |].
  symmetry. apply not_true_is_false. intros H. apply Hout.
  repeat (apply andb_prop in H; destruct H as [H ?]).
  rewrite !Z.leb_le in *. lia.
Qed.

(** X20.  [parseTimestamp] gives [null] for an absent or empty value.  A
    string of the shape YYYY-MM-DD that names a day of the calendar gives
    the Unix time, in seconds, of midnight UTC of that day: the time whose
    ISO-8601 rendering is the string followed by [T00:00:00.000Z].  A
    non-empty string of another shape gives its base-10 [parseInt], and
    [null] when it has none. *)
Theorem parseTimestamp_reads_dates (value : option string) :
  (truthy_str value = false -> parseTimestamp value = None) /\
  (forall s y m d,
     value = Some s -> is_ymd_shape s = true -> ymd_fields s = (y, m, d) ->
     1 <= m <= 12 -> 1 <= d <= DaysInMonth y m ->
     parseTimestamp value = Some (Num (86400 * MakeDay y (m - 1) d)) /\
     iso_of_seconds (86400 * MakeDay y (m - 1) d) =
       Ok (s ++ "T00:00:00.000Z")) /\
  (forall s,
     value = Some s -> s <> "" -> is_ymd_shape s = false ->
     parseTimestamp value =
       match parseInt s with
       | NaN => None
       | timestamp => Some timestamp
       end).
Proof.
  split; [| split].
  - intros H. unfold parseTimestamp. now rewrite H.
  - intros s y m d -> Hshape Hfields.
    destruct (ymd_shape_inv s Hshape)
      as (y1 & y2 & y3 & y4 & m1 & m2 & d1 & d2 & Hs & Hy1 & Hy2 & Hy3 & Hy4 &
          Hm1 & Hm2 & Hd1 & Hd2).
    pose proof (iso_string_of_ymd y1 y2 y3 y4 m1 m2 d1 d2
                  Hy1 Hy2 Hy3 Hy4 Hm1 Hm2 Hd1 Hd2) as Hiso.
    cbv zeta in Hiso. rewrite <- Hs in Hiso. rewrite Hfields in Hiso.
    destruct Hiso as [Hy Hiso].
    assert (Hparse : parseTimestamp (Some s) =
                     Some (floor_div_1000 (Date_parse_ymd s))).
    { unfold parseTimestamp. rewrite Hshape. now rewrite Hs. }
    intros Hm Hd.
    pose proof (DaysInMonth_bound y m) as Hdim.
    pose proof (toISOString_MakeDay y m d Hy Hm Hd) as Hrender.
    split; [| now rewrite Hrender, Hiso].
    rewrite Hparse. unfold Date_parse_ymd. rewrite Hfields.
    replace ((1 <=? m) && (m <=? 12) && (1 <=? d) && (d <=? 31))%Z
      with true
      by (symmetry; repeat (apply andb_true_intro; split);
          apply Z.leb_le; lia).
    unfold iso_of_seconds, TimeClip in Hrender.
    unfold TimeClip.
    replace (MakeDay y (m - 1) d * msPerDay)
      with (86400 * MakeDay y (m - 1) d * 1000) by (unfold msPerDay; lia).
    destruct (Z.abs (86400 * MakeDay y (m - 1) d * 1000) <=? maxTime)%Z;
      [| discriminate].
    cbn [floor_div_1000]. f_equal. f_equal.
    now rewrite Z.div_mul by lia.
  - intros s -> Hs Hshape. unfold parseTimestamp.
    destruct s as [| c r]; [congruence |].
    cbn [truthy_str negb]. rewrite Hshape.
    destruct (parseInt (String c r)); reflexivity.
Qed.

Lemma parseTimestamp_reads_dates_witness :
  parseTimestamp (Some "2023-04-09") =
    Some (Num (86400 * MakeDay 2023 (4 - 1) 9)) /\
  iso_of_seconds (86400 * MakeDay 2023 (4 - 1) 9) =
    Ok ("2023-04-09" ++ "T00:00:00.000Z").
Proof.
  apply (proj1 (proj2 (parseTimestamp_reads_dates (Some "2023-04-09")))
           "2023-04-09" 2023 4 9 eq_refl eq_refl eq_refl).
  - lia.
  - simpl. lia.
Defined.

(** [parseInt] reads as the engine does: white space of any kind is
    skipped, and digits beyond what a double holds are rounded. *)
Example parseTimestamp_large :
  parseTimestamp (Some "9007199254740993") = Some (Num 9007199254740992).
Proof. reflexivity. Qed.

(* ================================================================== *)
(** * Further properties of the layer *)
(* ================================================================== *)

(* ------------------------------------------------------------------ *)
(** ** What reaches the SQL text *)
(* ------------------------------------------------------------------ *)




(** A [sortBy] that carries a statement of its own leaves the text as it
    is for the default field. *)
Example order_by_injection :
  Accounts.dataQuery_of Sample.now
    (Accounts.sorted_by Sample.page_two_of_three
       "login; DROP TABLE accounts" "desc; --") =
  Accounts.dataQuery "" "login" "ASC".
Proof. reflexivity. Qed.

Section Marks.

Lemma count_char_app (c : ascii) (a b : string) :
  count_char c (a ++ b) = (count_char c a + count_char c b)%nat.
Proof.
  induction a as [| d a IH]; [reflexivity |].
  cbn [append count_char]. rewrite IH. lia.
Qed.

Lemma count_conj_text (cs : list cond) :
  Forall one_mark_per_param cs ->
  count_char "?" (conj_text cs) = List.length (where_params cs).
Proof.
  induction cs as [| c cs IH]; intros H; [reflexivity |].
  inversion H as [| ? ? Hc Hcs]; subst.
  destruct cs as [| d cs'].
  - cbn [conj_text]. unfold where_params. cbn [flat_map].
    rewrite app_nil_r. exact Hc.
  - rewrite conj_text_cons by discriminate.
    rewrite !count_char_app, (IH Hcs).
    unfold where_params. cbn [flat_map]. rewrite !length_app.
    rewrite Hc. reflexivity.
Qed.

Lemma count_where_text (cs : list cond) :
  Forall one_mark_per_param cs ->
  count_char "?" (where_text cs) = List.length (where_params cs).
Proof.
  intros H. destruct cs as [| c cs]; [reflexivity |].
  unfold where_text. rewrite count_char_app.
  now rewrite (count_conj_text (c :: cs) H).
Qed.

Lemma marks_guarded (test : bool) (c : cond) :
  one_mark_per_param c ->
  Forall one_mark_per_param (if test then [c] else []).
Proof. intros H. destruct test; auto. Qed.

End Marks.

(** X2.  In the clause either builder produces, the number of [?] placeholders
    is the number of replacements it returns: each placeholder has its
    value and no value is left over, whatever the filters hold. *)
Theorem placeholders_match_replacements
    (now : Z) (fa : Accounts.Filters) (fc : Characters.Filters) :
  count_char "?" (fst (Accounts.buildWhereClause now fa)) =
    List.length (snd (Accounts.buildWhereClause now fa)) /\
  count_char "?" (fst (Characters.buildWhereClause fc)) =
    List.length (snd (Characters.buildWhereClause fc)).
Proof.
  split.
  - rewrite accounts_buildWhereClause_conds. cbn [fst snd].
    apply count_where_text. unfold Accounts.where_conds.
    repeat (apply Forall_app; split);
      apply marks_guarded; reflexivity.
  - rewrite characters_buildWhereClause_conds. cbn [fst snd].
    apply count_where_text. unfold Characters.where_conds.
    repeat (apply Forall_app; split);
      try (apply marks_guarded; reflexivity).
    destruct (strict_eq_str (Characters.f_deletedOnly fc) "true");
      constructor; auto; reflexivity.
Qed.

Lemma accounts_conds_shape (now : Z) (filters : Accounts.Filters) :
  map shape (Accounts.where_conds now filters) =
  chosen (accounts_tests filters) accounts_columns [].
Proof.
  unfold Accounts.where_conds.
  rewrite !map_app, !map_shape_guarded.
  cbn [accounts_tests accounts_columns chosen map fst snd].
  rewrite app_nil_r. reflexivity.
Qed.

(** X3.  The text of a WHERE clause is fixed by which filters pass their tests:
    two filter sets that pass the same tests give the same text, whatever
    their values are (and whatever the clock shows).  Filter values travel
    only as replacements. *)
Theorem where_text_ignores_values
    (now now' : Z) (fa ga : Accounts.Filters) (fc gc : Characters.Filters)
    (Haccounts : accounts_tests fa = accounts_tests ga)
    (Hcharacters : characters_tests fc = characters_tests gc)
    (Hdeleted : strict_eq_str (Characters.f_deletedOnly fc) "true" =
                strict_eq_str (Characters.f_deletedOnly gc) "true") :
  fst (Accounts.buildWhereClause now fa) =
    fst (Accounts.buildWhereClause now' ga) /\
  fst (Characters.buildWhereClause fc) =
    fst (Characters.buildWhereClause gc).
Proof.
  split.
  - rewrite !accounts_buildWhereClause_conds. cbn [fst].
    rewrite <- (where_text_shape (Accounts.where_conds now fa)).
    rewrite <- (where_text_shape (Accounts.where_conds now' ga)).
    rewrite !accounts_conds_shape. now rewrite Haccounts.
  - rewrite !characters_buildWhereClause_conds. cbn [fst].
    rewrite <- (where_text_shape (Characters.where_conds fc)).
    rewrite <- (where_text_shape (Characters.where_conds gc)).
    rewrite !characters_conds_shape. now rewrite Hcharacters, Hdeleted.
Qed.

Lemma where_text_ignores_values_witness :
  fst (Accounts.buildWhereClause 1
         (Accounts.mkFilters (Some "adm") None None None (Some "2") None
            (Some "2023-04-09") None None)) =
    fst (Accounts.buildWhereClause 2
           (Accounts.mkFilters (Some "x' OR '1'='1") None None None
              (Some "abc") None (Some "77") None None)) /\
  fst (Characters.buildWhereClause
         (Characters.mkFilters (Some "Al") None None (Some "true") None None
            None None None None None None)) =
    fst (Characters.buildWhereClause
           (Characters.mkFilters (Some "`; DROP TABLE characters; --") None
              None (Some "false") None None None None None None None
              (Some "yes"))).
Proof.
  apply where_text_ignores_values; reflexivity.
Defined.

(* ------------------------------------------------------------------ *)
(** ** Facts about the engine model and about [mapM] *)
(* ------------------------------------------------------------------ *)

Section QueryFacts.

Context {Row : Type} (lookup : Row -> string -> value).

Lemma in_select_where (cs : list cond) (table : list Row) (r : Row) :
  In r (select_where lookup cs table) <->
  In r table /\ forall c, In c cs -> holds (lookup r) c = true.
Proof.
  unfold select_where. rewrite filter_In, forallb_forall. reflexivity.
Qed.

Lemma in_insert_sorted_iff field desc (r x : Row) (l : list Row) :
  In x (insert_sorted lookup field desc r l) <-> x = r \/ In x l.
Proof.
  split; [apply in_insert_sorted |].
  induction l as [| y l IH]; simpl.
  - intros [-> | []]. now left.
  - destruct (comes_before lookup field desc r y); simpl.
    + intros [-> | [-> | H]]; auto.
    + intros [-> | [-> | H]]; auto.
Qed.

Lemma in_order_by_iff field desc (x : Row) (l : list Row) :
  In x (order_by lookup field desc l) <-> In x l.
Proof.
  induction l as [| y l IH]; simpl; [reflexivity |].
  rewrite in_insert_sorted_iff, IH. intuition.
Qed.

Lemma length_insert_sorted field desc (r : Row) (l : list Row) :
  List.length (insert_sorted lookup field desc r l) = S (List.length l).
Proof.
  induction l as [| y l IH]; simpl; [reflexivity |].
  destruct (comes_before lookup field desc r y); simpl; [reflexivity |].
  now rewrite IH.
Qed.

Lemma length_order_by field desc (l : list Row) :
  List.length (order_by lookup field desc l) = List.length l.
Proof.
  induction l as [| y l IH]; simpl; [reflexivity |].
  now rewrite length_insert_sorted, IH.
Qed.

(** What a page query returns: the rows the clause keeps, in order, from
    [offset] on and [limit] of them at most. *)
Lemma page_query_exact sql params cs field desc limit offset table rows :
  page_query lookup sql (params ++ [PNum (Num limit); PNum (Num offset)])%list
    cs field desc table = Ok rows ->
  rows = firstn (Z.to_nat limit)
           (skipn (Z.to_nat offset)
              (order_by lookup field desc (select_where lookup cs table))).
Proof.
  unfold page_query.
  destruct (forallb param_ok _); [| discriminate].
  rewrite rev_app_distr. cbn [rev app].
  destruct ((0 <=? limit) && (limit <? two64) && (0 <=? offset) &&
            (offset <? two64))%Z; [| discriminate].
  intros H. now injection H as <-.
Qed.

Lemma page_query_ok sql params cs field desc limit offset table :
  replacements_ok params = true ->
  0 <= limit < two64 -> 0 <= offset < two64 ->
  page_query lookup sql (params ++ [PNum (Num limit); PNum (Num offset)])%list
    cs field desc table =
  Ok (firstn (Z.to_nat limit)
        (skipn (Z.to_nat offset)
           (order_by lookup field desc (select_where lookup cs table)))).
Proof.
  unfold page_query, replacements_ok. intros Hok [Hl Hl'] [Ho Ho'].
  rewrite forallb_app, Hok. cbn [forallb param_ok andb].
  rewrite rev_app_distr. cbn [rev app].
  apply Z.leb_le in Hl, Ho. apply Z.ltb_lt in Hl', Ho'.
  now rewrite Hl, Ho, Hl', Ho'.
Qed.

(** The rows of a page satisfy every predicate of the clause. *)
Lemma page_query_holds sql params cs field desc limit offset table rows :
  page_query lookup sql (params ++ [PNum (Num limit); PNum (Num offset)])%list
    cs field desc table = Ok rows ->
  forall r, In r rows ->
    In r table /\ forall c, In c cs -> holds (lookup r) c = true.
Proof.
  intros H r Hr. apply page_query_exact in H. subst rows.
  apply in_firstn, in_skipn in Hr.
  apply in_order_by_iff in Hr. now apply in_select_where in Hr.
Qed.

End QueryFacts.

Section MapFacts.

Context {A B : Type} (f : A -> result B).

Lemma mapM_in (l : list A) (l' : list B) :
  mapM f l = Ok l' ->
  forall b, In b l' -> exists a, In a l /\ f a = Ok b.
Proof.
  revert l'. induction l as [| a l IH]; intros l' H b Hb; simpl in H.
  - injection H as <-. destruct Hb.
  - destruct (f a) as [b0 | e] eqn:Ea; simpl in H; [| discriminate].
    destruct (mapM f l) as [bs | e]; simpl in H; [| discriminate].
    injection H as <-. destruct Hb as [<- | Hb].
    + exists a. split; [now left | assumption].
    + destruct (IH bs eq_refl b Hb) as (a' & Ha' & Hf).
      exists a'. split; [now right | assumption].
Qed.



End MapFacts.

Section IndexedMapFacts.

Context {A B : Type} (f : nat -> A -> result B).

Lemma mapM_from_in (l : list A) :
  forall i l', mapM_from f i l = Ok l' ->
  forall b, In b l' -> exists j a, In a l /\ f j a = Ok b.
Proof.
  induction l as [| a l IH]; intros i l' H b Hb; simpl in H.
  - injection H as <-. destruct Hb.
  - destruct (f i a) as [b0 | e] eqn:Ea; simpl in H; [| discriminate].
    destruct (mapM_from f (S i) l) as [bs | e] eqn:E; simpl in H;
      [| discriminate].
    injection H as <-. destruct Hb as [<- | Hb].
    + exists i, a. split; [now left | assumption].
    + destruct (IH _ _ E b Hb) as (j & a' & Ha' & Hf).
      exists j, a'. split; [now right | assumption].
Qed.

Lemma mapM_from_in_source (l : list A) :
  forall i l', mapM_from f i l = Ok l' ->
  forall a, In a l -> exists j b, In b l' /\ f j a = Ok b.
Proof.
  induction l as [| a0 l IH]; intros i l' H a Ha; simpl in H.
  - destruct Ha.
  - destruct (f i a0) as [b0 | e] eqn:Ea; simpl in H; [| discriminate].
    destruct (mapM_from f (S i) l) as [bs | e] eqn:E; simpl in H;
      [| discriminate].
    injection H as <-. destruct Ha as [<- | Ha].
    + exists i, b0. split; [now left | assumption].
    + destruct (IH _ _ E a Ha) as (j & b & Hb & Hf).
      exists j, b. split; [now right | assumption].
Qed.


End IndexedMapFacts.

Lemma page_query_numbers {Row : Type} (lookup : Row -> string -> value)
    sql params cs field desc (lim off : jsnum) table rows :
  page_query lookup sql (params ++ [PNum lim; PNum off])%list
    cs field desc table = Ok rows ->
  exists l o, lim = Num l /\ off = Num o.
Proof.
  unfold page_query.
  destruct (forallb param_ok _); [| discriminate].
  rewrite rev_app_distr. cbn [rev app].
  destruct off as [o | |]; try discriminate.
  destruct lim as [l | |]; try discriminate.
  eauto.
Qed.

(* ------------------------------------------------------------------ *)
(** ** Lists agree with their filters *)
(* ------------------------------------------------------------------ *)

Section ListedRows.

Lemma enrichCharacterData_fields (c : Characters.Row) (e : Characters.Enriched) :
  Characters.enrichCharacterData c = Ok e ->
  Characters.raw e = c /\
  Characters.isDeleted e = (to_number (Characters.deletetime c) >? 0)%Z /\
  (Characters.deleteDate e = None <->
   to_number (Characters.deletetime c) <= 0) /\
  Characters.isOnline e = Characters.is_one (Characters.online c).
Proof.
  unfold Characters.enrichCharacterData. intros H.
  destruct (if truthy_col (Characters.createtime c) then _ else _)
    as [f1 | ?]; [| discriminate].
  cbn [bind] in H.
  destruct (truthy_col (Characters.deletetime c) &&
            (to_number (Characters.deletetime c) >? 0)%Z) eqn:Ed.
  - destruct (iso_of_seconds (to_number (Characters.deletetime c)))
      as [s | ?]; [| discriminate].
    cbn [bind] in H.
    destruct (if truthy_col (Characters.lastAccess c) then _ else _)
      as [f3 | ?]; [| discriminate].
    cbn [bind] in H. injection H as <-. cbn.
    apply andb_prop in Ed. destruct Ed as [_ Ed].
    rewrite Z.gtb_ltb, Z.ltb_lt in Ed.
    repeat split; try discriminate; lia.
  - cbn [bind] in H.
    destruct (if truthy_col (Characters.lastAccess c) then _ else _)
      as [f3 | ?]; [| discriminate].
    cbn [bind] in H. injection H as <-. cbn.
    apply andb_false_iff in Ed. unfold truthy_col in Ed.
    rewrite negb_false_iff, Z.eqb_eq, Z.gtb_ltb, Z.ltb_ge in Ed.
    repeat split; auto; lia.
Qed.

Lemma accounts_enrich_fields (now : Z) (a : Accounts.Row) (l : Accounts.Listed) :
  Accounts.enrich now a = Ok l ->
  Accounts.l_login l = Accounts.login a /\
  Accounts.l_ban_expire l = Accounts.ban_expire a /\
  Accounts.isBanned l = (to_number (Accounts.ban_expire a) >? now)%Z /\
  (Accounts.banExpireDate l = None <->
   to_number (Accounts.ban_expire a) <= now).
Proof.
  unfold Accounts.enrich. intros H.
  destruct (if truthy_col (Accounts.lastactive a) then _ else _)
    as [f1 | ?]; [| discriminate].
  cbn [bind] in H.
  destruct (to_number (Accounts.ban_expire a) >? now)%Z eqn:Eb.
  - destruct (iso_of_seconds (to_number (Accounts.ban_expire a)))
      as [s | ?]; [| discriminate].
    cbn [bind] in H. injection H as <-. cbn.
    rewrite Z.gtb_ltb, Z.ltb_lt in Eb.
    repeat split; try discriminate; lia.
  - cbn [bind] in H. injection H as <-. cbn.
    rewrite Z.gtb_ltb, Z.ltb_ge in Eb.
    repeat split; auto.
Qed.

Lemma characters_deletetime_in_conds (filters : Characters.Filters) :
  In (if strict_eq_str (Characters.f_deletedOnly filters) "true"
      then mkCond "deletetime" Gt (Literal 0)
      else mkCond "deletetime" Eq (Literal 0))
     (Characters.where_conds filters).
Proof.
  unfold Characters.where_conds. rewrite !in_app_iff.
  do 11 right. now left.
Qed.

Lemma accounts_ban_in_conds (now : Z) (filters : Accounts.Filters) :
  Accounts.f_isBanned filters = Some true ->
  In (mkCond "ban_expire" Gt (Bound (PNum (Num now))))
     (Accounts.where_conds now filters).
Proof.
  intros H. unfold Accounts.where_conds. rewrite H. rewrite !in_app_iff.
  do 8 right. now left.
Qed.

End ListedRows.

(** X4.  The characters list agrees with its soft-delete filter.  Every
    character [getCharacters] returns is a stored row; without
    [deletedOnly: 'true'] none of them is deleted ([isDeleted] is false,
    [deleteDate] is [null]), and with it all of them are. *)
Theorem characters_list_honours_deletedOnly
    (table : list Characters.Row) (options : Characters.Options)
    (result : Characters.CharactersPage)
    (Hresult : Characters.getCharacters table options = Ok result) :
  let deletedOnly :=
    strict_eq_str
      (Characters.f_deletedOnly
         (default (Characters.o_filters options) Characters.no_filters))
      "true" in
  forall e, In e (Characters.characters result) ->
    (exists r, In r table /\ Characters.raw e = Characters.selected r) /\
    Characters.isDeleted e = deletedOnly /\
    (Characters.deleteDate e = None <-> deletedOnly = false).
Proof.
  cbv zeta. intros e He.
  unfold Characters.getCharacters in Hresult. cbv zeta in Hresult.
  set (filters := default (Characters.o_filters options) Characters.no_filters)
    in *.
  destruct (count_query _ _ _ _ _) as [total | ?]; [| discriminate].
  cbn [bind] in Hresult.
  match type of Hresult with
  | bind ?q _ = _ => destruct q as [rows | ?] eqn:Hq; [| discriminate]
  end.
  cbn [bind] in Hresult.
  destruct (mapM _ _) as [out | ?] eqn:Hm; [| discriminate].
  cbn [bind] in Hresult. injection Hresult as <-.
  cbn [Characters.characters] in He.
  destruct (mapM_in _ _ _ Hm e He) as (c & Hc & Hec).
  apply in_map_iff in Hc. destruct Hc as (r & <- & Hr).
  destruct (page_query_numbers _ _ _ _ _ _ _ _ _ _ Hq) as (l & o & El & Eo).
  rewrite Eo in Hq. rewrite El in Hq.
  destruct (page_query_holds _ _ _ _ _ _ _ _ _ _ Hq r Hr) as [Hin Hholds].
  specialize (Hholds _ (characters_deletetime_in_conds filters)).
  destruct (enrichCharacterData_fields _ _ Hec) as (Hraw & Hdel & Hdate & _).
  split; [exists r; auto |].
  rewrite Hdel, Hdate.
  change (Characters.deletetime (Characters.selected r))
    with (Characters.deletetime r).
  destruct (strict_eq_str (Characters.f_deletedOnly filters) "true");
    unfold holds in Hholds; cbn [c_col c_op c_rhs] in Hholds;
    rewrite lookup_deletetime in Hholds;
    destruct (Characters.deletetime r) as [d |]; cbn in Hholds;
    try discriminate.
  - cbn [to_number]. rewrite Hholds.
    rewrite Z.gtb_ltb, Z.ltb_lt in Hholds.
    split; [reflexivity |]. split; [lia | discriminate].
  - apply Z.eqb_eq in Hholds. subst d. cbn [to_number].
    split; [reflexivity |]. split; [reflexivity | lia].
Qed.

Lemma characters_list_honours_deletedOnly_witness :
  exists result,
    Characters.getCharacters Sample.characters
      (characters_filtered Characters.no_filters) = Ok result /\
    forall e, In e (Characters.characters result) ->
      (exists r, In r Sample.characters /\
                 Characters.raw e = Characters.selected r) /\
      Characters.isDeleted e = false /\
      (Characters.deleteDate e = None <-> false = false).
Proof.
  destruct (Characters.getCharacters Sample.characters
              (characters_filtered Characters.no_filters))
    as [result | e] eqn:E; [| vm_compute in E; discriminate].
  exists result. split; [reflexivity |].
  exact (characters_list_honours_deletedOnly Sample.characters
           (characters_filtered Characters.no_filters) result E).
Defined.

(** The rows behind a listing of banned accounts: each listed account is
    the reading, at the clock of its row, of a stored row whose ban runs
    past [now]. *)
Lemma banned_listing_rows
    (table : list Accounts.Row) (now : Z) (clock : nat -> Z)
    (options : Accounts.Options) (result : Accounts.AccountsPage)
    (Hflag : Accounts.f_isBanned
               (default (Accounts.o_filters options) Accounts.no_filters) =
             Some true)
    (Hresult : Accounts.getAccounts table now clock options = Ok result) :
  forall l, In l (Accounts.accounts result) ->
    exists r i, In r table /\ Accounts.enrich (clock i) r = Ok l /\
                now < to_number (Accounts.ban_expire r).
Proof.
  intros l Hl.
  unfold Accounts.getAccounts in Hresult. cbv zeta in Hresult.
  set (filters := default (Accounts.o_filters options) Accounts.no_filters)
    in *.
  destruct (count_query _ _ _ _ _) as [total | ?]; [| discriminate].
  cbn [bind] in Hresult.
  match type of Hresult with
  | bind ?q _ = _ => destruct q as [rows | ?] eqn:Hq; [| discriminate]
  end.
  cbn [bind] in Hresult.
  destruct (mapM_indexed _ _) as [out | ?] eqn:Hm; [| discriminate].
  cbn [bind] in Hresult. injection Hresult as <-.
  cbn [Accounts.accounts] in Hl.
  destruct (mapM_from_in _ _ _ _ Hm l Hl) as (i & r & Hr & Her).
  destruct (page_query_numbers _ _ _ _ _ _ _ _ _ _ Hq) as (lim & o & El & Eo).
  rewrite Eo in Hq. rewrite El in Hq.
  destruct (page_query_holds _ _ _ _ _ _ _ _ _ _ Hq r Hr) as [Hin Hholds].
  specialize (Hholds _ (accounts_ban_in_conds now filters Hflag)).
  unfold holds in Hholds. cbn [c_col c_op c_rhs] in Hholds.
  change (Accounts.lookup r "ban_expire")
    with (vint (Accounts.ban_expire r)) in Hholds.
  destruct (Accounts.ban_expire r) as [b |] eqn:Eb; cbn in Hholds;
    [| discriminate].
  rewrite Z.gtb_ltb, Z.ltb_lt in Hholds.
  exists r, i. rewrite Eb. cbn [to_number]. auto.
Qed.

(** X5.  The accounts list and its ban filter.  With [isBanned] set, every
    account [getAccounts] returns is a stored one whose ban was running at
    the time the clause was built.  Its [isBanned] and [banExpireDate] are
    worked out afterwards, at the clock of its row: they show the ban
    exactly when it still runs then.  So they show it for every row when
    that clock has not passed the time of the clause, and an account whose
    ban runs out in between is listed with [isBanned] false. *)
Theorem accounts_list_honours_isBanned
    (table : list Accounts.Row) (now : Z) (clock : nat -> Z)
    (options : Accounts.Options) (result : Accounts.AccountsPage)
    (Hflag : Accounts.f_isBanned
               (default (Accounts.o_filters options) Accounts.no_filters) =
             Some true)
    (Hresult : Accounts.getAccounts table now clock options = Ok result) :
  forall l, In l (Accounts.accounts result) ->
    exists r i,
      In r table /\ Accounts.login r = Accounts.l_login l /\
      now < to_number (Accounts.ban_expire r) /\
      (Accounts.isBanned l = true <->
       clock i < to_number (Accounts.ban_expire r)) /\
      (Accounts.banExpireDate l <> None <-> Accounts.isBanned l = true) /\
      (clock i <= now ->
       Accounts.isBanned l = true /\ Accounts.banExpireDate l <> None).
Proof.
  intros l Hl.
  destruct (banned_listing_rows table now clock options result Hflag Hresult
              l Hl) as (r & i & Hr & Her & Hlater).
  destruct (accounts_enrich_fields _ _ _ Her) as (Hlogin & _ & Hban & Hdate).
  assert (Hflagged : Accounts.isBanned l = true <->
                     clock i < to_number (Accounts.ban_expire r)).
  { rewrite Hban, Z.gtb_ltb. apply Z.ltb_lt. }
  assert (Hshown : Accounts.banExpireDate l <> None <->
                   Accounts.isBanned l = true).
  { rewrite Hflagged. split.
    - intros Hn. destruct (Z.lt_ge_cases (clock i)
                             (to_number (Accounts.ban_expire r)));
        [assumption |]. exfalso. apply Hn, Hdate. lia.
    - intros Hlt E. apply Hdate in E. lia. }
  exists r, i.
  split; [exact Hr |]. split; [now symmetry |]. split; [exact Hlater |].
  split; [exact Hflagged |]. split; [exact Hshown |].
  intros Hclock.
  assert (Hb : Accounts.isBanned l = true) by (apply Hflagged; lia).
  split; [exact Hb | now apply Hshown].
Qed.

Lemma accounts_list_honours_isBanned_witness :
  exists result,
    Accounts.getAccounts Sample.accounts Sample.now Sample.steady
      (accounts_filtered banned_only) = Ok result /\
    map Accounts.l_login (Accounts.accounts result) = ["banned02"] /\
    forall l, In l (Accounts.accounts result) ->
      Accounts.isBanned l = true /\ Accounts.banExpireDate l <> None.
Proof.
  destruct (Accounts.getAccounts Sample.accounts Sample.now Sample.steady
              (accounts_filtered banned_only))
    as [result | e] eqn:E; [| vm_compute in E; discriminate].
  exists result. split; [reflexivity | split].
  - vm_compute in E. injection E as <-. reflexivity.
  - intros l Hl.
    destruct (accounts_list_honours_isBanned Sample.accounts Sample.now
                Sample.steady (accounts_filtered banned_only) result
                eq_refl E l Hl) as (r & i & _ & _ & _ & _ & _ & Hsteady).
    apply Hsteady. unfold Sample.steady. lia.
Defined.

(** A ban that runs out between the query and the reading of the row:
    the account is on the list of banned accounts with [isBanned] false. *)
Example ban_runs_out_while_listed :
  match Accounts.getAccounts Sample.accounts Sample.now
          (fun _ => 1893456000) (accounts_filtered banned_only) with
  | Ok result =>
      map (fun l => (Accounts.l_login l, Accounts.isBanned l,
                     Accounts.banExpireDate l))
        (Accounts.accounts result) = [("banned02", false, None)]
  | Throw _ => False
  end.
Proof. vm_compute. reflexivity. Qed.

(* ------------------------------------------------------------------ *)
(** ** Looking a character up *)
(* ------------------------------------------------------------------ *)

Section Lookups.
Import Characters CharacterLists.

Lemma live_spec (r : Row) : live r = true <-> deletetime r = Some 0.
Proof.
  unfold live. destruct (deletetime r) as [[| p | p] |];
    split; congruence.
Qed.

Lemma select_live_name (table : list Row) (name : string) :
  select_where lookup
    [mkCond "char_name" Eq (Bound (PStr name));
     mkCond "deletetime" Eq (Literal 0)] table =
  filter (live_named name) table.
Proof.
  unfold select_where. apply filter_ext. intros r.
  unfold forallb, holds, live_named, live. cbn [c_col c_op c_rhs].
  rewrite lookup_deletetime, lookup_char_name.
  destruct (deletetime r) as [[| p | p] |]; cbn;
    rewrite ?andb_true_r, ?andb_false_r; reflexivity.
Qed.

Lemma select_live_id (table : list Row) (n : Z) :
  select_where lookup
    [mkCond "obj_Id" Eq (Bound (PNum (Num n)));
     mkCond "deletetime" Eq (Literal 0)] table =
  filter (live_with_id n) table.
Proof.
  unfold select_where. apply filter_ext. intros r.
  unfold forallb, holds, live_with_id, live. cbn [c_col c_op c_rhs].
  rewrite lookup_deletetime, lookup_obj_Id.
  destruct (deletetime r) as [[| p | p] |]; cbn;
    rewrite ?andb_true_r, ?andb_false_r; reflexivity.
Qed.

Lemma count_positive {A} (f : A -> bool) (l : list A) :
  (Z.of_nat (List.length (filter f l)) >? 0)%Z = existsb f l.
Proof.
  induction l as [| a l IH]; [reflexivity |].
  simpl. destruct (f a); simpl; [| exact IH].
  rewrite Z.gtb_ltb. apply Z.ltb_lt. lia.
Qed.

Lemma filter_head_none {A} (f : A -> bool) (l : list A) :
  filter f l = [] <-> existsb f l = false.
Proof.
  induction l as [| a l IH]; simpl; [tauto |].
  destruct (f a); simpl; [split; discriminate | exact IH].
Qed.

Lemma filter_head_in {A} (f : A -> bool) (l : list A) (a : A) (rest : list A) :
  filter f l = a :: rest -> In a l /\ f a = true.
Proof.
  intros H. apply filter_In. rewrite H. now left.
Qed.

Lemma exists_by_name (table : list Row) (name : string) :
  exists_ table name = Ok (existsb (live_named name) table).
Proof.
  unfold exists_, count_query. cbn [forallb param_ok andb bind].
  rewrite select_live_name. now rewrite count_positive.
Qed.

Lemma exists_by_id (table : list Row) (n : Z) :
  existsById table (Num n) = Ok (existsb (live_with_id n) table).
Proof.
  unfold existsById, count_query. cbn [forallb param_ok andb bind].
  rewrite select_live_id. now rewrite count_positive.
Qed.

Lemma loadByName_filter (table : list Row) (name : string) :
  loadByName table name =
  match filter (live_named name) table with
  | [] => Ok None
  | character :: _ => c <- enrichCharacterData character ;; Ok (Some c)
  end.
Proof.
  unfold loadByName, rows_query. cbn [forallb param_ok andb bind].
  now rewrite select_live_name.
Qed.

Lemma loadById_filter (table : list Row) (n : Z) :
  loadById table (Num n) =
  match filter (live_with_id n) table with
  | [] => Ok None
  | character :: _ => c <- enrichCharacterData character ;; Ok (Some c)
  end.
Proof.
  unfold loadById, rows_query. cbn [forallb param_ok andb bind].
  now rewrite select_live_id.
Qed.

End Lookups.

(** X7.  Looking a character up by name.  [exists(charName)] is true exactly
    when a stored row has that name and is not soft-deleted; [loadByName]
    returns [null] exactly when [exists] is false; and what it returns
    otherwise is the enrichment of such a row, so never a deleted
    character.  The exists route reports the same answer. *)
Theorem lookup_by_name (table : list Characters.Row) (name : string) :
  (Characters.exists_ table name = Ok true <->
   exists r, In r table /\ Characters.char_name r = name /\
             Characters.deletetime r = Some 0) /\
  (CharacterLists.loadByName table name = Ok None <->
   Characters.exists_ table name = Ok false) /\
  (forall e, CharacterLists.loadByName table name = Ok (Some e) ->
     In (Characters.raw e) table /\
     Characters.char_name (Characters.raw e) = name /\
     Characters.isDeleted e = false /\
     Characters.deleteDate e = None) /\
  (forall b, Characters.exists_ table name = Ok b ->
     Characters.exists_route table name = json (Characters.mkExists b)).
Proof.
  rewrite exists_by_name, loadByName_filter.
  split; [| split; [| split]].
  - split.
    + intros H. injection H as H. apply existsb_exists in H.
      destruct H as (r & Hr & Hl). exists r.
      unfold live_named in Hl. apply andb_prop in Hl. destruct Hl as [Hn Hd].
      apply String.eqb_eq in Hn. apply live_spec in Hd. auto.
    + intros (r & Hr & Hn & Hd). f_equal. apply existsb_exists.
      exists r. split; [assumption |]. unfold live_named.
      apply andb_true_intro. split; [now apply String.eqb_eq |].
      now apply live_spec.
  - destruct (filter (live_named name) table) as [| c rest] eqn:E.
    + apply filter_head_none in E. rewrite E. tauto.
    + destruct (filter_head_in _ _ _ _ E) as [Hin Hc].
      assert (Hex : existsb (live_named name) table = true).
      { apply existsb_exists. eauto. }
      rewrite Hex.
      destruct (Characters.enrichCharacterData c); cbn [bind];
        split; discriminate.
  - intros e H.
    destruct (filter (live_named name) table) as [| c rest] eqn:E;
      [discriminate |].
    destruct (filter_head_in _ _ _ _ E) as [Hin Hc].
    destruct (Characters.enrichCharacterData c) as [e' |] eqn:Ee;
      cbn [bind] in H; [| discriminate].
    injection H as <-.
    destruct (enrichCharacterData_fields _ _ Ee) as (Hraw & Hdel & Hdate & _).
    unfold live_named in Hc. apply andb_prop in Hc. destruct Hc as [Hn Hd].
    apply String.eqb_eq in Hn. apply live_spec in Hd.
    rewrite Hraw, Hdel, Hdate, Hd. cbn [to_number].
    repeat split; auto. lia.
  - intros b H. unfold Characters.exists_route.
    rewrite exists_by_name. now injection H as <-.
Qed.

Lemma lookup_by_name_witness :
  Characters.exists_ Sample.characters "Alpha" = Ok true /\
  (exists e, CharacterLists.loadByName Sample.characters "Alpha" =
               Ok (Some e) /\
             Characters.isDeleted e = false /\
             Characters.deleteDate e = None) /\
  CharacterLists.loadByName Sample.characters "Bravo" = Ok None.
Proof.
  destruct (lookup_by_name Sample.characters "Alpha")
    as (Hexists & _ & Hload & _).
  destruct (lookup_by_name Sample.characters "Bravo") as (_ & Hnone & _).
  split; [| split].
  - apply Hexists. eexists. split; [left; reflexivity |]. split; reflexivity.
  - destruct (CharacterLists.loadByName Sample.characters "Alpha")
      as [[e |] | x] eqn:E; try (vm_compute in E; discriminate).
    exists e. split; [reflexivity |]. now apply Hload.
  - apply Hnone. reflexivity.
Defined.

(** X8.  Looking a character up by id, for a table whose stored times a [Date]
    can hold and a path id that [parseInt] reads as the number [n]: the
    route answers 200 exactly when a stored row has that [obj_Id] and is not
    soft-deleted, which is exactly when [existsById] is true; and the body
    it sends then is the enrichment of such a row. *)
Theorem lookup_by_id (table : list Characters.Row) (charId : string) (n : Z)
    (Hid : parseInt charId = Num n)
    (Hdates : forallb character_dates_in_range table = true) :
  (status (Characters.by_id_route table charId) = 200 <->
   exists r, In r table /\ Characters.obj_Id r = n /\
             Characters.deletetime r = Some 0) /\
  (Characters.existsById table (Num n) = Ok true <->
   status (Characters.by_id_route table charId) = 200) /\
  (forall e, content (Characters.by_id_route table charId) = Json e ->
     In (Characters.raw e) table /\
     Characters.obj_Id (Characters.raw e) = n /\
     Characters.isDeleted e = false).
Proof.
  unfold Characters.by_id_route. rewrite Hid. cbn [isNaN].
  rewrite exists_by_id, loadById_filter.
  assert (Hlive : existsb (live_with_id n) table = true <->
                  exists r, In r table /\ Characters.obj_Id r = n /\
                            Characters.deletetime r = Some 0).
  { rewrite existsb_exists. split.
    - intros (r & Hr & Hl). exists r. unfold live_with_id in Hl.
      apply andb_prop in Hl. destruct Hl as [Hn Hd].
      apply Z.eqb_eq in Hn. apply live_spec in Hd. auto.
    - intros (r & Hr & Hn & Hd). exists r. split; [assumption |].
      unfold live_with_id. apply andb_true_intro.
      split; [now apply Z.eqb_eq | now apply live_spec]. }
  destruct (filter (live_with_id n) table) as [| c rest] eqn:E.
  - pose proof (proj1 (filter_head_none _ _) E) as Hnone.
    cbn [status content fail].
    split; [| split].
    + rewrite <- Hlive, Hnone. split; discriminate.
    + rewrite Hnone. split; discriminate.
    + discriminate.
  - destruct (filter_head_in _ _ _ _ E) as [Hin Hc].
    assert (Hex : existsb (live_with_id n) table = true).
    { apply existsb_exists. eauto. }
    destruct (characters_enrich_total c) as (e & Ee).
    { rewrite forallb_forall in Hdates. now apply Hdates. }
    rewrite Ee. cbn [bind status content json].
    split; [| split].
    + rewrite <- Hlive, Hex. tauto.
    + rewrite Hex. tauto.
    + intros e' H. injection H as <-.
      destruct (enrichCharacterData_fields _ _ Ee) as (Hraw & Hdel & _).
      unfold live_with_id in Hc. apply andb_prop in Hc.
      destruct Hc as [Hn Hd]. apply Z.eqb_eq in Hn. apply live_spec in Hd.
      rewrite Hraw, Hdel, Hd. auto.
Qed.

Lemma lookup_by_id_witness :
  status (Characters.by_id_route Sample.characters "268480003") = 200 /\
  Characters.existsById Sample.characters (Num 268480003) = Ok true.
Proof.
  destruct (lookup_by_id Sample.characters "268480003" 268480003
              eq_refl eq_refl) as (Hstatus & Hexists & _).
  assert (H : status (Characters.by_id_route Sample.characters "268480003")
              = 200).
  { apply Hstatus. eexists.
    split; [right; right; left; reflexivity |]. split; reflexivity. }
  split; [exact H | now apply Hexists].
Defined.

(* ------------------------------------------------------------------ *)
(** ** The characters of an account *)
(* ------------------------------------------------------------------ *)

Section AccountCharacters.
Import Characters CharacterLists.

Lemma lookup_account_name (r : Row) :
  lookup r "account_name" = VStr (account_name r).
Proof. reflexivity. Qed.

Lemma enrich_listed_fields (r : Row) (c : Listed) :
  enrich_listed r = Ok c ->
  l_obj_Id c = obj_Id r /\ l_char_name c = char_name r /\
  l_isDeleted c = (to_number (deletetime r) >? 0)%Z /\
  (l_deleteDate c = None <-> to_number (deletetime r) <= 0).
Proof.
  unfold enrich_listed. intros H.
  destruct (enrichCharacterData r) as [e |] eqn:E; [| discriminate].
  cbn [bind] in H. injection H as <-. cbn.
  destruct (enrichCharacterData_fields _ _ E) as (_ & Hdel & Hdate & _).
  auto.
Qed.

End AccountCharacters.

(** X9.  The characters of an account.  Every character
    [getAccountCharacters] returns is a stored row of that account; unless
    [includDeleted] is set none of them is deleted; and for [page >= 1],
    [limit >= 1] the pagination block agrees with itself.  The route
    switches deleted characters on for the raw value ["true"] only, and
    answers 404 for a login that has no account, whatever characters carry
    that account name. *)
Theorem account_characters (table : list Characters.Row)
    (accountName : string) :
  (forall options result,
     CharacterLists.getAccountCharacters table accountName options =
       Ok result ->
     CharacterLists.accountName_ result = accountName /\
     (forall c, In c (CharacterLists.characters_ result) ->
        (exists r, In r table /\
                   Characters.obj_Id r = CharacterLists.l_obj_Id c /\
                   Characters.char_name r = CharacterLists.l_char_name c /\
                   Characters.account_name r = accountName) /\
        (default (CharacterLists.o_includDeleted options) false = false ->
         CharacterLists.l_isDeleted c = false /\
         CharacterLists.l_deleteDate c = None)) /\
     (forall p l, 1 <= p -> 1 <= l ->
        CharacterLists.o_page options = Some (Num p) ->
        CharacterLists.o_limit options = Some (Num l) ->
        consistent l (CharacterLists.pagination_ result)
          (List.length (CharacterLists.characters_ result)))) /\
  (forall accounts page limit includDeleted,
     Accounts.exists_ accounts accountName = Ok false ->
     CharacterLists.account_route accounts table accountName page limit
       includDeleted = fail 404 "Аккаунт не найден" None) /\
  (forall accounts page limit includDeleted,
     Accounts.exists_ accounts accountName = Ok true ->
     includDeleted <> Some "true" ->
     CharacterLists.account_route accounts table accountName page limit
       includDeleted =
     CharacterLists.account_route accounts table accountName page limit
       None).
Proof.
  split; [| split].
  - intros options result H.
    unfold CharacterLists.getAccountCharacters in H. cbv zeta in H.
    set (incl := default (CharacterLists.o_includDeleted options) false) in *.
    unfold count_query in H. cbn [forallb param_ok andb bind] in H.
    match type of H with
    | bind ?q _ = _ => destruct q as [rows | ?] eqn:Hq; [| discriminate]
    end.
    cbn [bind] in H.
    destruct (mapM _ _) as [out | ?] eqn:Hm; [| discriminate].
    cbn [bind] in H. injection H as <-.
    cbn [CharacterLists.accountName_ CharacterLists.characters_
         CharacterLists.pagination_].
    destruct (page_query_numbers _ _ _ _ _ _ _ _ _ _ Hq)
      as (lim & o & El & Eo).
    rewrite Eo in Hq. rewrite El in Hq.
    split; [reflexivity | split].
    + intros c Hc.
      destruct (mapM_in _ _ _ Hm c Hc) as (r & Hr & Hrc).
      destruct (page_query_holds _ _ _ _ _ _ _ _ _ _ Hq r Hr)
        as [Hin Hholds].
      destruct (enrich_listed_fields _ _ Hrc) as (Hid & Hname & Hdel & Hdate).
      split.
      * exists r. repeat split; auto.
        specialize (Hholds _ (or_introl eq_refl)).
        unfold holds in Hholds. cbn [c_col c_op c_rhs] in Hholds.
        rewrite lookup_account_name in Hholds.
        now apply String.eqb_eq in Hholds.
      * intros Hincl.
        assert (Hd : holds (Characters.lookup r)
                       (mkCond "deletetime" Eq (Literal 0)) = true).
        { apply Hholds. unfold CharacterLists.account_conds.
          rewrite Hincl. cbn. auto. }
        unfold holds in Hd. cbn [c_col c_op c_rhs] in Hd.
        rewrite lookup_deletetime in Hd.
        destruct (Characters.deletetime r) as [d |]; cbn in Hd;
          [| discriminate].
        apply Z.eqb_eq in Hd. subst d.
        rewrite Hdel, Hdate. cbn [to_number]. split; [reflexivity | lia].
    + intros p l Hp Hl Epage Elimit.
      rewrite Elimit in El. injection El as <-.
      rewrite Epage, Elimit. cbn [default parseInt_num].
      apply ceil_quot_consistent; [assumption |].
      rewrite (mapM_length _ _ _ Hm).
      now apply page_query_rows in Hq.
  - intros accounts page limit includDeleted H.
    unfold CharacterLists.account_route. now rewrite H.
  - intros accounts page limit includDeleted H Hn.
    unfold CharacterLists.account_route. rewrite H. cbn [negb].
    replace (strict_eq_str includDeleted "true") with false; [reflexivity |].
    symmetry. apply not_true_is_false. intros E.
    now apply strict_eq_str_true in E.
Qed.

Lemma account_characters_witness :
  exists result,
    CharacterLists.getAccountCharacters Sample.characters "tester01"
      (CharacterLists.mkOptions (Some (Num 1)) (Some (Num 10)) None) =
      Ok result /\
    map CharacterLists.l_char_name (CharacterLists.characters_ result) =
      ["Alpha"] /\
    consistent 10 (CharacterLists.pagination_ result)
      (List.length (CharacterLists.characters_ result)).
Proof.
  destruct (CharacterLists.getAccountCharacters Sample.characters "tester01"
              (CharacterLists.mkOptions (Some (Num 1)) (Some (Num 10)) None))
    as [result | e] eqn:E; [| vm_compute in E; discriminate].
  exists result. split; [reflexivity | split].
  - vm_compute in E. injection E as <-. reflexivity.
  - destruct (proj1 (account_characters Sample.characters "tester01")
                _ _ E) as (_ & _ & Hpages).
    apply (Hpages 1 10); try lia; reflexivity.
Defined.

(** With [includDeleted=true] the deleted character is listed too, the
    most recently used first; a login without account gets 404. *)
Example account_characters_with_deleted :
  match content (CharacterLists.account_route Sample.accounts
                   Sample.characters "tester01" None None (Some "true")) with
  | Json result =>
      map CharacterLists.l_char_name (CharacterLists.characters_ result) =
        ["Alpha"; "Bravo"] /\
      map CharacterLists.l_isDeleted (CharacterLists.characters_ result) =
        [false; true]
  | Failure _ _ => False
  end /\
  status (CharacterLists.account_route Sample.accounts Sample.characters
            "nobody" None None None) = 404.
Proof. vm_compute. repeat split. Qed.

(* ------------------------------------------------------------------ *)
(** ** The login history of an account *)
(* ------------------------------------------------------------------ *)

Lemma iso_of_seconds_inv (t : Z) (s : string) :
  iso_of_seconds t = Ok s ->
  is_iso8601 s = true /\ iso8601_of t s.
Proof.
  unfold iso_of_seconds, TimeClip.
  destruct (Z.leb_spec (Z.abs (t * 1000)) maxTime) as [H | H];
    [| discriminate].
  destruct (toISOString_valid (t * 1000) H)
    as (s' & dt & Hs & Hread & Hvalid & Hinstant).
  rewrite Hs. intros E. injection E as <-.
  split.
  - unfold is_iso8601. now rewrite Hread.
  - exists dt. auto.
Qed.

Section History.
Import AccountHistory.

Lemma lookup_log_login (r : LogRow) : lookup r "login" = VStr (g_login r).
Proof. reflexivity. Qed.

Lemma dated_fields (r : LogRow) (e : Entry) :
  dated r = Ok e ->
  time e = g_time r /\ lastServerId e = g_lastServerId r /\
  ip e = g_ip r /\ hwid e = g_hwid r /\
  derived_date (g_time r) (zero_or_absent (g_time r)) (date e).
Proof.
  unfold dated. intros H.
  destruct (truthy_col (g_time r)) eqn:Et.
  - destruct (iso_of_seconds (to_number (g_time r))) as [s |] eqn:Es;
      [| discriminate].
    cbn [bind] in H. injection H as <-. cbn.
    repeat split; try discriminate.
    + intros Hz. apply zero_or_absent_number in Hz.
      unfold truthy_col in Et. rewrite Hz in Et. discriminate.
    + injection H as <-. now apply iso_of_seconds_inv in Es.
    + injection H as <-. now apply iso_of_seconds_inv in Es.
  - cbn [bind] in H. injection H as <-. cbn.
    repeat split; try discriminate.
    intros _. apply zero_or_absent_number.
    unfold truthy_col in Et. rewrite negb_false_iff in Et.
    now apply Z.eqb_eq.
Qed.

End History.

(** X10.  The login history of an account.  Every entry
    [getAccountLoginHistory] returns is a stored log row of that login; its
    [date] is [null] exactly when [time] is 0 or absent and is otherwise the
    valid ISO-8601 rendering of [time]; and for [page >= 1], [limit >= 1]
    the pagination block agrees with itself.  The route answers 404 for a
    login that has no account, whatever the log holds. *)
Theorem login_history (log : list AccountHistory.LogRow) (name : string) :
  (forall options result,
     AccountHistory.getAccountLoginHistory log name options = Ok result ->
     AccountHistory.login result = name /\
     (forall e, In e (AccountHistory.loginHistory result) ->
        (exists r, In r log /\ AccountHistory.g_login r = name /\
                   AccountHistory.g_time r = AccountHistory.time e /\
                   AccountHistory.g_lastServerId r =
                     AccountHistory.lastServerId e /\
                   AccountHistory.g_ip r = AccountHistory.ip e /\
                   AccountHistory.g_hwid r = AccountHistory.hwid e) /\
        derived_date (AccountHistory.time e)
          (zero_or_absent (AccountHistory.time e))
          (AccountHistory.date e)) /\
     (forall p l, 1 <= p -> 1 <= l ->
        AccountHistory.o_page options = Some (Num p) ->
        AccountHistory.o_limit options = Some (Num l) ->
        consistent l (AccountHistory.pagination result)
          (List.length (AccountHistory.loginHistory result)))) /\
  (forall accounts page limit,
     Accounts.exists_ accounts name = Ok false ->
     AccountHistory.history_route accounts log name page limit =
     fail 404 "Аккаунт не найден" None).
Proof.
  split.
  - intros options result H.
    unfold AccountHistory.getAccountLoginHistory in H. cbv zeta in H.
    unfold count_query in H. cbn [forallb param_ok andb bind] in H.
    match type of H with
    | bind ?q _ = _ => destruct q as [rows | ?] eqn:Hq; [| discriminate]
    end.
    cbn [bind] in H.
    destruct (mapM _ _) as [out | ?] eqn:Hm; [| discriminate].
    cbn [bind] in H. injection H as <-.
    cbn [AccountHistory.login AccountHistory.loginHistory
         AccountHistory.pagination].
    match type of Hq with
    | page_query ?lk ?sql [?a; PNum ?lim; PNum ?off] ?cs ?f ?d ?t = _ =>
        change (page_query lk sql ([a] ++ [PNum lim; PNum off])%list
                  cs f d t = Ok rows) in Hq
    end.
    destruct (page_query_numbers _ _ _ _ _ _ _ _ _ _ Hq)
      as (lim & o & El & Eo).
    rewrite Eo in Hq. rewrite El in Hq.
    split; [reflexivity | split].
    + intros e He.
      destruct (mapM_in _ _ _ Hm e He) as (r & Hr & Hre).
      destruct (page_query_holds _ _ _ _ _ _ _ _ _ _ Hq r Hr)
        as [Hin Hholds].
      destruct (dated_fields _ _ Hre) as (Ht & Hs & Hi & Hh & Hd).
      split.
      * exists r. repeat split; auto.
        specialize (Hholds _ (or_introl eq_refl)).
        unfold holds in Hholds. cbn [c_col c_op c_rhs] in Hholds.
        rewrite lookup_log_login in Hholds.
        now apply String.eqb_eq in Hholds.
      * now rewrite Ht.
    + intros p l Hp Hl Epage Elimit.
      rewrite Elimit in El. injection El as <-.
      rewrite Epage, Elimit. cbn [default parseInt_num].
      apply ceil_quot_consistent; [assumption |].
      rewrite (mapM_length _ _ _ Hm).
      now apply page_query_rows in Hq.
  - intros accounts page limit H.
    unfold AccountHistory.history_route. now rewrite H.
Qed.

Lemma login_history_witness :
  exists result,
    AccountHistory.getAccountLoginHistory sample_log "tester01"
      (AccountHistory.mkOptions (Some (Num 1)) (Some (Num 2))) = Ok result /\
    map AccountHistory.date (AccountHistory.loginHistory result) =
      [Some "2023-11-14T22:13:19.000Z"; Some "2023-04-09T00:00:00.000Z"] /\
    consistent 2 (AccountHistory.pagination result)
      (List.length (AccountHistory.loginHistory result)).
Proof.
  destruct (AccountHistory.getAccountLoginHistory sample_log "tester01"
              (AccountHistory.mkOptions (Some (Num 1)) (Some (Num 2))))
    as [result | e] eqn:E; [| vm_compute in E; discriminate].
  exists result. split; [reflexivity | split].
  - vm_compute in E. injection E as <-. reflexivity.
  - destruct (proj1 (login_history sample_log "tester01") _ _ E)
      as (_ & _ & Hpages).
    apply (Hpages 1 2); try lia; reflexivity.
Defined.

Section Ordering.

Lemma value_leb_total (a b : value) :
  value_leb a b = false -> value_leb b a = true.
Proof.
  destruct a as [x | s |], b as [y | t |]; simpl; try congruence.
  - intros H. apply Z.leb_gt in H. apply Z.leb_le. lia.
  - intros H. destruct (String.leb_total s t) as [E | E]; congruence.
Qed.

Context {Row : Type} (lookup : Row -> string -> value).

Lemma comes_before_total field desc (a b : Row) :
  comes_before lookup field desc a b = false ->
  comes_before lookup field desc b a = true.
Proof. unfold comes_before. destruct desc; apply value_leb_total. Qed.

Lemma in_order_cons {A} (R : A -> A -> bool) (a b : A) (l : list A) :
  in_order R (a :: b :: l) = R a b && in_order R (b :: l).
Proof. reflexivity. Qed.

Lemma insert_sorted_in_order field desc (r : Row) (l : list Row) :
  in_order (comes_before lookup field desc) l = true ->
  in_order (comes_before lookup field desc)
    (insert_sorted lookup field desc r l) = true.
Proof.
  induction l as [| x l IH]; intros H; [reflexivity |].
  cbn [insert_sorted].
  destruct (comes_before lookup field desc r x) eqn:E.
  - rewrite in_order_cons, E. exact H.
  - pose proof (comes_before_total _ _ _ _ E) as Hxr.
    destruct l as [| y l'].
    + cbn [insert_sorted]. rewrite in_order_cons, Hxr. reflexivity.
    + rewrite in_order_cons in H. apply andb_prop in H.
      destruct H as [Hxy Hrest]. specialize (IH Hrest).
      cbn [insert_sorted] in *.
      destruct (comes_before lookup field desc r y).
      * rewrite in_order_cons, Hxr. exact IH.
      * rewrite in_order_cons, Hxy. exact IH.
Qed.

Lemma order_by_in_order field desc (l : list Row) :
  in_order (comes_before lookup field desc) (order_by lookup field desc l)
  = true.
Proof.
  induction l as [| x l IH]; [reflexivity |].
  cbn [order_by fold_right]. now apply insert_sorted_in_order.
Qed.

Lemma in_order_tail {A} (R : A -> A -> bool) (a : A) (l : list A) :
  in_order R (a :: l) = true -> in_order R l = true.
Proof.
  destruct l as [| b l]; [reflexivity |].
  rewrite in_order_cons. intros H. now apply andb_prop in H.
Qed.

Lemma in_order_skipn {A} (R : A -> A -> bool) (n : nat) :
  forall l : list A, in_order R l = true -> in_order R (skipn n l) = true.
Proof.
  induction n as [| n IH]; intros l H; [exact H |].
  destruct l as [| a l]; [reflexivity |].
  cbn [skipn]. apply IH. now apply in_order_tail in H.
Qed.

Lemma in_order_firstn {A} (R : A -> A -> bool) (n : nat) :
  forall l : list A, in_order R l = true -> in_order R (firstn n l) = true.
Proof.
  induction n as [| n IH]; intros l H; [reflexivity |].
  destruct l as [| a l]; [reflexivity |].
  cbn [firstn].
  pose proof (IH l (in_order_tail _ _ _ H)) as Hl.
  destruct l as [| b l']; [destruct n; reflexivity |].
  rewrite in_order_cons in H. apply andb_prop in H. destruct H as [Hab _].
  destruct n as [| n']; [reflexivity |].
  cbn [firstn] in *. rewrite in_order_cons, Hab. exact Hl.
Qed.

End Ordering.

Lemma in_order_mapM {A B} (f : A -> result B) (R : A -> A -> bool)
    (R' : B -> B -> bool) :
  (forall a a' b b', f a = Ok b -> f a' = Ok b' -> R a a' = R' b b') ->
  forall l l', mapM f l = Ok l' -> in_order R l = true ->
               in_order R' l' = true.
Proof.
  intros Hf. induction l as [| a l IH]; intros l' H Hord; simpl in H.
  - injection H as <-. reflexivity.
  - destruct (f a) as [b |] eqn:Ea; simpl in H; [| discriminate].
    destruct (mapM f l) as [bs |] eqn:El; simpl in H; [| discriminate].
    injection H as <-.
    pose proof (IH bs eq_refl (in_order_tail _ _ _ Hord)) as Hbs.
    destruct l as [| a' l2].
    + simpl in El. injection El as <-. reflexivity.
    + simpl in El.
      destruct (f a') as [b' |] eqn:Ea'; simpl in El; [| discriminate].
      destruct (mapM f l2) as [bs2 |]; simpl in El; [| discriminate].
      injection El as <-.
      rewrite in_order_cons in Hord. apply andb_prop in Hord.
      destruct Hord as [Hr _].
      rewrite in_order_cons, <- (Hf a a' b b' Ea Ea'), Hr. exact Hbs.
Qed.

(** X11.  The login history comes newest first: on every page
    [getAccountLoginHistory] returns, no entry is older than the one after
    it, entries without a time coming last. *)
Theorem login_history_newest_first
    (log : list AccountHistory.LogRow) (name : string)
    (options : AccountHistory.Options) (result : AccountHistory.LoginHistory)
    (Hresult : AccountHistory.getAccountLoginHistory log name options =
               Ok result) :
  in_order (fun a b => not_older (AccountHistory.time a) (AccountHistory.time b))
    (AccountHistory.loginHistory result) = true.
Proof.
  unfold AccountHistory.getAccountLoginHistory in Hresult.
  cbv zeta in Hresult.
  unfold count_query in Hresult.
  cbn [forallb param_ok andb bind] in Hresult.
  match type of Hresult with
  | bind ?q _ = _ => destruct q as [rows | ?] eqn:Hq; [| discriminate]
  end.
  cbn [bind] in Hresult.
  destruct (mapM _ _) as [out | ?] eqn:Hm; [| discriminate].
  cbn [bind] in Hresult. injection Hresult as <-.
  cbn [AccountHistory.loginHistory].
  match type of Hq with
  | page_query ?lk ?sql [?a; PNum ?lim; PNum ?off] ?cs ?f ?d ?t = _ =>
      change (page_query lk sql ([a] ++ [PNum lim; PNum off])%list
                cs f d t = Ok rows) in Hq
  end.
  destruct (page_query_numbers _ _ _ _ _ _ _ _ _ _ Hq) as (lim & o & El & Eo).
  rewrite Eo in Hq. rewrite El in Hq.
  apply page_query_exact in Hq.
  apply (in_order_mapM AccountHistory.dated
           (comes_before AccountHistory.lookup "time" true)
           _ ) with (l := rows); [| exact Hm |].
  - intros a a' b b' Ha Ha'.
    destruct (dated_fields _ _ Ha) as (-> & _).
    destruct (dated_fields _ _ Ha') as (-> & _).
    reflexivity.
  - subst rows. apply in_order_firstn, in_order_skipn, order_by_in_order.
Qed.

Lemma login_history_newest_first_witness :
  exists result,
    AccountHistory.getAccountLoginHistory sample_log "tester01"
      (AccountHistory.mkOptions None None) = Ok result /\
    map AccountHistory.time (AccountHistory.loginHistory result) =
      [Some 1699999999; Some 1680998400; None] /\
    in_order
      (fun a b => not_older (AccountHistory.time a) (AccountHistory.time b))
      (AccountHistory.loginHistory result) = true.
Proof.
  destruct (AccountHistory.getAccountLoginHistory sample_log "tester01"
              (AccountHistory.mkOptions None None))
    as [result | e] eqn:E; [| vm_compute in E; discriminate].
  exists result. split; [reflexivity | split].
  - vm_compute in E. injection E as <-. reflexivity.
  - exact (login_history_newest_first sample_log "tester01" _ _ E).
Defined.

(* ------------------------------------------------------------------ *)
(** ** Deleting an account *)
(* ------------------------------------------------------------------ *)

Section Deleting.
Import AccountRoutes.

Lemma existsb_filter_other (name other : string)
    (table : list Accounts.Row) :
  existsb (fun r => String.eqb (Accounts.login r) other)
    (filter (fun r => negb (String.eqb (Accounts.login r) name)) table) =
  if String.eqb other name then false
  else existsb (fun r => String.eqb (Accounts.login r) other) table.
Proof.
  induction table as [| r table IH]; simpl.
  - now destruct (String.eqb other name).
  - destruct (String.eqb (Accounts.login r) name) eqn:E; simpl.
    + rewrite IH. apply String.eqb_eq in E.
      destruct (String.eqb other name) eqn:E2; [reflexivity |].
      replace (String.eqb (Accounts.login r) other) with false;
        [reflexivity |].
      symmetry. apply String.eqb_neq. apply String.eqb_neq in E2. congruence.
    + rewrite IH.
      destruct (String.eqb other name) eqn:E2; [| reflexivity].
      apply String.eqb_eq in E2. subst other. now rewrite E.
Qed.

Lemma delete_route_unknown (db : Db) (name : string) :
  Accounts.exists_ (accounts db) name = Ok false ->
  delete_route name db = (db, fail 404 "Аккаунт не найден" None).
Proof.
  intros H. unfold delete_route, catching, seq, reading.
  rewrite H. reflexivity.
Qed.

Lemma delete_route_known (db : Db) (name : string) :
  Accounts.exists_ (accounts db) name = Ok true ->
  delete_route name db =
  (mkDb (filter (fun r => negb (String.eqb (Accounts.login r) name))
           (accounts db))
        (filter (fun r => negb (String.eqb (AccountHistory.g_login r) name))
           (account_log db)),
   json (Accounts.mkSuccess true "Аккаунт успешно удален")).
Proof.
  intros H. unfold delete_route, catching, seq, reading.
  rewrite H. reflexivity.
Qed.

End Deleting.

(** X12.  Deleting an account.  For a login without account the route answers
    404 and changes nothing.  Otherwise it answers 200, and afterwards
    neither table has a row of that login while every row of another login
    is still there, in its place; so the account no longer exists, other
    accounts exist as before, and deleting it again answers 404. *)
Theorem delete_account_and_history (db : AccountRoutes.Db) (name : string) :
  let after := fst (AccountRoutes.delete_route name db) in
  let answer := snd (AccountRoutes.delete_route name db) in
  (Accounts.exists_ (AccountRoutes.accounts db) name = Ok false ->
   after = db /\ answer = fail 404 "Аккаунт не найден" None) /\
  (Accounts.exists_ (AccountRoutes.accounts db) name = Ok true ->
   answer = json (Accounts.mkSuccess true "Аккаунт успешно удален") /\
   (forall r, In r (AccountRoutes.accounts after) <->
              In r (AccountRoutes.accounts db) /\ Accounts.login r <> name) /\
   (forall g, In g (AccountRoutes.account_log after) <->
              In g (AccountRoutes.account_log db) /\
              AccountHistory.g_login g <> name) /\
   Accounts.exists_ (AccountRoutes.accounts after) name = Ok false /\
   (forall other, other <> name ->
      Accounts.exists_ (AccountRoutes.accounts after) other =
      Accounts.exists_ (AccountRoutes.accounts db) other) /\
   AccountRoutes.delete_route name after =
     (after, fail 404 "Аккаунт не найден" None)).
Proof.
  cbv zeta.
  split.
  - intros H. rewrite (delete_route_unknown db name H). auto.
  - intros H. rewrite (delete_route_known db name H).
    cbn [fst snd AccountRoutes.accounts AccountRoutes.account_log].
    assert (Hgone :
              Accounts.exists_
                (filter (fun r => negb (String.eqb (Accounts.login r) name))
                   (AccountRoutes.accounts db)) name = Ok false).
    { rewrite exists_spec, existsb_filter_other.
      now rewrite String.eqb_refl. }
    split; [reflexivity |].
    split; [| split; [| split; [| split]]].
    + intros r. rewrite filter_In, negb_true_iff, String.eqb_neq. tauto.
    + intros g. rewrite filter_In, negb_true_iff, String.eqb_neq. tauto.
    + exact Hgone.
    + intros other Hother. rewrite !exists_spec, existsb_filter_other.
      apply String.eqb_neq in Hother. now rewrite Hother.
    + apply (delete_route_unknown
               (AccountRoutes.mkDb _ _) name Hgone).
Qed.

Lemma delete_account_and_history_witness :
  let after := fst (AccountRoutes.delete_route "tester01" sample_db) in
  map Accounts.login (AccountRoutes.accounts after) =
    ["banned02"; "expired3"; "admin004"] /\
  map AccountHistory.g_login (AccountRoutes.account_log after) =
    ["banned02"] /\
  Accounts.exists_ (AccountRoutes.accounts after) "tester01" = Ok false /\
  AccountRoutes.delete_route "tester01" after =
    (after, fail 404 "Аккаунт не найден" None).
Proof.
  cbv zeta.
  destruct (proj2 (delete_account_and_history sample_db "tester01")
              eq_refl) as (_ & _ & _ & Hgone & _ & Hagain).
  split; [reflexivity | split; [reflexivity | split]].
  - exact Hgone.
  - exact Hagain.
Defined.

(* ------------------------------------------------------------------ *)
(** ** Banning an account *)
(* ------------------------------------------------------------------ *)

Section Banning.
Import AccountRoutes.

Variable parse : string -> jsnum.

Lemma ban_route_known (now : Z) (name s : string) (db : Db) :
  s <> "" ->
  Accounts.exists_ (accounts db) name = Ok true ->
  ban_route parse now name (Some s) db =
  catching
    (let banExpireTimestamp := floor_div_1000 (parse s) in
     if le_num banExpireTimestamp now
     then ret (fail 400 "Неверный формат данных"
                 (Some "Дата окончания бана должна быть в будущем"))
     else
       seq (set_ban banExpireTimestamp name) (fun _ =>
       seq (fun db => (db, iso_of_num banExpireTimestamp)) (fun logged =>
       seq (fun db => (db, iso_of_num banExpireTimestamp))
         (fun banExpireDate =>
       ret (json (mkBanned true "Аккаунт успешно забанен" banExpireDate))))))
    "Ошибка при бане аккаунта" db.
Proof.
  intros Hs H. unfold ban_route, catching.
  destruct s as [| c s]; [congruence |].
  cbn [truthy_str negb]. unfold seq at 1, reading. rewrite H.
  cbn [negb]. reflexivity.
Qed.

Lemma set_ban_rows (t : Z) (name : string) (db : Db) :
  let after := fst (set_ban (Num t) name db) in
  account_log after = account_log db /\
  map Accounts.login (accounts after) = map Accounts.login (accounts db) /\
  (forall r, In r (accounts after) -> Accounts.login r = name ->
             Accounts.ban_expire r = Some t) /\
  (forall r, Accounts.login r <> name ->
             (In r (accounts after) <-> In r (accounts db))).
Proof.
  cbn [set_ban fst accounts account_log].
  split; [reflexivity | split; [| split]].
  - rewrite map_map. apply map_ext. intros r.
    destruct (String.eqb (Accounts.login r) name); reflexivity.
  - intros r Hr Hn. apply in_map_iff in Hr. destruct Hr as (r0 & E & _).
    destruct (String.eqb (Accounts.login r0) name) eqn:E0.
    + now subst r.
    + subst r. apply String.eqb_neq in E0. contradiction.
  - intros r Hn. rewrite in_map_iff. split.
    + intros (r0 & E & Hr0).
      destruct (String.eqb (Accounts.login r0) name) eqn:E0.
      * subst r. cbn in Hn. apply String.eqb_eq in E0. contradiction.
      * now subst r.
    + intros Hr. exists r. split; [| assumption].
      apply String.eqb_neq in Hn. now rewrite Hn.
Qed.

End Banning.

(** X13.  Banning an account, whatever way the engine reads dates.  A missing
    or empty [banExpire] is answered 400 before the account is looked at; a
    login without account 404; a date that is not later than now 400.  A
    text the engine cannot read as a date is not answered 400: its time is
    [NaN], which passes the comparison with now and is refused by the
    database, so the answer is 500.  None of these changes anything.  A
    later date is answered 200 with its ISO-8601 rendering, and then the
    rows of that login carry the new [ban_expire], in whole seconds, while
    the log and the rows of other logins are as before. *)
Theorem ban_outcomes (parse : string -> jsnum) (now : Z) (name : string)
    (db : AccountRoutes.Db) :
  (forall banExpire, truthy_str banExpire = false ->
     AccountRoutes.ban_route parse now name banExpire db =
     (db, fail 400 "Неверный формат данных"
            (Some "Дата окончания бана обязательна для заполнения"))) /\
  (forall s, s <> "" ->
     Accounts.exists_ (AccountRoutes.accounts db) name = Ok false ->
     AccountRoutes.ban_route parse now name (Some s) db =
     (db, fail 404 "Аккаунт не найден" None)) /\
  (forall s, s <> "" ->
     Accounts.exists_ (AccountRoutes.accounts db) name = Ok true ->
     (parse s = NaN ->
      AccountRoutes.ban_route parse now name (Some s) db =
      (db, fail 500 "Ошибка при бане аккаунта" (Some (message DbError)))) /\
     (forall ms, parse s = Num ms -> ms / 1000 <= now ->
        AccountRoutes.ban_route parse now name (Some s) db =
        (db, fail 400 "Неверный формат данных"
               (Some "Дата окончания бана должна быть в будущем"))) /\
     (forall ms, parse s = Num ms -> now < ms / 1000 ->
        Z.abs ms <= maxTime ->
        exists banExpireDate after,
          AccountRoutes.ban_route parse now name (Some s) db =
          (after,
           json (AccountRoutes.mkBanned true "Аккаунт успешно забанен"
                   banExpireDate)) /\
          is_iso8601 banExpireDate = true /\
          iso8601_of (ms / 1000) banExpireDate /\
          AccountRoutes.account_log after = AccountRoutes.account_log db /\
          map Accounts.login (AccountRoutes.accounts after) =
            map Accounts.login (AccountRoutes.accounts db) /\
          (forall r, In r (AccountRoutes.accounts after) ->
             Accounts.login r = name ->
             Accounts.ban_expire r = Some (ms / 1000)) /\
          (forall r, Accounts.login r <> name ->
             (In r (AccountRoutes.accounts after) <->
              In r (AccountRoutes.accounts db))))).
Proof.
  split; [| split].
  - intros banExpire H. unfold AccountRoutes.ban_route, AccountRoutes.catching.
    rewrite H. reflexivity.
  - intros s Hs H. unfold AccountRoutes.ban_route, AccountRoutes.catching.
    destruct s as [| c s]; [congruence |].
    cbn [truthy_str negb]. unfold AccountRoutes.seq at 1,
      AccountRoutes.reading. rewrite H. reflexivity.
  - intros s Hs H. rewrite (ban_route_known parse now name s db Hs H).
    split; [| split].
    + intros ->. reflexivity.
    + intros ms -> Hpast. cbv zeta. cbn [floor_div_1000 AccountRoutes.le_num].
      apply Z.leb_le in Hpast. rewrite Hpast. reflexivity.
    + intros ms -> Hfuture Hclip. cbv zeta.
      cbn [floor_div_1000 AccountRoutes.le_num].
      apply Z.leb_gt in Hfuture. rewrite Hfuture.
      assert (Hrange : in_date_range (Some (ms / 1000)) = true).
      { unfold in_date_range. cbn [to_number]. apply Z.leb_le.
        unfold maxTime in *. Z.div_mod_to_equations. lia. }
      destruct (iso_of_seconds_valid _ Hrange) as (date & Hdate & Hv & Hof).
      cbn [to_number] in *.
      exists date, (fst (AccountRoutes.set_ban (Num (ms / 1000)) name db)).
      split; [| split; [exact Hv | split; [exact Hof |]]].
      * unfold AccountRoutes.catching, AccountRoutes.seq.
        cbn [AccountRoutes.set_ban AccountRoutes.iso_of_num].
        rewrite Hdate. reflexivity.
      * apply set_ban_rows.
Qed.

Lemma ban_outcomes_witness :
  (exists banExpireDate after,
     AccountRoutes.ban_route date_only_parser Sample.now "tester01"
       (Some "2030-01-01") sample_db =
     (after,
      json (AccountRoutes.mkBanned true "Аккаунт успешно забанен"
              banExpireDate)) /\
     is_iso8601 banExpireDate = true /\
     iso8601_of (1893456000000 / 1000) banExpireDate /\
     AccountRoutes.account_log after = AccountRoutes.account_log sample_db /\
     map Accounts.login (AccountRoutes.accounts after) =
       map Accounts.login (AccountRoutes.accounts sample_db) /\
     (forall r, In r (AccountRoutes.accounts after) ->
        Accounts.login r = "tester01" ->
        Accounts.ban_expire r = Some (1893456000000 / 1000)) /\
     (forall r, Accounts.login r <> "tester01" ->
        (In r (AccountRoutes.accounts after) <->
         In r (AccountRoutes.accounts sample_db)))) /\
  AccountRoutes.ban_route date_only_parser Sample.now "tester01"
    (Some "next tuesday") sample_db =
  (sample_db, fail 500 "Ошибка при бане аккаунта" (Some (message DbError))).
Proof.
  destruct (ban_outcomes date_only_parser Sample.now "tester01" sample_db)
    as (_ & _ & Hknown).
  split.
  - destruct (Hknown "2030-01-01") as (_ & _ & Hfuture);
      [discriminate | reflexivity |].
    apply (Hfuture 1893456000000).
    + reflexivity.
    + unfold Sample.now. vm_compute. reflexivity.
    + vm_compute. discriminate.
  - destruct (Hknown "next tuesday") as (Hnan & _);
      [discriminate | reflexivity |].
    apply Hnan. reflexivity.
Defined.

(** The answer to a ban until 2030. *)
Example ban_until_2030 :
  snd (AccountRoutes.ban_route date_only_parser Sample.now "tester01"
         (Some "2030-01-01") sample_db) =
  json (AccountRoutes.mkBanned true "Аккаунт успешно забанен"
          "2030-01-01T00:00:00.000Z").
Proof. vm_compute. reflexivity. Qed.

Section BanAndList.
Import AccountRoutes.

Lemma banned_only_conds (now : Z) :
  Accounts.where_conds now banned_only =
  [mkCond "ban_expire" Gt (Bound (PNum (Num now)))].
Proof. reflexivity. Qed.

Lemma banned_only_built (now : Z) :
  Accounts.buildWhereClause now banned_only =
  ("WHERE `ban_expire` > ?", [PNum (Num now)]).
Proof. reflexivity. Qed.

Lemma set_ban_dates (t : Z) (name : string) (db : Db) :
  in_date_range (Some t) = true ->
  forallb account_dates_in_range (accounts db) = true ->
  forallb account_dates_in_range
    (accounts (fst (set_ban (Num t) name db))) = true.
Proof.
  intros Ht H. cbn [set_ban fst accounts].
  rewrite forallb_forall in *. intros r Hr.
  apply in_map_iff in Hr. destruct Hr as (r0 & E & Hr0).
  specialize (H r0 Hr0).
  destruct (String.eqb (Accounts.login r0) name); subst r; [| exact H].
  unfold account_dates_in_range in *. cbn.
  apply andb_prop in H. destruct H as [H _].
  now rewrite H, Ht.
Qed.

Lemma set_ban_has_row (t : Z) (name : string) (db : Db) :
  Accounts.exists_ (accounts db) name = Ok true ->
  exists r, In r (accounts (fst (set_ban (Num t) name db))) /\
            Accounts.login r = name /\ Accounts.ban_expire r = Some t.
Proof.
  rewrite exists_spec. intros H. injection H as H.
  apply existsb_exists in H. destruct H as (r0 & Hr0 & E).
  cbn [set_ban fst accounts].
  eexists. split.
  - apply in_map_iff. exists r0. split; [reflexivity | exact Hr0].
  - rewrite E. cbn. apply String.eqb_eq in E. auto.
Qed.

End BanAndList.

(** X14.  Ban, list, unban, list.  After an account is banned until a later
    date, the list of banned accounts asked for at that time, in one page
    that holds every account, contains its login; and after it is unbanned
    no list of banned accounts contains it. *)
Theorem ban_then_listed_until_unbanned
    (parse : string -> jsnum) (now : Z) (name s : string) (ms : Z)
    (db : AccountRoutes.Db)
    (Hs : s <> "")
    (Hnow : 0 <= now)
    (Hexists : Accounts.exists_ (AccountRoutes.accounts db) name = Ok true)
    (Hparse : parse s = Num ms)
    (Hfuture : now < ms / 1000)
    (Hclip : Z.abs ms <= maxTime)
    (Hdates : forallb account_dates_in_range (AccountRoutes.accounts db)
              = true)
    (Hsmall : Z.of_nat (List.length (AccountRoutes.accounts db)) < two53) :
  let banned :=
    AccountRoutes.accounts
      (fst (AccountRoutes.ban_route parse now name (Some s) db)) in
  let everyone := Z.of_nat (List.length (AccountRoutes.accounts db)) in
  (forall clock,
     exists result,
       Accounts.getAccounts banned now clock
         (accounts_paged (accounts_filtered banned_only) 1 everyone) =
         Ok result /\
       In name (map Accounts.l_login (Accounts.accounts result))) /\
  (forall clock options result,
     Accounts.f_isBanned
       (default (Accounts.o_filters options) Accounts.no_filters) =
       Some true ->
     Accounts.getAccounts (fst (Accounts.unban_route banned name)) now clock
       options = Ok result ->
     ~ In name (map Accounts.l_login (Accounts.accounts result))).
Proof.
  cbv zeta.
  assert (Hbound : two53 < two64) by reflexivity.
  assert (Hrange : in_date_range (Some (ms / 1000)) = true).
  { unfold in_date_range. cbn [to_number]. apply Z.leb_le.
    unfold maxTime in *. Z.div_mod_to_equations. lia. }
  assert (Hroute :
            fst (AccountRoutes.ban_route parse now name (Some s) db) =
            fst (AccountRoutes.set_ban (Num (ms / 1000)) name db)).
  { rewrite (ban_route_known parse now name s db Hs Hexists).
    rewrite Hparse. cbv zeta.
    cbn [floor_div_1000 AccountRoutes.le_num].
    pose proof Hfuture as Hf. apply Z.leb_gt in Hf. rewrite Hf.
    destruct (iso_of_seconds_valid _ Hrange) as (date & Hdate & _).
    cbn [to_number] in Hdate.
    unfold AccountRoutes.catching, AccountRoutes.seq.
    cbn [AccountRoutes.set_ban AccountRoutes.iso_of_num].
    rewrite Hdate. reflexivity. }
  rewrite Hroute.
  set (after := fst (AccountRoutes.set_ban (Num (ms / 1000)) name db)).
  destruct (set_ban_rows (ms / 1000) name db) as (_ & Hlogins & Hset & _).
  fold after in Hlogins, Hset.
  split.
  - intros clock.
    destruct (set_ban_has_row (ms / 1000) name db Hexists)
      as (r & Hr & Hrn & Hrb).
    fold after in Hr.
    pose proof (set_ban_dates (ms / 1000) name db Hrange Hdates) as Hd.
    fold after in Hd.
    assert (Hsize : List.length (AccountRoutes.accounts after) =
                    List.length (AccountRoutes.accounts db)).
    { rewrite <- (length_map Accounts.login (AccountRoutes.accounts after)),
        Hlogins. apply length_map. }
    unfold Accounts.getAccounts, accounts_paged, accounts_filtered.
    cbn [Accounts.o_page Accounts.o_limit Accounts.o_filters
         Accounts.o_sortBy Accounts.o_sortOrder].
    cbn [default].
    rewrite offset_of_exact by (unfold two53 in *; lia).
    rewrite banned_only_built, banned_only_conds. cbv zeta. cbn [fst snd].
    unfold count_query. cbn [forallb param_ok andb bind].
    rewrite (page_query_ok Accounts.lookup) by (reflexivity || lia).
    cbn [bind].
    set (sorted := order_by Accounts.lookup _ _ _).
    assert (Hin : In r sorted).
    { apply in_order_by_iff, in_select_where. split; [exact Hr |].
      intros c [<- | []]. unfold holds. cbn [c_col c_op c_rhs].
      change (Accounts.lookup r "ban_expire")
        with (vint (Accounts.ban_expire r)).
      rewrite Hrb. cbn. rewrite Z.gtb_ltb. now apply Z.ltb_lt. }
    assert (Hall : firstn (Z.to_nat
                             (Z.of_nat
                                (List.length (AccountRoutes.accounts db))))
                     (skipn (Z.to_nat ((1 - 1) *
                                       Z.of_nat
                                         (List.length
                                            (AccountRoutes.accounts db))))
                        sorted) = sorted).
    { cbn [Z.sub Z.mul Z.to_nat skipn Z.add Z.opp Z.pos_sub].
      rewrite Nat2Z.id. apply firstn_all2.
      unfold sorted. rewrite length_order_by. unfold select_where.
      rewrite <- Hsize. apply filter_length_le. }
    rewrite Hall.
    destruct (mapM_from_total (fun i => Accounts.enrich (clock i)) sorted)
      with (i := 0%nat) as (out & Hout).
    { intros i a Ha. apply accounts_enrich_total.
      apply in_order_by_iff, in_select_where in Ha. destruct Ha as [Ha _].
      rewrite forallb_forall in Hd. now apply Hd. }
    unfold mapM_indexed. rewrite Hout. cbn [bind].
    eexists. split; [reflexivity |].
    cbn [Accounts.accounts].
    destruct (mapM_from_in_source _ _ _ _ Hout r Hin) as (j & l & Hl & Hrl).
    apply in_map_iff. exists l. split; [| exact Hl].
    destruct (accounts_enrich_fields _ _ _ Hrl) as (-> & _). exact Hrn.
  - intros clock options result Hflag Hresult Hlisted.
    apply in_map_iff in Hlisted. destruct Hlisted as (l & Hname & Hl).
    destruct (banned_listing_rows _ _ _ _ _ Hflag Hresult l Hl)
      as (r & i & Hr & Her & Hlater').
    destruct (accounts_enrich_fields _ _ _ Her) as (Hrl & _).
    assert (Hfound :
              existsb (fun r => String.eqb (Accounts.login r) name)
                (AccountRoutes.accounts after) = true).
    { destruct (set_ban_has_row (ms / 1000) name db Hexists)
        as (r' & Hr' & Hrn' & _).
      apply existsb_exists. exists r'. split; [exact Hr' |].
      now apply String.eqb_eq. }
    unfold Accounts.unban_route in Hr. rewrite exists_spec, Hfound in Hr.
    cbn [negb fst] in Hr.
    rewrite (clear_ban_lifts name _ r Hr) in Hlater' by congruence.
    cbn [to_number] in Hlater'. lia.
Qed.

Lemma ban_then_listed_until_unbanned_witness :
  let banned :=
    AccountRoutes.accounts
      (fst (AccountRoutes.ban_route date_only_parser Sample.now "tester01"
              (Some "2030-01-01") sample_db)) in
  (forall clock,
     exists result,
       Accounts.getAccounts banned Sample.now clock
         (accounts_paged (accounts_filtered banned_only) 1 4) = Ok result /\
       In "tester01" (map Accounts.l_login (Accounts.accounts result))) /\
  (forall clock options result,
     Accounts.f_isBanned
       (default (Accounts.o_filters options) Accounts.no_filters) =
       Some true ->
     Accounts.getAccounts (fst (Accounts.unban_route banned "tester01"))
       Sample.now clock options = Ok result ->
     ~ In "tester01" (map Accounts.l_login (Accounts.accounts result))).
Proof.
  apply (ban_then_listed_until_unbanned date_only_parser Sample.now
           "tester01" "2030-01-01" 1893456000000 sample_db).
  - discriminate.
  - unfold Sample.now. lia.
  - reflexivity.
  - reflexivity.
  - vm_compute. reflexivity.
  - vm_compute. discriminate.
  - reflexivity.
  - reflexivity.
Defined.

(** The banned list of the sample before and after banning [tester01]. *)
Example banned_list_grows :
  let banned :=
    AccountRoutes.accounts
      (fst (AccountRoutes.ban_route date_only_parser Sample.now "tester01"
              (Some "2030-01-01") sample_db)) in
  match Accounts.getAccounts Sample.accounts Sample.now Sample.ticking
          (accounts_filtered banned_only),
        Accounts.getAccounts banned Sample.now Sample.ticking
          (accounts_filtered banned_only) with
  | Ok before, Ok after =>
      map Accounts.l_login (Accounts.accounts before) = ["banned02"] /\
      map Accounts.l_login (Accounts.accounts after) =
        ["banned02"; "tester01"]
  | _, _ => False
  end.
Proof. vm_compute. split; reflexivity. Qed.

(* ------------------------------------------------------------------ *)
(** ** Registering and changing a password *)
(* ------------------------------------------------------------------ *)

Lemma length_checks (s : string) (lo : Z) :
  ((AccountRoutes.length_of s <? lo) || (AccountRoutes.length_of s >? 32))%Z =
  negb ((lo <=? AccountRoutes.length_of s) &&
        (AccountRoutes.length_of s <=? 32))%Z.
Proof.
  rewrite negb_andb, Z.gtb_ltb.
  rewrite <- Z.ltb_antisym, <- Z.ltb_antisym. reflexivity.
Qed.

Lemma truthy_text (s : string) :
  s <> "" -> AccountRoutes.truthy (Some (AccountRoutes.JString s)) = true.
Proof. destruct s; [congruence | reflexivity]. Qed.

(** The length is counted in UTF-16 code units: seven Cyrillic letters are
    seven, a letter outside the basic plane is two. *)
Example length_of_text :
  AccountRoutes.length_of "пароль7" = 7 /\
  AccountRoutes.length_of "abé" = 3 /\
  AccountRoutes.length_of
    (String "240"%char (String "159"%char (String "152"%char
       (String "128"%char "")))) = 2.
Proof. repeat split. Qed.

(** X15.  Registration checks its input in a fixed order and writes nothing
    until all checks pass, whatever the stored procedures and the hash do.
    A body whose login or password is missing, empty, [null], [false] or
    zero is answered 400.  For a login and a password that are strings: a
    login that is not 4 to 32 code units long is answered 400; then a
    password that is not 6 to 32 code units long 400; then a login that has
    an account 409.  Only then the account is created, from the hash of the
    password and not the password, and updated with access level 0, no
    last-active time and the email given; if both calls succeed the answer
    is 201. *)
Theorem register_checks
    (defaultHash : string -> string)
    (lip_AccountCreate : string -> string -> AccountRoutes.Eff unit)
    (lip_AccountUpdate : AccountRoutes.UpdateCall -> AccountRoutes.Eff unit)
    (body : AccountRoutes.RegisterBody) (db : AccountRoutes.Db) :
  let route :=
    AccountRoutes.register_route defaultHash lip_AccountCreate
      lip_AccountUpdate body db in
  (AccountRoutes.truthy (AccountRoutes.r_login body) = false \/
   AccountRoutes.truthy (AccountRoutes.r_password body) = false ->
   route = Some (db, fail 400 "Неверный формат данных"
                       (Some "Логин и пароль обязательны для заполнения"))) /\
  (forall l p email,
     AccountRoutes.r_login body = Some (AccountRoutes.JString l) ->
     AccountRoutes.r_password body = Some (AccountRoutes.JString p) ->
     AccountRoutes.nullable_text (AccountRoutes.r_email body) = Some email ->
     l <> "" -> p <> "" ->
     (login_length_ok l = false ->
      route =
      Some (db, fail 400 "Неверный формат данных"
                  (Some "Длина логина должна быть от 4 до 32 символов"))) /\
     (login_length_ok l = true -> password_length_ok p = false ->
      route =
      Some (db, fail 400 "Неверный формат данных"
                  (Some "Длина пароля должна быть от 6 до 32 символов"))) /\
     (login_length_ok l = true -> password_length_ok p = true ->
      Accounts.exists_ (AccountRoutes.accounts db) l = Ok true ->
      route =
      Some (db, fail 409 "Аккаунт с таким логином уже существует" None)) /\
     (login_length_ok l = true -> password_length_ok p = true ->
      Accounts.exists_ (AccountRoutes.accounts db) l = Ok false ->
      forall created updated,
        lip_AccountCreate l (defaultHash p) db = (created, Ok tt) ->
        lip_AccountUpdate
          (AccountRoutes.mkUpdateCall l (Some (defaultHash p)) (Some 0)
             None None None None email)
          created = (updated, Ok tt) ->
        route =
        Some (updated,
              mkResponse 201
                (Json (Accounts.mkSuccess true "Аккаунт успешно создан"))))).
Proof.
  cbv zeta. unfold AccountRoutes.register_route. cbv zeta.
  split.
  - intros [H | H]; rewrite H; cbn [negb orb];
      rewrite ?orb_true_r; reflexivity.
  - intros l p email Hl Hp He Hln Hpn.
    rewrite Hl, Hp, He, !truthy_text by assumption. cbn [negb orb].
    unfold AccountRoutes.register_text. rewrite !length_checks.
    fold (login_length_ok l). fold (password_length_ok p).
    split; [| split; [| split]].
    + intros Hbad. rewrite Hbad. reflexivity.
    + intros Hok Hbad. rewrite Hok, Hbad. reflexivity.
    + intros Hok Hpok Hex. rewrite Hok, Hpok. cbn [negb].
      unfold AccountRoutes.catching, AccountRoutes.seq,
        AccountRoutes.reading.
      rewrite Hex. reflexivity.
    + intros Hok Hpok Hex created updated Hc Hu.
      rewrite Hok, Hpok. cbn [negb].
      unfold AccountRoutes.catching, AccountRoutes.seq at 1,
        AccountRoutes.reading.
      rewrite Hex.
      unfold AccountRoutes.create, AccountRoutes.update, AccountRoutes.seq.
      rewrite Hc. cbn. rewrite Hu. reflexivity.
Qed.

Lemma register_checks_witness :
  AccountRoutes.register_route sample_hash sample_create sample_update
    (AccountRoutes.mkRegisterBody (Some (AccountRoutes.JString "newbie01"))
       (Some (AccountRoutes.JString "secret1")) None)
    sample_db =
  Some
    (AccountRoutes.mkDb
       (Sample.accounts ++
        [Accounts.mkRow "newbie01" "#secret1" (Some 0) None None None None
           None None])%list
       sample_log,
     mkResponse 201 (Json (Accounts.mkSuccess true "Аккаунт успешно создан"))).
Proof.
  pose proof
    (register_checks sample_hash sample_create sample_update
       (AccountRoutes.mkRegisterBody (Some (AccountRoutes.JString "newbie01"))
          (Some (AccountRoutes.JString "secret1")) None)
       sample_db) as H.
  cbv zeta in H. destruct H as (_ & H).
  destruct (H "newbie01" "secret1" None eq_refl eq_refl eq_refl)
    as (_ & _ & _ & Hcreate); [discriminate | discriminate |].
  eapply Hcreate; reflexivity.
Defined.

(** A login of three letters, one of them outside ASCII, is too short,
    and a password of seventeen Cyrillic letters is not too long. *)
Example register_lengths :
  option_map (fun a => status (snd a))
    (AccountRoutes.register_route sample_hash sample_create sample_update
       (AccountRoutes.mkRegisterBody (Some (AccountRoutes.JString "abé"))
          (Some (AccountRoutes.JString "secret1")) None)
       sample_db) = Some 400 /\
  option_map (fun a => status (snd a))
    (AccountRoutes.register_route sample_hash sample_create sample_update
       (AccountRoutes.mkRegisterBody (Some (AccountRoutes.JString "newbie01"))
          (Some (AccountRoutes.JString "семнадцатьбуквабв"))
          (Some AccountRoutes.JNull))
       sample_db) = Some 201 /\
  AccountRoutes.register_route sample_hash sample_create sample_update
    (AccountRoutes.mkRegisterBody (Some (AccountRoutes.JNumber false))
       (Some (AccountRoutes.JString "secret1")) None)
    sample_db = None.
Proof. repeat split. Qed.

(** X16.  Registration writes only for input it accepts, whatever the
    stored procedures and the hash do.  This is about the bodies that are
    followed to their answer: those whose login and password are strings,
    or of which one is missing, empty, [null], [false] or zero.  For such a
    body an answer 201 means that the login is 4 to 32 code units long, the
    password 6 to 32, and that no account had the login; and unless all of
    that holds the database is left as it was and the answer is 400 or
    409.  Nothing is said of a body whose login or password is another
    value, such as a number that is not zero. *)
Theorem register_writes_only_when_valid
    (defaultHash : string -> string)
    (lip_AccountCreate : string -> string -> AccountRoutes.Eff unit)
    (lip_AccountUpdate : AccountRoutes.UpdateCall -> AccountRoutes.Eff unit)
    (body : AccountRoutes.RegisterBody) (db after : AccountRoutes.Db)
    (answer : response Accounts.Success)
    (Hfollowed :
       AccountRoutes.register_route defaultHash lip_AccountCreate
         lip_AccountUpdate body db = Some (after, answer)) :
  let valid :=
    exists l p,
      AccountRoutes.r_login body = Some (AccountRoutes.JString l) /\
      AccountRoutes.r_password body = Some (AccountRoutes.JString p) /\
      login_length_ok l = true /\ password_length_ok p = true /\
      existsb (fun r => String.eqb (Accounts.login r) l)
        (AccountRoutes.accounts db) = false in
  (status answer = 201 -> valid) /\
  (~ valid -> after = db /\ (status answer = 400 \/ status answer = 409)).
Proof.
  cbv zeta. revert Hfollowed.
  unfold AccountRoutes.register_route. cbv zeta.
  destruct (negb (AccountRoutes.truthy (AccountRoutes.r_login body)) ||
            negb (AccountRoutes.truthy (AccountRoutes.r_password body))).
  { intros H. injection H as <- <-. cbn.
    split; [discriminate | auto]. }
  destruct (AccountRoutes.r_login body) as [[| | | l | |] |];
    try discriminate.
  destruct (AccountRoutes.r_password body) as [[| | | p | |] |];
    try discriminate.
  destruct (AccountRoutes.nullable_text _) as [email |]; [| discriminate].
  unfold AccountRoutes.register_text. rewrite !length_checks.
  fold (login_length_ok l). fold (password_length_ok p).
  destruct (login_length_ok l) eqn:Hl; cbn [negb].
  2: { intros H. injection H as <- <-. cbn. split; [discriminate |].
       intros _. auto. }
  destruct (password_length_ok p) eqn:Hp; cbn [negb].
  2: { intros H. injection H as <- <-. cbn. split; [discriminate |].
       intros _. auto. }
  unfold AccountRoutes.catching, AccountRoutes.seq at 1,
    AccountRoutes.reading.
  rewrite exists_spec.
  destruct (existsb _ _) eqn:Hex.
  { intros H. injection H as <- <-. cbn. split; [discriminate |].
    intros _. auto. }
  intros _.
  assert (Hvalid :
            exists l0 p0,
              Some (AccountRoutes.JString l) =
                Some (AccountRoutes.JString l0) /\
              Some (AccountRoutes.JString p) =
                Some (AccountRoutes.JString p0) /\
              login_length_ok l0 = true /\ password_length_ok p0 = true /\
              existsb (fun r => String.eqb (Accounts.login r) l0)
                (AccountRoutes.accounts db) = false).
  { exists l, p. auto. }
  split; [intros _; exact Hvalid | intros Hn; destruct (Hn Hvalid)].
Qed.

Lemma register_writes_only_when_valid_witness :
  (sample_db = sample_db /\ ((409 = 400 \/ 409 = 409) : Prop)).
Proof.
  apply (register_writes_only_when_valid sample_hash sample_create
           sample_update
           (AccountRoutes.mkRegisterBody
              (Some (AccountRoutes.JString "tester01"))
              (Some (AccountRoutes.JString "secret1")) None)
           sample_db sample_db
           (fail 409 "Аккаунт с таким логином уже существует" None)
           eq_refl).
  intros (l & p & Hl & _ & _ & _ & Hfree).
  injection Hl as <-. vm_compute in Hfree. discriminate.
Defined.

(** X17.  Changing a password checks its input in a fixed order and writes
    nothing until all checks pass.  A body whose login or new password is
    missing, empty, [null], [false] or zero is answered 400.  For a login
    and a new password that are strings: a new password that is not 6 to
    32 code units long is answered 400; then a login without an account 404
    (the login's length is not checked).  Otherwise the stored procedure is
    called once, with the login, the hash of the new password and [null]
    for the six other fields; the answer is 200 if it succeeds and 500 if
    it throws, and the database is as the procedure left it. *)
Theorem change_password_checks
    (defaultHash : string -> string)
    (lip_AccountUpdate : AccountRoutes.UpdateCall -> AccountRoutes.Eff unit)
    (body : AccountRoutes.PasswordBody) (db : AccountRoutes.Db) :
  let route :=
    AccountRoutes.change_password_route defaultHash lip_AccountUpdate body
      db in
  (AccountRoutes.truthy (AccountRoutes.p_login body) = false \/
   AccountRoutes.truthy (AccountRoutes.p_newPassword body) = false ->
   route =
   Some (db, fail 400 "Неверный формат данных"
               (Some "Логин и новый пароль обязательны для заполнения"))) /\
  (forall l p,
     AccountRoutes.p_login body = Some (AccountRoutes.JString l) ->
     AccountRoutes.p_newPassword body = Some (AccountRoutes.JString p) ->
     l <> "" -> p <> "" ->
     let known :=
       existsb (fun r => String.eqb (Accounts.login r) l)
         (AccountRoutes.accounts db) in
     (password_length_ok p = false ->
      route =
      Some (db, fail 400 "Неверный формат данных"
                  (Some "Длина нового пароля должна быть от 6 до 32 символов")))
     /\
     (password_length_ok p = true -> known = false ->
      route = Some (db, fail 404 "Аккаунт не найден" None)) /\
     (password_length_ok p = true -> known = true ->
      route =
      Some
        match
          lip_AccountUpdate
            (AccountRoutes.mkUpdateCall l (Some (defaultHash p))
               None None None None None None)
            db
        with
        | (db', Ok _) =>
            (db', mkResponse 200
                    (Json (Accounts.mkSuccess true "Пароль успешно изменен")))
        | (db', Throw e) =>
            (db', fail 500 "Ошибка при изменении пароля" (Some (message e)))
        end)).
Proof.
  cbv zeta. unfold AccountRoutes.change_password_route. cbv zeta.
  split.
  - intros [H | H]; rewrite H; cbn [negb orb];
      rewrite ?orb_true_r; reflexivity.
  - intros l p Hl Hp Hln Hpn.
    rewrite Hl, Hp, !truthy_text by assumption. cbn [negb orb].
    unfold AccountRoutes.change_password_text. rewrite !length_checks.
    fold (password_length_ok p).
    split; [| split].
    + intros Hbad. rewrite Hbad. reflexivity.
    + intros Hok Hknown. rewrite Hok. cbn [negb].
      unfold AccountRoutes.catching, AccountRoutes.seq,
        AccountRoutes.reading.
      rewrite exists_spec, Hknown. reflexivity.
    + intros Hok Hknown. rewrite Hok. cbn [negb].
      unfold AccountRoutes.catching, AccountRoutes.seq,
        AccountRoutes.reading, AccountRoutes.update.
      rewrite exists_spec, Hknown.
      cbn [negb AccountRoutes.d_password
        AccountRoutes.d_accessLevel AccountRoutes.d_lastServerId
        AccountRoutes.d_lastIP AccountRoutes.d_lastHWID
        AccountRoutes.d_lastactive AccountRoutes.d_email].
      destruct (lip_AccountUpdate _ db) as [db' [[] | e]]; reflexivity.
Qed.

Lemma change_password_checks_witness :
  AccountRoutes.change_password_route sample_hash sample_update
    (AccountRoutes.mkPasswordBody (Some (AccountRoutes.JString "tester01"))
       (Some (AccountRoutes.JString "secret2")))
    sample_db =
  Some
    (fst (sample_update
            (AccountRoutes.mkUpdateCall "tester01" (Some "#secret2") None
               None None None None None)
            sample_db),
     mkResponse 200 (Json (Accounts.mkSuccess true "Пароль успешно изменен"))).
Proof.
  pose proof
    (change_password_checks sample_hash sample_update
       (AccountRoutes.mkPasswordBody (Some (AccountRoutes.JString "tester01"))
          (Some (AccountRoutes.JString "secret2")))
       sample_db) as H.
  cbv zeta in H. destruct H as (_ & H).
  destruct (H "tester01" "secret2" eq_refl eq_refl) as (_ & _ & Hknown);
    [discriminate | discriminate |].
  rewrite Hknown; reflexivity.
Defined.

(* ------------------------------------------------------------------ *)
(** ** The API key check *)
(* ------------------------------------------------------------------ *)

(** X18.  A request passes the API key check exactly when the header named by
    [API_KEY_HEADER] (or [X-API-Key] when that is unset or empty) is
    present, not empty, and equal to a configured [API_KEY]; every other
    request is answered 401.  So with [API_KEY] unset or empty no request
    passes, with or without the header. *)
Theorem api_key_gate (env : ApiKey.Env) (headers : ApiKey.Headers) :
  let provided :=
    ApiKey.get headers (str_or (ApiKey.API_KEY_HEADER env) "X-API-Key") in
  (ApiKey.apiKeyMiddleware env headers = ApiKey.Next <->
   exists key, key <> "" /\ provided = Some key /\
               ApiKey.API_KEY env = Some key) /\
  (ApiKey.apiKeyMiddleware env headers <> ApiKey.Next ->
   ApiKey.apiKeyMiddleware env headers =
   ApiKey.Answer
     (mkResponse 401
        (Json (ApiKey.mkUnauthorized "Неавторизованный доступ"
                 "Требуется действительный API-ключ")))) /\
  (truthy_str (ApiKey.API_KEY env) = false ->
   ApiKey.apiKeyMiddleware env headers <> ApiKey.Next).
Proof.
  cbv zeta. unfold ApiKey.apiKeyMiddleware. cbv zeta.
  destruct (ApiKey.get headers _) as [[| c k] |];
    destruct (ApiKey.API_KEY env) as [[| c' k'] |]; cbn [truthy_str negb orb
      ApiKey.differs];
    try (split; [split; [discriminate | intros (key & Hne & Hp & He);
                          congruence]
                | split; [reflexivity | discriminate]]).
  destruct (String.eqb_spec (String c k) (String c' k')) as [E | E];
    cbn [negb].
  - split; [split; [| reflexivity] | split; congruence].
    intros _. exists (String c k). repeat split; congruence.
  - split; [split; [discriminate |] | split; [reflexivity | discriminate]].
    intros (key & Hne & Hp & He). congruence.
Qed.

Example api_key_header_case :
  let env := ApiKey.mkEnv None (Some "k-123") in
  ApiKey.apiKeyMiddleware env [("x-api-key", "k-123")] = ApiKey.Next /\
  ApiKey.apiKeyMiddleware env [("x-api-key", "K-123")] <> ApiKey.Next /\
  ApiKey.apiKeyMiddleware env [("authorization", "k-123")] <> ApiKey.Next /\
  ApiKey.apiKeyMiddleware (ApiKey.mkEnv None None) [] <> ApiKey.Next /\
  ApiKey.apiKeyMiddleware (ApiKey.mkEnv None (Some ""))
    [("x-api-key", "")] <> ApiKey.Next.
Proof. cbv zeta. repeat split; (reflexivity || discriminate). Qed.

(* ------------------------------------------------------------------ *)
(** ** Which handler of the characters router a GET reaches *)
(* ------------------------------------------------------------------ *)

(** A segment that reads [stats] in any case is not a number. *)
Lemma parseInt_stats (s : string) :
  toLowerCase s = "stats" -> parseInt s = NaN.
Proof.
  destruct s as [| c s]; [discriminate |].
  cbn [toLowerCase]. intros H. injection H as Hc _.
  destruct c as [[] [] [] [] [] [] [] []];
    vm_compute in Hc; try discriminate Hc;
    destruct s as [| b [| c r]]; reflexivity.
Qed.

(** Lowering the case of a text adds and removes no escape sign. *)
Lemma lower_plain (s : string) : plain (toLowerCase s) = plain s.
Proof.
  unfold plain. f_equal.
  induction s as [| c s IH]; [reflexivity |].
  cbn [toLowerCase count_char]. rewrite IH. f_equal.
  destruct c as [[] [] [] [] [] [] [] []]; reflexivity.
Qed.

Lemma decode_plain_text (s : string) :
  plain s = true -> decode_plain s = Some s.
Proof. intros H. unfold decode_plain. rewrite H. reflexivity. Qed.

Section RouterFacts.

Variable decode : string -> option string.

Lemma first_match_one (s : string) :
  Router.first_match decode Router.routes [s] =
  if String.eqb (toLowerCase s) "list" then Router.Reached Router.List []
  else if negb (String.eqb s "")
       then match decode s with
            | Some v => Router.Reached Router.ById [v]
            | None => Router.BadRequest
            end
       else if String.eqb (toLowerCase s) "stats"
            then Router.Reached Router.Stats []
            else Router.NoRoute.
Proof.
  cbn. rewrite !andb_true_r, !andb_false_r.
  destruct (decode s); reflexivity.
Qed.

Lemma first_match_two (a b : string) :
  Router.first_match decode Router.routes [a; b] =
  if String.eqb (toLowerCase a) "account" && negb (String.eqb b "")
  then match decode b with
       | Some v => Router.Reached Router.AccountCharacters [v]
       | None => Router.BadRequest
       end
  else if negb (String.eqb a "") && String.eqb (toLowerCase b) "exists"
       then match decode a with
            | Some v => Router.Reached Router.Exists [v]
            | None => Router.BadRequest
            end
       else Router.NoRoute.
Proof.
  cbn. rewrite !andb_true_r, !andb_false_r.
  destruct (decode a), (decode b); reflexivity.
Qed.

Lemma first_match_more (a b c : string) (rest : list string) :
  Router.first_match decode Router.routes (a :: b :: c :: rest) =
  Router.NoRoute.
Proof. cbn. rewrite !andb_false_r. reflexivity. Qed.

End RouterFacts.

Ltac open_routes :=
  repeat match goal with
         | |- _ /\ _ => split
         | |- _ <-> _ => split
         | |- ~ _ => intro
         | |- forall _, _ => intro
         end;
  repeat match goal with
         | H : exists _, _ |- _ => destruct H
         | H : _ /\ _ |- _ => destruct H
         | H : _ \/ _ |- _ => destruct H
         | H : Some _ = Some _ |- _ => inversion H; clear H
         | H : Router.Reached _ _ = Router.Reached _ _ |- _ =>
             inversion H; clear H
         end;
  subst; cbn [toLowerCase] in *.

Ltac close_route :=
  try discriminate; try congruence; try tauto;
  try match goal with
      | H : ?P -> Some _ = Some _, E : ?P |- _ =>
          specialize (H E); congruence
      | H : ?P -> None = Some _, E : ?P |- _ =>
          specialize (H E); discriminate
      | H : ?P -> forall _, _ = _, E : ?P |- _ = _ => apply (H E)
      end;
  try (repeat eexists; (eassumption || congruence)).

Ltac settle_routes :=
  open_routes; close_route;
  try match goal with
      | H : _ ?s = None |- exists _, _ =>
          exists s; split; [exact H |]; split; [assumption |];
          first [ left; close_route; fail
                | right; left; close_route; fail
                | right; right; close_route; fail ]
      end.

(** X19.  The handler a GET of the characters router reaches is decided by
    the first registered path that matches the path as it was sent, and the
    handler is given the parameter decoded; this holds for every decoder.
    Two segments whose first reads [account] reach the account's
    characters; a single segment reaches the list if it reads [list] and
    the character by id otherwise; two segments whose second reads
    [exists] reach the existence check unless the first reads [account].
    When the parameter of the matching path cannot be decoded the answer is
    400 and no later path is tried.  The statistics handler, registered
    after [/:charId], is reached by no path: with a decoder that leaves text
    without an escape sign as it is, a GET of [/stats] is answered by the
    character by id handler, with 400 because [stats] is not a number. *)
Theorem characters_routes_reached
    (decode : string -> option string)
    (Hplain : forall s, plain s = true -> decode s = Some s)
    (path : string) :
  let answer := Router.dispatch decode path in
  let segments := Router.segments path in
  (forall params,
     answer = Router.Reached Router.AccountCharacters params <->
     exists a name v,
       segments = Some [a; name] /\ toLowerCase a = "account" /\
       name <> "" /\ decode name = Some v /\ params = [v]) /\
  (forall params,
     answer = Router.Reached Router.List params <->
     exists s, segments = Some [s] /\ toLowerCase s = "list" /\
               params = []) /\
  (forall params,
     answer = Router.Reached Router.ById params <->
     exists s v,
       segments = Some [s] /\ s <> "" /\ toLowerCase s <> "list" /\
       decode s = Some v /\ params = [v]) /\
  (forall params,
     answer = Router.Reached Router.Exists params <->
     exists name e v,
       segments = Some [name; e] /\ name <> "" /\
       toLowerCase e = "exists" /\ toLowerCase name <> "account" /\
       decode name = Some v /\ params = [v]) /\
  (forall params, answer <> Router.Reached Router.Stats params) /\
  (answer = Router.BadRequest <->
   exists s,
     decode s = None /\ s <> "" /\
     ((segments = Some [s] /\ toLowerCase s <> "list") \/
      (exists a, segments = Some [a; s] /\ toLowerCase a = "account") \/
      (exists e, segments = Some [s; e] /\ toLowerCase e = "exists" /\
                 toLowerCase s <> "account"))) /\
  (forall s, segments = Some [s] -> toLowerCase s = "stats" ->
     answer = Router.Reached Router.ById [s] /\
     forall table,
       Characters.by_id_route table s =
       fail 400 "Неверный формат ID персонажа"
         (Some "ID персонажа должен быть числом")).
Proof.
  cbv zeta. unfold Router.dispatch.
  destruct (Router.segments path) as [[| a [| b [| c rest]]] |];
    [cbn | rewrite first_match_one | rewrite first_match_two
     | rewrite first_match_more |].
  - settle_routes.
  - assert (Hstats : toLowerCase a = "stats" -> decode a = Some a).
    { intros H. apply Hplain. rewrite <- lower_plain, H. reflexivity. }
    assert (Hnum : toLowerCase a = "stats" ->
                   forall table,
                     Characters.by_id_route table a =
                     fail 400 "Неверный формат ID персонажа"
                       (Some "ID персонажа должен быть числом")).
    { intros H table. unfold Characters.by_id_route.
      rewrite (parseInt_stats _ H). reflexivity. }
    clear Hplain.
    destruct (String.eqb_spec (toLowerCase a) "list") as [El | El];
      destruct (String.eqb_spec a "") as [Ea | Ea];
      destruct (decode a) as [v |] eqn:Ed;
      cbn [negb];
      try (destruct (String.eqb_spec (toLowerCase a) "stats");
           [subst a; discriminate |]);
      settle_routes.
  - clear Hplain.
    destruct (String.eqb_spec (toLowerCase a) "account");
      destruct (String.eqb_spec b "");
      destruct (String.eqb_spec a "");
      destruct (String.eqb_spec (toLowerCase b) "exists");
      destruct (decode a) eqn:Eda; destruct (decode b) eqn:Edb;
      cbn [negb andb]; settle_routes.
  - settle_routes.
  - settle_routes.
Qed.

Lemma characters_routes_reached_witness :
  Router.dispatch decode_plain "/Stats" = Router.Reached Router.ById ["Stats"]
  /\
  Characters.by_id_route Sample.characters "Stats" =
  fail 400 "Неверный формат ID персонажа"
    (Some "ID персонажа должен быть числом").
Proof.
  destruct (characters_routes_reached decode_plain decode_plain_text "/Stats")
    as (_ & _ & _ & _ & _ & _ & H).
  destruct (H "Stats" eq_refl eq_refl) as [Hd Hr].
  split; [exact Hd | apply Hr].
Defined.

Example characters_routes :
  map (Router.dispatch decode_plain)
    ["/268480001"; "/list"; "/LIST/"; "/stats"; "/Alpha/exists";
     "/account/tester01"; "/account/exists"; "/"; "/a/b/c"; "/%zz/exists"] =
  [Router.Reached Router.ById ["268480001"];
   Router.Reached Router.List [];
   Router.Reached Router.List [];
   Router.Reached Router.ById ["stats"];
   Router.Reached Router.Exists ["Alpha"];
   Router.Reached Router.AccountCharacters ["tester01"];
   Router.Reached Router.AccountCharacters ["exists"];
   Router.NoRoute; Router.NoRoute; Router.BadRequest].
Proof. reflexivity. Qed.

(** An escaped letter is not read when the path is matched: with a decoder
    that reads [%61] as [a], the character named [account] is asked for
    under [/:charName/exists]. *)
Example escaped_account_exists :
  let decode s :=
    if String.eqb s "%61ccount" then Some "account" else decode_plain s in
  Router.dispatch decode "/%61ccount/exists" =
  Router.Reached Router.Exists ["account"] /\
  Router.dispatch decode "/account/exists" =
  Router.Reached Router.AccountCharacters ["exists"].
Proof. split; reflexivity. Qed.

(* ------------------------------------------------------------------ *)
(** ** Pages are the chunks of one listing *)
(* ------------------------------------------------------------------ *)






Section DistinctKeys.

Context {Row : Type} (lookup : Row -> string -> value).
Variables (field : string) (desc : bool).

Let before (a b : Row) : Prop := comes_before lookup field desc a b = true.











End DistinctKeys.





(** The third page of three of the sample's four accounts is empty, and
    the second is the same from a scan in another order. *)
Example page_past_the_end :
  match Accounts.getAccounts Sample.accounts Sample.now Sample.ticking
          (accounts_paged (accounts_filtered Accounts.no_filters) 3 3) with
  | Ok result =>
      Accounts.accounts result = [] /\
      Accounts.pagination result = mkPagination 4 (Num 3) (Num 3) (Num 2)
  | Throw _ => False
  end /\
  Accounts.getAccounts (rev Sample.accounts) Sample.now Sample.steady
    (accounts_paged (accounts_filtered Accounts.no_filters) 2 3) =
  Accounts.getAccounts Sample.accounts Sample.now Sample.steady
    (accounts_paged (accounts_filtered Accounts.no_filters) 2 3).
Proof. vm_compute. repeat split; reflexivity. Qed.
